(** * DivTracker: the weekly reconciliation of [alpaca_sync_all]

    A shallow embedding of [divtracker.py]: the paginated activity fetch
    ([get_activities_by_type], [get_all_activities_complete]), the event
    normaliser and weekly aggregator, and the per-symbol reconciliation
    loop of [DivTracker.alpaca_sync_all]; the trades cache the sync
    writes and the trade editor that reads it ([open_trade_editor],
    [TradeEditorDialog]); the state file with the symbol last viewed, the
    start of the program and the addition and removal of a symbol; the
    table as the text of its items, with [recalculate_all],
    [refresh_from_state] and [save_state].  The properties of the
    specification that concern the sync come first, further properties of
    the code follow.

    Conventions of the embedding.
    - A Python [float] is a binary64 number: Rocq's primitive [float].
      Operations that raise in Python ([/] by zero, [int()] of a
      non-finite value, the conversion of a too large [int]) return
      [Raise].
    - A Python [int] is a [Z]; a [str] is a [string] of bytes, and the
      white space of [strip] is the ASCII one.
    - A [dict] is an association list in insertion order, with at most one
      binding per key when built by [dict_set]; a [set] of strings is the
      list of its elements in order of insertion.
    - An exception is a value of [exn]; code that may raise lives in the
      [result] monad.  An exception inside [alpaca_sync_all] ends the sync
      before anything is written.
    - The server is a function from the requests of a sync to their
      answers; what the program prints is kept only where a property
      speaks of it (the duplicate and ignored fills).

    Left out: the widgets and their signals (the symbol selector, the
    flags and colours of the items), the exports and the credentials
    dialog. *)

From Stdlib Require Import ZArith List String Ascii Bool Lia Permutation.
From Stdlib Require Import DecimalString DecimalPos DecimalZ Sorted.
From Stdlib Require Import PrimFloat SpecFloat FloatOps FloatAxioms.
Import ListNotations.

Local Open Scope string_scope.
Local Open Scope list_scope.
Local Open Scope Z_scope.

(** String concatenation, kept apart from the append of lists. *)
Infix "+++" := String.append (at level 60, right associativity).

(** ** Exceptions and the error monad *)

Inductive exn : Type :=
| ZeroDivisionError
| ValueError
| OverflowError
| KeyError
| IndexError
| RequestException.

Inductive result (A : Type) : Type :=
| Ok (a : A)
| Raise (e : exn).

Arguments Ok {A} a.
Arguments Raise {A} e.

Definition bind {A B : Type} (m : result A) (k : A -> result B) : result B :=
  match m with
  | Ok a => k a
  | Raise e => Raise e
  end.

Notation "x <- m ;; k" := (bind m (fun x => k))
  (at level 61, m at next level, right associativity).
Notation "' p <- m ;; k" := (bind m (fun p => k))
  (at level 61, p pattern, m at next level, right associativity).

(** [for x in xs: st = body(st, x)], stopping at the first exception. *)
Fixpoint foldM {A S : Type} (body : S -> A -> result S) (xs : list A) (st : S)
  : result S :=
  match xs with
  | [] => Ok st
  | x :: xs' => st' <- body st x ;; foldM body xs' st'
  end.

(** ** Strings *)

Definition chars (s : string) : list ascii := list_ascii_of_string s.

(** The ASCII characters [str.strip()] removes. *)
Definition is_space (c : ascii) : bool :=
  let n := N_of_ascii c in
  ((9 <=? n)%N && (n <=? 13)%N) || ((28 <=? n)%N && (n <=? 32)%N).

Fixpoint lstrip (s : string) : string :=
  match s with
  | EmptyString => EmptyString
  | String c s' => if is_space c then lstrip s' else s
  end.

Fixpoint rstrip (s : string) : string :=
  match s with
  | EmptyString => EmptyString
  | String c s' =>
      match rstrip s' with
      | EmptyString => if is_space c then EmptyString else String c EmptyString
      | r => String c r
      end
  end.

(** [s.strip()] *)
Definition strip (s : string) : string := rstrip (lstrip s).

(** Truth value of a [str]: the empty string is false. *)
Definition truthy (s : string) : bool :=
  match s with
  | EmptyString => false
  | String _ _ => true
  end.

Definition lower_char (c : ascii) : ascii :=
  let n := N_of_ascii c in
  if ((65 <=? n)%N && (n <=? 90)%N) then ascii_of_N (n + 32) else c.

(** [s.lower()] on ASCII letters. *)
Fixpoint lower (s : string) : string :=
  match s with
  | EmptyString => EmptyString
  | String c s' => String (lower_char c) (lower s')
  end.

(** [s[:n]] *)
Definition prefix_n (n : nat) (s : string) : string := substring 0 n s.

(** [str(n)] for an [int]. *)
Definition str_of_int (n : Z) : string := NilZero.string_of_int (Z.to_int n).

(** [f"{n:02d}"] *)
Definition fmt_02d (n : Z) : string :=
  let s := str_of_int n in
  if (String.length s <? 2)%nat then "0" +++ s else s.

(** [s.split(sep)] for a one-character separator. *)
Fixpoint split_on (sep : ascii) (s : string) : list string :=
  match s with
  | EmptyString => [EmptyString]
  | String c s' =>
      if Ascii.eqb c sep then EmptyString :: split_on sep s'
      else match split_on sep s' with
           | [] => [String c EmptyString]
           | p :: ps => String c p :: ps
           end
  end.

(** [int(s)] on a string: surrounding white space, an optional sign and
    decimal digits; anything else is a [ValueError] (underscores between
    digits, which no week key holds, are not read). *)
Definition int_of_str (s : string) : result Z :=
  match strip s with
  | String "+" t =>
      match NilZero.uint_of_string t with
      | Some u => Ok (Z.of_uint u)
      | None => Raise ValueError
      end
  | t =>
      match NilZero.int_of_string t with
      | Some i => Ok (Z.of_int i)
      | None => Raise ValueError
      end
  end.

(** ** Floats *)

Definition float0 : float := 0%float.

(** [a / b] raises [ZeroDivisionError] when [b == 0.0]. *)
Definition py_div (a b : float) : result float :=
  if PrimFloat.eqb b float0 then Raise ZeroDivisionError
  else Ok (PrimFloat.div a b).

(** Conversion of an [int] operand in mixed arithmetic: round to nearest
    even, [OverflowError] beyond the largest finite double. *)
Definition float_of_int (n : Z) : result float :=
  match binary_normalize prec emax n 0 false with
  | S754_infinity _ => Raise OverflowError
  | sf => Ok (SF2Prim sf)
  end.

(** [int(x)]: truncation toward zero; [ValueError] on nan, [OverflowError]
    on an infinity. *)
Definition py_int (x : float) : result Z :=
  match Prim2SF x with
  | S754_nan => Raise ValueError
  | S754_infinity _ => Raise OverflowError
  | S754_zero _ => Ok 0
  | S754_finite s m e =>
      let a := if 0 <=? e then Zpos m * 2 ^ e else Zpos m / 2 ^ (- e) in
      Ok (if s then - a else a)
  end.

(** The mathematical floor of a finite float, for comparison with
    [py_int]. *)
Definition float_floor (x : float) : option Z :=
  match Prim2SF x with
  | S754_nan => None
  | S754_infinity _ => None
  | S754_zero _ => Some 0
  | S754_finite s m e =>
      let sm := if s then Zneg m else Zpos m in
      Some (if 0 <=? e then sm * 2 ^ e else sm / 2 ^ (- e))
  end.

(** [m * 2^e * 10^d] rounded to the nearest integer, ties to even. *)
Definition scaled_rne (d : Z) (m : positive) (e : Z) : Z :=
  let n := Zpos m * 10 ^ d in
  if 0 <=? e then n * 2 ^ e
  else
    let q := 2 ^ (- e) in
    let a := n / q in
    let r := n mod q in
    match 2 * r ?= q with
    | Lt => a
    | Gt => a + 1
    | Eq => if Z.even a then a else a + 1
    end.

(** Groups of three digits separated by commas, from the right. *)
Fixpoint group3 (fuel : nat) (n : Z) : string :=
  match fuel with
  | O => str_of_int n
  | S fuel' =>
      if n <? 1000 then str_of_int n
      else
        let r := n mod 1000 in
        let pad := if r <? 10 then "00" else if r <? 100 then "0" else "" in
        group3 fuel' (n / 1000) +++ "," +++ pad +++ str_of_int r
  end.

Fixpoint zeros (n : nat) : string :=
  match n with
  | O => ""
  | S n' => "0" +++ zeros n'
  end.

(** The digits of a fixed-point rendering with [d] decimals of the
    non-negative scaled integer [n]. *)
Definition fixed_digits (comma : bool) (d : nat) (n : Z) : string :=
  let p := 10 ^ Z.of_nat d in
  let ip := n / p in
  let fp := str_of_int (n mod p) in
  (if comma then group3 (Z.to_nat (Z.log2 ip)) ip else str_of_int ip)
  +++ "." +++ zeros (d - String.length fp) +++ fp.

(** [f"{x:.{d}f}"], and [f"{x:,.{d}f}"] when [comma] is set. *)
Definition fmt_fixed (comma : bool) (d : nat) (x : float) : string :=
  match Prim2SF x with
  | S754_nan => "nan"
  | S754_infinity s => if s then "-inf" else "inf"
  | S754_zero s => (if s then "-" else "") +++ fixed_digits comma d 0
  | S754_finite s m e =>
      (if s then "-" else "")
      +++ fixed_digits comma d (scaled_rne (Z.of_nat d) m e)
  end.

Definition fmt_2f : float -> string := fmt_fixed false 2.
Definition fmt_c2f : float -> string := fmt_fixed true 2.
Definition fmt_4f : float -> string := fmt_fixed false 4.

(** [round(x, 2)]: the double nearest to the two-decimal rendering of [x];
    non-finite values are returned as they are. *)
Definition round2 (x : float) : float :=
  match Prim2SF x with
  | S754_finite s m e =>
      match scaled_rne 2 m e with
      | Zpos n =>
          SF2Prim (SFdiv prec emax (S754_finite s n 0) (S754_finite false 100 0))
      | _ => if s then (- float0)%float else float0
      end
  | _ => x
  end.

(** ** Dictionaries *)

Section Dict.
Context {V : Type}.

Definition dict : Type := list (string * V).

Fixpoint dict_get (k : string) (d : dict) : option V :=
  match d with
  | [] => None
  | (k', v) :: d' => if String.eqb k k' then Some v else dict_get k d'
  end.

(** [k in d] *)
Definition dict_mem (k : string) (d : dict) : bool :=
  match dict_get k d with
  | Some _ => true
  | None => false
  end.

(** [d[k] = v]: an existing key keeps its position, a new one goes last. *)
Fixpoint dict_set (k : string) (v : V) (d : dict) : dict :=
  match d with
  | [] => [(k, v)]
  | (k', v') :: d' =>
      if String.eqb k k' then (k', v) :: d' else (k', v') :: dict_set k v d'
  end.

(** [d.pop(k, None)]: the binding of [k] is removed. *)
Definition dict_pop (k : string) (d : dict) : dict :=
  filter (fun kv => negb (String.eqb k (fst kv))) d.

Definition dict_keys (d : dict) : list string := map fst d.

End Dict.

Arguments dict V : clear implicits.

(** A [set] of strings, kept as the list of its elements in order of
    first insertion. *)
Definition str_mem (k : string) (s : list string) : bool :=
  existsb (String.eqb k) s.

Definition str_add (k : string) (s : list string) : list string :=
  if str_mem k s then s else s ++ [k].

(** ** Calendar: [datetime.fromisoformat] and [isocalendar] *)

Definition is_leap (y : Z) : bool :=
  ((y mod 4 =? 0) && negb (y mod 100 =? 0)) || (y mod 400 =? 0).

Definition days_in_month (y m : Z) : Z :=
  if m =? 2 then (if is_leap y then 29 else 28)
  else if (m =? 4) || (m =? 6) || (m =? 9) || (m =? 11) then 30
  else 31.

Definition days_before_year (y : Z) : Z :=
  let y1 := y - 1 in
  y1 * 365 + y1 / 4 - y1 / 100 + y1 / 400.

Fixpoint days_before_month_aux (y : Z) (n : nat) : Z :=
  match n with
  | O => 0
  | S n' => days_before_month_aux y n' + days_in_month y (Z.of_nat n)
  end.

Definition days_before_month (y m : Z) : Z :=
  days_before_month_aux y (Z.to_nat (m - 1)).

Definition ymd2ord (y m d : Z) : Z :=
  days_before_year y + days_before_month y m + d.

Definition isoweek1monday (y : Z) : Z :=
  let firstday := ymd2ord y 1 1 in
  let firstweekday := (firstday + 6) mod 7 in
  let week1monday := firstday - firstweekday in
  if 3 <? firstweekday then week1monday + 7 else week1monday.

(** [date(y, m, d).isocalendar()[:2]] as (ISO year, ISO week). *)
Definition isocalendar (y m d : Z) : Z * Z :=
  let today := ymd2ord y m d in
  let week := (today - isoweek1monday y) / 7 in
  if week <? 0 then
    (y - 1, (today - isoweek1monday (y - 1)) / 7 + 1)
  else if (52 <=? week) && (isoweek1monday (y + 1) <=? today) then
    (y + 1, 1)
  else (y, week + 1).

Definition is_digit (c : ascii) : bool :=
  let n := N_of_ascii c in ((48 <=? n)%N && (n <=? 57)%N).

Definition digits_val (s : string) : option Z :=
  if forallb is_digit (chars s) && negb (String.eqb s "")
  then option_map Z.of_uint (NilZero.uint_of_string s)
  else None.

(** [datetime.fromisoformat(s)] on a calendar date [YYYY-MM-DD], the form
    of the feed's [date] field and of the first ten characters of its
    [transaction_time]; any other string is a [ValueError]. *)
Definition fromisoformat (s : string) : result (Z * Z * Z) :=
  if negb (String.length s =? 10)%nat then Raise ValueError
  else if negb (String.eqb (substring 4 1 s) "-" && String.eqb (substring 7 1 s) "-")
  then Raise ValueError
  else
    match digits_val (substring 0 4 s), digits_val (substring 5 2 s),
          digits_val (substring 8 2 s) with
    | Some y, Some m, Some d =>
        if (1 <=? y) && (1 <=? m) && (m <=? 12) && (1 <=? d)
           && (d <=? days_in_month y m)
        then Ok (y, m, d)
        else Raise ValueError
    | _, _, _ => Raise ValueError
    end.

(** [f"{w:02d}/{y}"] *)
Definition fmt_kw (w y : Z) : string := fmt_02d w +++ "/" +++ str_of_int y.

(** The week key of a date string. *)
Definition kw_of_date (dstr : string) : result string :=
  '(y, m, d) <- fromisoformat dstr ;;
  let '(iy, iw) := isocalendar y m d in
  Ok (fmt_kw iw iy).

(** ** Activities and the brokerage feed *)

(** One record of the activity feed: the keys the program reads, each
    absent or present.  Numeric fields hold the value [float()] returns
    on them. *)
Record activity : Type := {
  a_activity_type : option string;
  a_symbol : option string;
  a_date : option string;
  a_transaction_time : option string;
  a_side : option string;
  a_type : option string;
  a_id : option string;
  a_qty : option float;
  a_price : option float;
  a_net_amount : option float;
  a_amount : option float
}.

Record position : Type := {
  p_symbol : string;
  p_current_price : float
}.

Definition get_or {A : Type} (o : option A) (d : A) : A :=
  match o with
  | Some a => a
  | None => d
  end.

(** [x or y] on optional strings: [x] when present and non-empty. *)
Definition str_or (x : option string) (y : option string) : option string :=
  match x with
  | Some s => if truthy s then Some s else y
  | None => y
  end.

Inductive request : Type :=
| ReqActivities (activity_type : string) (after : option string) (until : option string)
| ReqPositions.

Inductive response : Type :=
| RespActivities (data : list activity)
| RespPositions (data : list position)
| RespError.

(** The server: the answer to the [n]-th request of a sync. *)
Definition network : Type := nat -> request -> response.

(** [get_activities_by_type] (lines 111-163): the [while True] loop, one
    request per iteration; [n] counts the requests sent so far and [fuel]
    bounds the iterations.  A request that does not return a list of
    activities is the [except] branch: the loop ends.  The result carries
    the request counter reached. *)
Fixpoint fetch_pages (fuel : nat) (net : network) (n : nat)
    (activity_type : string) (after until : option string)
    (all_activities : list activity) : option (list activity * nat) :=
  match fuel with
  | O => None
  | S fuel' =>
      match net n (ReqActivities activity_type after until) with
      | RespActivities data =>
          match data with
          | [] => Some (all_activities, S n)
          | d :: ds =>
              let all' := all_activities ++ data in
              if (List.length data <? 100)%nat then Some (all', S n)
              else
                let lst := last ds d in
                match str_or (a_date lst) (a_transaction_time lst) with
                | Some last_date =>
                    if truthy last_date
                    then fetch_pages fuel' net (S n) activity_type
                           (Some (prefix_n 10 last_date)) until all'
                    else Some (all', S n)
                | None => Some (all', S n)
                end
          end
      | RespPositions _ | RespError => Some (all_activities, S n)
      end
  end.

Definition get_activities_by_type (fuel : nat) (net : network) (n : nat)
    (activity_type : string) (after until : option string)
  : option (list activity * nat) :=
  fetch_pages fuel net n activity_type
    (match after with Some s => if truthy s then after else None | None => None end)
    (match until with Some s => if truthy s then until else None | None => None end)
    [].

(** [get_all_activities_complete] (lines 165-191): fills, then dividends,
    then withholding. *)
Definition get_all_activities_complete (fuel : nat) (net : network) (n : nat)
    (after until : option string) : option (list activity * nat) :=
  match get_activities_by_type fuel net n "FILL" after until with
  | None => None
  | Some (fills, n1) =>
      match get_activities_by_type fuel net n1 "DIV" after until with
      | None => None
      | Some (divs, n2) =>
          match get_activities_by_type fuel net n2 "DIVNRA" after until with
          | None => None
          | Some (divnra, n3) => Some (fills ++ divs ++ divnra, n3)
          end
      end
  end.

(** [get_alpaca_positions] (lines 99-109): one request;
    [raise_for_status] lets the error through. *)
Definition get_alpaca_positions (net : network) (n : nat)
  : result (list position) :=
  match net n ReqPositions with
  | RespPositions data => Ok data
  | _ => Raise RequestException
  end.

(** ** Tracked state *)

Definition COLUMNS : list string :=
  ["KW"; "Start"; "Div/W"; "Brutto"; "WHT"; "Netto"; "DRIP"; "Gesamt";
   "Preis"; "Wert"; "Ø/Woche"; "Jahr"; "Rendite"; "Edit"].

(** A table row: a [dict] from column name to cell text. *)
Definition row : Type := dict string.

(** The state of one symbol, as stored in the state file. *)
Record symstate : Type := {
  invest : float;
  rows : list row;
  last_modified : option string
}.

Definition states_t : Type := dict symstate.

Record trade : Type := {
  order_id : string;
  t_qty : float;
  t_price : float
}.

(** The weekly totals of one symbol. *)
Record bucket : Type := {
  div_gross : float;
  div_tax : float;
  buy_total_cost : float;
  buy_total_qty : float;
  sell_total_cost : float;
  sell_total_qty : float;
  trades : list trade
}.

Definition empty_bucket : bucket :=
  {| div_gross := float0; div_tax := float0;
     buy_total_cost := float0; buy_total_qty := float0;
     sell_total_cost := float0; sell_total_qty := float0;
     trades := [] |}.

(** ** Event normaliser and weekly aggregator *)

(** [symbols_with_divs] (lines 554-559): the symbols of the dividend and
    withholding records of the fetch. *)
Definition is_div_type (a : activity) : bool :=
  match a_activity_type a with
  | Some t => String.eqb t "DIV" || String.eqb t "DIVNRA"
  | None => false
  end.

Definition symbols_with_divs (acts : list activity) : list string :=
  fold_left
    (fun s a =>
       if is_div_type a then
         match a_symbol a with
         | Some sym => if truthy sym then str_add sym s else s
         | None => s
         end
       else s)
    acts [].

(** Symbols without dividends are popped from the state (lines 563-566). *)
Definition drop_symbols (swd : list string) (states : states_t) : states_t :=
  fold_left
    (fun st sym => if str_mem sym swd then st else dict_pop sym st)
    (dict_keys states) states.

(** Symbols with dividends not yet tracked get an empty state (lines
    568-570). *)
Definition add_symbols (swd : list string) (states : states_t) : states_t :=
  fold_left
    (fun st sym =>
       if dict_mem sym st then st
       else dict_set sym {| invest := float0; rows := []; last_modified := None |} st)
    swd states.

Inductive note : Type :=
| Duplicate (order_id : string)
| Ignored (order_id : string).

(** The state of the aggregation loop: the [grouped] totals, the order
    identifiers seen, and the lines reported on the console. *)
Record gstate : Type := {
  grouped : dict (dict bucket);
  seen_order_ids : list string;
  notes : list note
}.

(** [grouped[sym][kw]] updated in place, both levels created on first
    access as the [defaultdict]s do. *)
Definition upd_bucket (sym kw : string) (f : bucket -> bucket)
    (g : dict (dict bucket)) : dict (dict bucket) :=
  let weeks := get_or (dict_get sym g) [] in
  let b := get_or (dict_get kw weeks) empty_bucket in
  dict_set sym (dict_set kw (f b) weeks) g.

Definition add_buy (oid : string) (qty price : float) (b : bucket) : bucket :=
  {| div_gross := div_gross b; div_tax := div_tax b;
     buy_total_cost := (buy_total_cost b + qty * price)%float;
     buy_total_qty := (buy_total_qty b + qty)%float;
     sell_total_cost := sell_total_cost b; sell_total_qty := sell_total_qty b;
     trades := trades b ++ [{| order_id := oid; t_qty := qty; t_price := price |}] |}.

Definition add_sell (qty price : float) (b : bucket) : bucket :=
  {| div_gross := div_gross b; div_tax := div_tax b;
     buy_total_cost := buy_total_cost b; buy_total_qty := buy_total_qty b;
     sell_total_cost := (sell_total_cost b + qty * price)%float;
     sell_total_qty := (sell_total_qty b + qty)%float;
     trades := trades b |}.

Definition add_div (amt : float) (b : bucket) : bucket :=
  {| div_gross := (div_gross b + amt)%float; div_tax := div_tax b;
     buy_total_cost := buy_total_cost b; buy_total_qty := buy_total_qty b;
     sell_total_cost := sell_total_cost b; sell_total_qty := sell_total_qty b;
     trades := trades b |}.

Definition add_tax (amt : float) (b : bucket) : bucket :=
  {| div_gross := div_gross b; div_tax := (div_tax b + amt)%float;
     buy_total_cost := buy_total_cost b; buy_total_qty := buy_total_qty b;
     sell_total_cost := sell_total_cost b; sell_total_qty := sell_total_qty b;
     trades := trades b |}.

(** [float(a.get("net_amount", a.get("amount", 0)))] *)
Definition amount_of (a : activity) : float :=
  match a_net_amount a with
  | Some x => x
  | None => get_or (a_amount a) float0
  end.

(** The order identifier of a fill: [a.get("id", f"{sym}_{kw}")]. *)
Definition order_id_of (a : activity) (sym kw : string) : string :=
  get_or (a_id a) (sym +++ "_" +++ kw).

(** An executed order: [a.get("type", "").lower().strip()] is a full or
    a partial fill. *)
Definition is_execution (a : activity) : bool :=
  let trade_type := strip (lower (get_or (a_type a) "")) in
  String.eqb trade_type "fill" || String.eqb trade_type "partial_fill".

(** The date string of a record:
    [a.get("date") or a.get("transaction_time", "")[:10]]. *)
Definition date_of (a : activity) : string :=
  get_or (str_or (a_date a)
                 (Some (prefix_n 10 (get_or (a_transaction_time a) "")))) "".

(** One iteration of [for a in acts] (lines 587-645) on the totals and
    the identifiers seen; the third component is the line the iteration
    reports. *)
Definition normalize_event (states : states_t) (ignored_trades : dict bool)
    (g : dict (dict bucket)) (seen : list string) (a : activity)
  : result (dict (dict bucket) * list string * option note) :=
  let sym := get_or (a_symbol a) "" in
  if negb (truthy sym) || negb (dict_mem sym states) then Ok (g, seen, None)
  else
    let typ := get_or (a_activity_type a) "" in
    let dstr := date_of a in
    if negb (truthy dstr) then Ok (g, seen, None)
    else
      kw <- kw_of_date dstr ;;
      if String.eqb typ "FILL" then
        if negb (is_execution a) then Ok (g, seen, None)
        else
          let oid := order_id_of a sym kw in
          if str_mem oid seen then Ok (g, seen, Some (Duplicate oid))
          else
            let seen := str_add oid seen in
            if get_or (dict_get oid ignored_trades) false then
              Ok (g, seen, Some (Ignored oid))
            else
              let qty := get_or (a_qty a) float0 in
              if PrimFloat.leb qty float0 then Ok (g, seen, None)
              else
                let price := get_or (a_price a) float0 in
                match a_side a with
                | Some side =>
                    if String.eqb side "buy" then
                      Ok (upd_bucket sym kw (add_buy oid qty price) g, seen, None)
                    else if String.eqb side "sell" then
                      Ok (upd_bucket sym kw (add_sell qty price) g, seen, None)
                    else Ok (g, seen, None)
                | None => Ok (g, seen, None)
                end
      else if String.eqb typ "DIV" then
        Ok (upd_bucket sym kw (add_div (amount_of a)) g, seen, None)
      else if String.eqb typ "DIVNRA" then
        Ok (upd_bucket sym kw (add_tax (amount_of a)) g, seen, None)
      else Ok (g, seen, None).

(** The body of [for a in acts] that fills [grouped]. *)
Definition normalize_step (states : states_t) (ignored_trades : dict bool)
    (st : gstate) (a : activity) : result gstate :=
  '(g, seen, line) <-
    normalize_event states ignored_trades (grouped st) (seen_order_ids st) a ;;
  Ok {| grouped := g;
        seen_order_ids := seen;
        notes := match line with
                 | Some n => notes st ++ [n]
                 | None => notes st
                 end |}.

Definition gstate0 : gstate :=
  {| grouped := []; seen_order_ids := []; notes := [] |}.

Definition normalize (states : states_t) (ignored_trades : dict bool)
    (acts : list activity) : result gstate :=
  foldM (normalize_step states ignored_trades) acts gstate0.

(** ** Reconciliation engine *)

(** The running totals threaded through the weeks of one symbol. *)
Record acc : Type := {
  total_invested : float;
  cumulative_shares : Z;
  cumulative_div_total : float;
  week_count : Z
}.

Definition acc0 : acc :=
  {| total_invested := float0; cumulative_shares := 0;
     cumulative_div_total := float0; week_count := 0 |}.

Definition div_by_int (a : float) (n : Z) : result float :=
  f <- float_of_int n ;; py_div a f.

Definition int_times (n : Z) (a : float) : result float :=
  f <- float_of_int n ;; Ok (f * a)%float.

Definition times_int (a : float) (n : Z) : result float :=
  f <- float_of_int n ;; Ok (a * f)%float.

Definition net_div_of (vals : bucket) : float :=
  (div_gross vals - abs (div_tax vals))%float.

(** [r.get(c, "")] *)
Definition cell (c : string) (r : row) : string := get_or (dict_get c r) "".

(** [{r["KW"]: r for r in rows}] *)
Definition existing_rows_of (rs : list row) : result (dict row) :=
  foldM
    (fun d r =>
       match dict_get "KW" r with
       | Some kw => Ok (dict_set kw r d)
       | None => Raise KeyError
       end)
    rs [].

(** The test of the [Div/W] protection (line 716): the week has a stored
    row whose [Div/W] cell is not blank. *)
Definition kept_div_w (existing_rows : dict row) (kw : string) : option string :=
  match dict_get kw existing_rows with
  | Some r =>
      if truthy (strip (cell "Div/W" r))
      then Some (cell "Div/W" r)
      else None
  | None => None
  end.

(** The [Div/W] cell of the week (lines 716-725). *)
Definition div_w_cell (existing_rows : dict row) (kw : string)
    (gross_div : float) (start_shares : Z) : result string :=
  match kept_div_w existing_rows kw with
  | Some v => Ok v
  | None =>
      if 0 <? start_shares then
        rate <- div_by_int gross_div start_shares ;;
        Ok (fmt_4f rate)
      else Ok ""
  end.

(** [if buy_qty > 0: ... else: ...] (lines 727-745): the shares bought
    join the position, and the purchase is either paid by the week's
    dividend or adds to the invested capital. *)
Definition buy_block (current_price : float) (vals : bucket) (st : acc)
    (r : row) : result (acc * row) :=
  let net_div := net_div_of vals in
  let buy_cost := buy_total_cost vals in
  let buy_qty := buy_total_qty vals in
  if PrimFloat.ltb float0 buy_qty then
    n <- py_int buy_qty ;;
    let shares := cumulative_shares st + n in
    avg_buy_price <- py_div buy_cost buy_qty ;;
    let r := dict_set "Preis" (fmt_2f avg_buy_price) r in
    if PrimFloat.leb buy_cost net_div then
      q <- py_div net_div avg_buy_price ;;
      drip_shares <- py_int q ;;
      Ok ({| total_invested := total_invested st;
             cumulative_shares := shares;
             cumulative_div_total := cumulative_div_total st;
             week_count := week_count st |},
          dict_set "DRIP" (str_of_int drip_shares) r)
    else
      let net_investment := (buy_cost - net_div)%float in
      Ok ({| total_invested := (total_invested st + net_investment)%float;
             cumulative_shares := shares;
             cumulative_div_total := cumulative_div_total st;
             week_count := week_count st |},
          dict_set "DRIP" "0" r)
  else
    let r :=
      if PrimFloat.ltb float0 current_price
      then dict_set "Preis" (fmt_2f current_price) r else r in
    Ok (st, dict_set "DRIP" "0" r).

(** [if sell_qty > 0: ...] (lines 747-751): the proceeds leave the
    invested capital and the position is cleared; the report line renders
    [int(sell_qty)]. *)
Definition sell_block (vals : bucket) (st : acc) : result acc :=
  if PrimFloat.ltb float0 (sell_total_qty vals) then
    _ <- py_int (sell_total_qty vals) ;;
    Ok {| total_invested := (total_invested st - sell_total_cost vals)%float;
          cumulative_shares := 0;
          cumulative_div_total := cumulative_div_total st;
          week_count := week_count st |}
  else Ok st.

Definition blank_row : row := map (fun c => (c, "")) COLUMNS.

(** The row of a week as it stands before the [Div/W] protection (lines
    691-711): the week key, the shares carried in and the dividend
    cells. *)
Definition row_head (kw : string) (st : acc) (vals : bucket) : row :=
  let r := dict_set "KW" kw blank_row in
  let r := dict_set "Start" (str_of_int (cumulative_shares st)) r in
  let gross_div := div_gross vals in
  let wht_div := abs (div_tax vals) in
  let net_div := (gross_div - wht_div)%float in
  let r := dict_set "Brutto" ("$" +++ fmt_c2f gross_div) r in
  let r := dict_set "WHT" ("$" +++ fmt_c2f wht_div) r in
  dict_set "Netto" ("$" +++ fmt_c2f net_div) r.

(** The rest of the loop body after the sell block (lines 753-789): the
    position, its value, the dividend averages and the return. *)
Definition finish_week (current_price : float) (vals : bucket) (st : acc)
    (r : row) : result (acc * row) :=
  let net_div := net_div_of vals in
  let r := dict_set "Gesamt" (str_of_int (cumulative_shares st)) r in
  wert <-
    (if PrimFloat.ltb float0 current_price then
       w <- int_times (cumulative_shares st) current_price ;;
       Ok ("$" +++ fmt_c2f w)
     else Ok "$0.00") ;;
  let r := dict_set "Wert" wert r in
  let cdt := (cumulative_div_total st + net_div)%float in
  let wc := week_count st + 1 in
  avgw <-
    (if 0 <? wc then
       a <- div_by_int cdt wc ;; Ok ("$" +++ fmt_2f a)
     else Ok "$0.00") ;;
  let r := dict_set "Ø/Woche" avgw r in
  jahr <-
    (if 0 <? wc then
       a <- div_by_int cdt wc ;;
       y <- times_int a 52 ;;
       Ok ("$" +++ fmt_c2f y)
     else Ok "$0.00") ;;
  let r := dict_set "Jahr" jahr r in
  let rendite := (cdt - total_invested st)%float in
  let r :=
    dict_set "Rendite"
      (if PrimFloat.ltb rendite float0
       then "$-" +++ fmt_c2f (abs rendite)
       else "$" +++ fmt_c2f rendite) r in
  let r := dict_set "Edit" "Edit" r in
  Ok ({| total_invested := total_invested st;
         cumulative_shares := cumulative_shares st;
         cumulative_div_total := cdt;
         week_count := wc |}, r).

(** The body of [for kw in sorted_weeks] (lines 689-789). *)
Definition process_week (current_price : float) (existing_rows : dict row)
    (st : acc) (kw : string) (vals : bucket) : result (acc * row) :=
  let r := row_head kw st vals in
  dw <- div_w_cell existing_rows kw (div_gross vals) (cumulative_shares st) ;;
  let r := dict_set "Div/W" dw r in
  '(st, r) <- buy_block current_price vals st r ;;
  st <- sell_block vals st ;;
  finish_week current_price vals st r.

(** [(int(k.split("/")[1]), int(k.split("/")[0]))] *)
Definition sort_key (k : string) : result (Z * Z) :=
  let parts := split_on "/" k in
  match nth_error parts 1 with
  | None => Raise IndexError
  | Some ys =>
      y <- int_of_str ys ;;
      match nth_error parts 0 with
      | None => Raise IndexError
      | Some ws => w <- int_of_str ws ;; Ok (y, w)
      end
  end.

Definition key_le (a b : Z * Z) : bool :=
  (fst a <? fst b) || ((fst a =? fst b) && (snd a <=? snd b)).

Fixpoint insert_by_key (x : (Z * Z) * string) (l : list ((Z * Z) * string))
  : list ((Z * Z) * string) :=
  match l with
  | [] => [x]
  | y :: l' =>
      if key_le (fst x) (fst y) then x :: y :: l' else y :: insert_by_key x l'
  end.

Fixpoint with_keys (ks : list string) : result (list ((Z * Z) * string)) :=
  match ks with
  | [] => Ok []
  | k :: ks' =>
      key <- sort_key k ;;
      rest <- with_keys ks' ;;
      Ok ((key, k) :: rest)
  end.

(** [sorted(weeks.keys(), key=...)]: the keys are computed first, then a
    stable sort. *)
Definition sorted_weeks_of (ks : list string) : result (list string) :=
  keyed <- with_keys ks ;;
  Ok (map snd (fold_right insert_by_key [] keyed)).

(** The current price of a symbol: the first position that names it. *)
Fixpoint price_of (positions : list position) (sym : string) : float :=
  match positions with
  | [] => float0
  | pos :: rest =>
      if String.eqb (p_symbol pos) sym then p_current_price pos
      else price_of rest sym
  end.

(** The rows stored for a symbol: [states.get(sym, {}).get("rows", [])]. *)
Definition stored_rows (states : states_t) (sym : string) : list row :=
  match dict_get sym states with
  | Some s => rows s
  | None => []
  end.

(** The loop over the sorted weeks of one symbol. *)
Definition week_body (current_price : float) (existing_rows : dict row)
    (weeks : dict bucket) (st : acc * list row) (kw : string)
  : result (acc * list row) :=
  match dict_get kw weeks with
  | Some vals =>
      '(a, r) <- process_week current_price existing_rows (fst st) kw vals ;;
      Ok (a, snd st ++ [r])
  | None => Raise KeyError
  end.

Definition run_weeks (current_price : float) (existing_rows : dict row)
    (weeks : dict bucket) (sorted_weeks : list string)
  : result (acc * list row) :=
  foldM (week_body current_price existing_rows weeks) sorted_weeks (acc0, []).

(** The body of [for sym, weeks in grouped.items()] (lines 650-791) up
    to the two assignments into the state: the invested capital to store
    and the rows. *)
Definition process_symbol (current_kw : string) (positions : list position)
    (states : states_t) (sym : string) (weeks : dict bucket)
  : result (float * list row) :=
  let current_price := price_of positions sym in
  let weeks :=
    if dict_mem current_kw weeks then weeks
    else dict_set current_kw empty_bucket weeks in
  sorted_weeks <- sorted_weeks_of (dict_keys weeks) ;;
  existing_rows <- existing_rows_of (stored_rows states sym) ;;
  '(st, rs) <- run_weeks current_price existing_rows weeks sorted_weeks ;;
  Ok (round2 (total_invested st), rs).

Definition sync_symbol (current_kw : string) (positions : list position)
    (states : states_t) (item : string * dict bucket) : result states_t :=
  let '(sym, weeks) := item in
  '(inv, rs) <- process_symbol current_kw positions states sym weeks ;;
  match dict_get sym states with
  | Some s =>
      Ok (dict_set sym
            {| invest := inv; rows := rs; last_modified := last_modified s |}
            states)
  | None => Raise KeyError
  end.

(** The computation of [alpaca_sync_all] between the fetch and the write
    of the state file (lines 554-794). *)
Definition reconcile (current_kw : string) (acts : list activity)
    (positions : list position) (ignored_trades : dict bool)
    (states : states_t) : result states_t :=
  let swd := symbols_with_divs acts in
  let states := add_symbols swd (drop_symbols swd states) in
  g <- normalize states ignored_trades acts ;;
  foldM (sync_symbol current_kw positions) (grouped g) states.

(** ** The sync *)

Record config : Type := {
  cfg_key : option string;
  cfg_secret : option string
}.

Inductive outcome : Type :=
| NoCredentials
| FetchUnfinished
| SyncFailed (e : exn)
| Synced (n_acts : nat) (states : states_t).

(** [alpaca_sync_all] (lines 531-824).  [until] is tomorrow's date and [current_kw] the
    week key of today, both read from the clock by the program;
    [ignored_trades] and [states] are the ignore list and the tracked
    state as loaded.  [Synced] carries the number of activities reported
    and the state written to the state file; in every other outcome the
    file is not written. *)
Definition alpaca_sync_all (fuel : nat) (net : network) (cfg : config)
    (until current_kw : string) (ignored_trades : dict bool)
    (states : states_t) : outcome :=
  if negb (truthy (get_or (cfg_key cfg) ""))
     || negb (truthy (get_or (cfg_secret cfg) ""))
  then NoCredentials
  else
    match get_all_activities_complete fuel net 0 None (Some until) with
    | None => FetchUnfinished
    | Some (acts, n) =>
        match
          positions <- get_alpaca_positions net n ;;
          reconcile current_kw acts positions ignored_trades states
        with
        | Ok states' => Synced (List.length acts) states'
        | Raise e => SyncFailed e
        end
    end.

(** ** The trades cache and the trade editor *)

(** A record of the trades cache: the buys of a week as the sync lists
    them, each key absent or present when the file is read back. *)
Record cached_trade : Type := {
  c_order_id : option string;
  c_qty : option float;
  c_price : option float
}.

Definition cached_of_trade (t : trade) : cached_trade :=
  {| c_order_id := Some (order_id t);
     c_qty := Some (t_qty t);
     c_price := Some (t_price t) |}.

(** [trades_cache[sym][kw]]: the trades listed for a week. *)
Definition cache_t : Type := dict (dict (list cached_trade)).

(** [trades_cache[sym][kw]] read with both keys tested, as
    [open_trade_editor] does. *)
Definition cache_lookup (cache : cache_t) (sym kw : string)
  : option (list cached_trade) :=
  match dict_get sym cache with
  | Some weeks => dict_get kw weeks
  | None => None
  end.

(** The write of one week (lines 694-696): the entry of the symbol is
    created when missing, the trades of the week replace what was
    cached. *)
Definition cache_week (sym kw : string) (ts : list trade) (cache : cache_t)
  : cache_t :=
  let cache := if dict_mem sym cache then cache else dict_set sym [] cache in
  dict_set sym
    (dict_set kw (map cached_of_trade ts) (get_or (dict_get sym cache) []))
    cache.

(** The writes of [for kw in sorted_weeks] for one symbol. *)
Definition cache_symbol (current_kw : string) (cache : cache_t)
    (item : string * dict bucket) : result cache_t :=
  let '(sym, weeks) := item in
  let weeks :=
    if dict_mem current_kw weeks then weeks
    else dict_set current_kw empty_bucket weeks in
  sorted_weeks <- sorted_weeks_of (dict_keys weeks) ;;
  foldM
    (fun c kw =>
       match dict_get kw weeks with
       | Some vals => Ok (cache_week sym kw (trades vals) c)
       | None => Raise KeyError
       end)
    sorted_weeks cache.

(** The trades cache a sync leaves when it completes (lines 647-648 and
    694-696, saved at line 798): the writes of the loop over [grouped],
    which the computation of the rows does not touch. *)
Definition sync_trades_cache (current_etf current_kw : string)
    (g : dict (dict bucket)) (cache : cache_t) : result cache_t :=
  let cache :=
    if dict_mem current_etf cache then cache else dict_set current_etf [] cache in
  foldM (cache_symbol current_kw) g cache.

(** [open_trade_editor] (lines 449-458): the trades handed to the dialog
    for the week in the first cell of the row, [None] when the message
    "no trades for this week" is shown instead. *)
Definition offered_trades (cache : cache_t) (current_etf : string)
    (kw : option string) : option (list cached_trade) :=
  match kw with
  | Some k => if truthy k then cache_lookup cache current_etf k else None
  | None => None
  end.

(** [trade.get("order_id", f"{sym}_{kw}_{i}")] *)
Definition editor_order_id (sym kw : string) (i : nat) (t : cached_trade)
  : string :=
  get_or (c_order_id t) (sym +++ "_" +++ kw +++ "_" +++ str_of_int (Z.of_nat i)).

(** [TradeEditorDialog.__init__] (lines 193-243): [trade_checks] maps an
    order identifier to its check box, here to the state of the box, which
    starts as the ignore list has the identifier. *)
Fixpoint trade_checks_from (sym kw : string) (ignored_trades : dict bool)
    (i : nat) (trades_list : list cached_trade) (trade_checks : dict bool)
  : dict bool :=
  match trades_list with
  | [] => trade_checks
  | t :: rest =>
      let oid := editor_order_id sym kw i t in
      let is_ignored := get_or (dict_get oid ignored_trades) false in
      trade_checks_from sym kw ignored_trades (S i) rest
        (dict_set oid is_ignored trade_checks)
  end.

Definition editor_init (sym kw : string) (trades_list : list cached_trade)
    (ignored_trades : dict bool) : dict bool :=
  trade_checks_from sym kw ignored_trades 0 trades_list [].

(** The user sets the box of an offered trade. *)
Definition set_checked (oid : string) (checked : bool)
    (trade_checks : dict bool) : dict bool :=
  if dict_mem oid trade_checks then dict_set oid checked trade_checks
  else trade_checks.

(** [TradeEditorDialog.accept] (lines 245-253): the ignore list that is
    saved. *)
Definition editor_accept (trade_checks : dict bool)
    (ignored_trades : dict bool) : dict bool :=
  fold_left
    (fun (ign : dict bool) (kv : string * bool) =>
       if snd kv then dict_set (fst kv) true ign else dict_pop (fst kv) ign)
    trade_checks ignored_trades.

(** ** The state file and the symbols at start *)

(** A value of the state file: the state of a symbol, or the name kept
    under [_last_viewed_etf]. *)
Inductive jvalue : Type :=
| JState (s : symstate)
| JString (s : string).

(** The state file: absent, or a dictionary. *)
Definition state_file : Type := option (dict jvalue).

(** [load_all_states] (lines 40-44) *)
Definition load_all_states (file : state_file) : dict jvalue :=
  match file with
  | Some data => data
  | None => []
  end.

(** [save_all_states] (lines 46-48): the file after the write. *)
Definition save_all_states (states : dict jvalue) : state_file := Some states.

(** [get_last_viewed_etf] (lines 50-52) *)
Definition get_last_viewed_etf (file : state_file) : option jvalue :=
  dict_get "_last_viewed_etf" (load_all_states file).

(** [save_last_viewed_etf] (lines 54-57) *)
Definition save_last_viewed_etf (etf_name : string) (file : state_file)
  : state_file :=
  save_all_states
    (dict_set "_last_viewed_etf" (JString etf_name) (load_all_states file)).

Definition new_state : jvalue :=
  JState {| invest := float0; rows := []; last_modified := None |}.

Inductive startup : Type :=
| Started (states : dict jvalue) (current_etf : string)
| StartupTypeError
| StartupIndexError.

(** [DivTracker.__init__] (lines 256-272) up to the choice of the symbol
    shown: the keys that start with an underscore are left out, an empty
    state becomes the default one, and the symbol last viewed is shown
    when it is tracked.  A state under [_last_viewed_etf] is not hashable:
    [last in self.states] raises. *)
Definition DivTracker_init (file : state_file) : startup :=
  let states_raw := load_all_states file in
  let states := filter (fun kv => negb (prefix "_" (fst kv))) states_raw in
  let states :=
    match states with
    | [] => [("ULTY", new_state)]
    | _ => states
    end in
  let first :=
    match dict_keys states with
    | k :: _ => Started states k
    | [] => StartupIndexError
    end in
  match get_last_viewed_etf file with
  | Some (JString last) => if dict_mem last states then Started states last else first
  | Some (JState _) => StartupTypeError
  | None => first
  end.


(** [remove_etf] (lines 381-393) on [self.states]: [name] is the text of
    the selector and [yes] the answer to the question. *)
Definition remove_etf (name : string) (yes : bool) (states : dict jvalue)
  : dict jvalue :=
  if (List.length states =? 1)%nat then states
  else if yes then dict_pop name states
  else states.

(** ** Numbers read from text *)

(** [s.replace(c, "")] for a one-character [c]. *)
Fixpoint remove_char (c : ascii) (s : string) : string :=
  match s with
  | EmptyString => EmptyString
  | String a s' =>
      if Ascii.eqb a c then remove_char c s' else String a (remove_char c s')
  end.

(** The underscores of a numeric literal: each stands between two
    digits and is dropped, any other makes the text invalid. *)
Fixpoint drop_underscores (prev_digit : bool) (s : string) : option string :=
  match s with
  | EmptyString => Some EmptyString
  | String c t =>
      if Ascii.eqb c "_" then
        if prev_digit
           && match t with
              | String d _ => is_digit d
              | EmptyString => false
              end
        then drop_underscores false t
        else None
      else option_map (String c) (drop_underscores (is_digit c) t)
  end.

Fixpoint span_digits (s : string) : string * string :=
  match s with
  | EmptyString => (EmptyString, EmptyString)
  | String c t =>
      if is_digit c then
        let '(d, r) := span_digits t in (String c d, r)
      else (EmptyString, s)
  end.

Definition digits_value (d : string) : Z :=
  match NilEmpty.uint_of_string d with
  | Some u => Z.of_uint u
  | None => 0
  end.

(** The white space [int()] and [float()] skip around a number: tab to
    carriage return, and the space. *)
Definition is_num_space (c : ascii) : bool :=
  let n := N_of_ascii c in
  ((9 <=? n)%N && (n <=? 13)%N) || (n =? 32)%N.

Fixpoint num_lstrip (s : string) : string :=
  match s with
  | EmptyString => EmptyString
  | String c s' => if is_num_space c then num_lstrip s' else s
  end.

Fixpoint num_rstrip (s : string) : string :=
  match s with
  | EmptyString => EmptyString
  | String c s' =>
      match num_rstrip s' with
      | EmptyString => if is_num_space c then EmptyString else String c EmptyString
      | r => String c r
      end
  end.

Definition num_strip (s : string) : string := num_rstrip (num_lstrip s).

(** An optional sign and what follows it. *)
Definition split_sign (s : string) : bool * string :=
  match s with
  | String "-" u => (true, u)
  | String "+" u => (false, u)
  | _ => (false, s)
  end.

(** [int(s)] on a string: surrounding white space, underscores between
    digits, an optional sign and decimal digits; [None] is the
    [ValueError]. *)
Definition py_int_of_str (s : string) : option Z :=
  match drop_underscores false (num_strip s) with
  | Some t =>
      let '(negative, body) := split_sign t in
      match span_digits body with
      | (String c d, EmptyString) =>
          let n := digits_value (String c d) in
          Some (if negative then - n else n)
      | _ => None
      end
  | None => None
  end.

(** A decimal literal [digits [. digits] [e [sign] digits]] with a digit
    in its mantissa, read as a pair [(m, e)] that stands for [m * 10^e]. *)
Definition parse_decimal (s : string) : option (Z * Z) :=
  let '(ip, r1) := span_digits s in
  let '(fp, r2) :=
    match r1 with
    | String "." t => span_digits t
    | _ => (EmptyString, r1)
    end in
  if (String.length ip + String.length fp =? 0)%nat then None
  else
    let m := digits_value (ip +++ fp) in
    let shift := Z.of_nat (String.length fp) in
    match r2 with
    | EmptyString => Some (m, - shift)
    | String c t =>
        if Ascii.eqb c "e" || Ascii.eqb c "E" then
          let '(sgn, t') :=
            match t with
            | String "+" u => (1, u)
            | String "-" u => (-1, u)
            | _ => (1, t)
            end in
          let '(ed, r3) := span_digits t' in
          match ed, r3 with
          | String _ _, EmptyString => Some (m, sgn * digits_value ed - shift)
          | _, _ => None
          end
        else None
    end.

(** The double nearest to [m * 10^e], ties to even, for [m >= 0]; beyond
    the largest double the result is an infinity. *)
Definition float_of_decimal (m e : Z) : float :=
  if m =? 0 then float0
  else if 0 <=? e then SF2Prim (binary_normalize prec emax (m * 10 ^ e) 0 false)
  else
    SF2Prim
      (SFdiv prec emax
         (S754_finite false (Z.to_pos m) 0)
         (S754_finite false (Z.to_pos (10 ^ (- e))) 0)).

(** [float(s)] on a string: surrounding white space, underscores between
    digits, an optional sign, then [inf], [infinity] or [nan] in any case
    or a decimal literal; [None] is the [ValueError]. *)
Definition py_float_of_str (s : string) : option float :=
  match drop_underscores false (num_strip s) with
  | Some t =>
      let '(negative, body) := split_sign t in
      let signed (x : float) := if negative then (- x)%float else x in
      let word := lower body in
      if String.eqb word "inf" || String.eqb word "infinity"
      then Some (signed infinity)
      else if String.eqb word "nan" then Some nan
      else
        match parse_decimal body with
        | Some (m, e) => Some (signed (float_of_decimal m e))
        | None => None
        end
  | None => None
  end.

(** ** The table *)

(** [COLUMNS[:-1]]: the columns that hold text; the last column holds the
    button of the trade editor. *)
Definition DATA_COLUMNS : list string := removelast COLUMNS.

(** The table widget: the text of the items of each row, by column. *)
Definition table : Type := list row.

(** [populate_table] (lines 428-447): [str(data.get(name, ""))] in every
    text column. *)
Definition populate_table (rs : list row) : table :=
  map (fun data => map (fun name => (name, cell name data)) DATA_COLUMNS) rs.

(** [create_empty_row] (lines 414-426) *)
Definition create_empty_row : table :=
  [map (fun name => (name, "")) DATA_COLUMNS].

(** [float(text.replace(",", "") or 0)], [0.0] on a [ValueError]: the
    invested capital typed into the input field. *)
Definition invest_of_text (text : string) : float :=
  match remove_char "," text with
  | EmptyString => float0
  | t => get_or (py_float_of_str t) float0
  end.

(** [float(text.replace(",", "").replace("$", "").strip() or 0)], [0.0]
    on a [ValueError]. *)
Definition float_of_cell (text : string) : float :=
  match strip (remove_char "$" (remove_char "," text)) with
  | EmptyString => float0
  | t => get_or (py_float_of_str t) float0
  end.

(** [int(text.replace(",", "").strip() or 0)], [0] on a [ValueError]. *)
Definition int_of_cell (text : string) : Z :=
  match strip (remove_char "," text) with
  | EmptyString => 0
  | t => get_or (py_int_of_str t) 0
  end.

(** Truth value of a [float]: zero of either sign is false. *)
Definition float_truthy (x : float) : bool := negb (PrimFloat.eqb x float0).

(** One iteration of the loop of [recalculate_all] (lines 481-512) on the
    row of index [r]: columns 8, 5 and 7 ([Preis], [Netto], [Gesamt]) are
    read, columns 6 and 9 to 12 ([DRIP], [Wert], [Ø/Woche], [Jahr],
    [Rendite]) are written. *)
Definition recalculate_row (ini : float) (st : float * Z) (rw : row)
  : result ((float * Z) * row) :=
  let '(total_netto_dividends, r) := st in
  let price := float_of_cell (cell "Preis" rw) in
  let netto := float_of_cell (cell "Netto" rw) in
  drip <-
    (if float_truthy price && float_truthy netto
     then py_int (netto / price)%float else Ok 0) ;;
  let total_shares := int_of_cell (cell "Gesamt" rw) in
  value <- int_times total_shares price ;;
  let total_netto_dividends := (total_netto_dividends + netto)%float in
  avg_week <-
    (if 0 <? r + 1 then div_by_int total_netto_dividends (r + 1)
     else Ok float0) ;;
  annual <- times_int avg_week 52 ;;
  let total_return := (total_netto_dividends - ini)%float in
  let rw := dict_set "DRIP" (str_of_int drip) rw in
  let rw := dict_set "Wert" ("$" +++ fmt_c2f value) rw in
  let rw := dict_set "Ø/Woche" ("$" +++ fmt_c2f avg_week) rw in
  let rw := dict_set "Jahr" ("$" +++ fmt_c2f annual) rw in
  let rw := dict_set "Rendite" ("$" +++ fmt_c2f total_return) rw in
  Ok ((total_netto_dividends, r + 1), rw).

Fixpoint recalculate_rows (ini : float) (st : float * Z) (t : table)
  : result table :=
  match t with
  | [] => Ok []
  | rw :: rest =>
      '(st', rw') <- recalculate_row ini st rw ;;
      rest' <- recalculate_rows ini st' rest ;;
      Ok (rw' :: rest')
  end.

(** [recalculate_all] (lines 472-514): the table after the loop, for the
    text of the input field of the invested capital. *)
Definition recalculate_all (invest_text : string) (t : table) : result table :=
  recalculate_rows (invest_of_text invest_text) (float0, 0) t.

(** [refresh_from_state] (lines 403-412): the text of the input field
    and the table shown for the current symbol. *)
Definition refresh_from_state (states : states_t) (current_etf : string)
  : result (string * table) :=
  let st :=
    get_or (dict_get current_etf states)
      {| invest := float0; rows := []; last_modified := None |} in
  let invest_text := fmt_2f (invest st) in
  let t :=
    match rows st with
    | [] => create_empty_row
    | rs => populate_table rs
    end in
  t' <- recalculate_all invest_text t ;;
  Ok (invest_text, t').

(** [save_state] (lines 847-864): the tracked state that is written to
    the state file; [now] is the time read from the clock. *)
Definition save_state (invest_text : string) (t : table)
    (current_etf now : string) (states : states_t) : states_t :=
  let ini := invest_of_text invest_text in
  let rs := map (fun rw => map (fun name => (name, cell name rw)) DATA_COLUMNS) t in
  dict_set current_etf
    {| invest := round2 ini; rows := rs; last_modified := Some now |}
    states.

(** ** Notions of the specification *)

(** The week has a stored rate [v]: its stored row carries [v] in the
    [Div/W] cell, and [v] is not blank. *)
Definition stored_rate (existing_rows : dict row) (kw v : string) : Prop :=
  exists r0, dict_get kw existing_rows = Some r0
             /\ cell "Div/W" r0 = v /\ strip v <> "".

(** Invested capital after the buy processing of a week. *)
Definition invested_after_buy (vals : bucket) (inv : float) : float :=
  if PrimFloat.ltb float0 (buy_total_qty vals) then
    if PrimFloat.leb (buy_total_cost vals) (net_div_of vals) then inv
    else (inv + (buy_total_cost vals - net_div_of vals))%float
  else inv.

(** Invested capital after the sell processing of a week. *)
Definition invested_after_sell (vals : bucket) (inv : float) : float :=
  if PrimFloat.ltb float0 (sell_total_qty vals)
  then (inv - sell_total_cost vals)%float else inv.

(** Each row starts with the shares the row before it ended with. *)
Fixpoint linked (start : string) (rs : list row) : Prop :=
  match rs with
  | [] => True
  | r :: rs' => cell "Start" r = start /\ linked (cell "Gesamt" r) rs'
  end.

(** The share count carried out of a sequence of rows. *)
Fixpoint carry (start : string) (rs : list row) : string :=
  match rs with
  | [] => start
  | r :: rs' => carry (cell "Gesamt" r) rs'
  end.

(** The loop over the weeks as a recursion that returns the rows it
    appends. *)
Fixpoint weeks_from (current_price : float) (existing_rows : dict row)
    (weeks : dict bucket) (st : acc) (ks : list string)
  : result (acc * list row) :=
  match ks with
  | [] => Ok (st, [])
  | kw :: ks' =>
      match dict_get kw weeks with
      | Some vals =>
          '(st1, r) <- process_week current_price existing_rows st kw vals ;;
          '(st', rs) <- weeks_from current_price existing_rows weeks st1 ks' ;;
          Ok (st', r :: rs)
      | None => Raise KeyError
      end
  end.

(** Every dictionary of the aggregation has one binding per key. *)
Definition wf_grouped (g : dict (dict bucket)) : Prop :=
  NoDup (dict_keys g)
  /\ forall sym weeks, In (sym, weeks) g -> NoDup (dict_keys weeks).

(** The buy totals a list of trades adds up to, in the order of the
    list and from [0.0] as the loop does. *)
Definition sum_qty (ts : list trade) : float :=
  fold_left (fun s t => (s + t_qty t)%float) ts float0.

Definition sum_cost (ts : list trade) : float :=
  fold_left (fun s t => (s + t_qty t * t_price t)%float) ts float0.

Definition sums_ok (b : bucket) : Prop :=
  buy_total_qty b = sum_qty (trades b) /\ buy_total_cost b = sum_cost (trades b).

(** The trades listed in all weeks of all symbols. *)
Definition all_trades (g : dict (dict bucket)) : list trade :=
  flat_map (fun sw => flat_map (fun kb => trades (snd kb)) (snd sw)) g.

(** A listed trade has been seen, is not on the ignore list, and has
    passed the test [qty <= 0]. *)
Definition listed_ok (ignored_trades : dict bool) (seen : list string)
    (t : trade) : Prop :=
  str_mem (order_id t) seen = true
  /\ get_or (dict_get (order_id t) ignored_trades) false = false
  /\ PrimFloat.leb (t_qty t) float0 = false.

Definition trades_ok (ignored_trades : dict bool) (g : dict (dict bucket))
    (seen : list string) : Prop :=
  NoDup (map order_id (all_trades g))
  /\ Forall (listed_ok ignored_trades seen) (all_trades g).

(** The characters of a rendered [int]: digits and the minus sign. *)
Definition num_char (c : ascii) : bool := is_digit c || Ascii.eqb c "-".

(** Two rows that hold the same cells outside the columns [cs]. *)
Definition same_except (cs : list string) (r1 r2 : row) : Prop :=
  forall c, str_mem c cs = false -> dict_get c r1 = dict_get c r2.

(** ** Scenarios *)

Definition fill_activity (id sym day side : string) (qty price : float)
  : activity :=
  {| a_activity_type := Some "FILL"; a_symbol := Some sym;
     a_date := None; a_transaction_time := Some (day +++ "T14:30:00Z");
     a_side := Some side; a_type := Some "fill"; a_id := Some id;
     a_qty := Some qty; a_price := Some price;
     a_net_amount := None; a_amount := None |}.

Definition cash_activity (typ id sym day : string) (amt : float) : activity :=
  {| a_activity_type := Some typ; a_symbol := Some sym;
     a_date := Some day; a_transaction_time := None;
     a_side := None; a_type := None; a_id := Some id;
     a_qty := None; a_price := None;
     a_net_amount := Some amt; a_amount := None |}.

Definition acc_of_shares (n : Z) : acc :=
  {| total_invested := float0; cumulative_shares := n;
     cumulative_div_total := float0; week_count := 0 |}.

(** Week 01/2025: a buy of 10 shares at $50 and a dividend of $60. *)
Definition week_01_2025 : bucket :=
  add_div 60 (add_buy "f1" 10 50 empty_bucket).

(** Week 03/2025: a sale of 20 shares at $30. *)
Definition week_03_2025 : bucket := add_sell 20 30 empty_bucket.


(** A stored row of week 02/2025 with the given [Div/W] cell. *)
Definition stored_row (dw : string) : row :=
  dict_set "Div/W" dw (dict_set "KW" "02/2025" blank_row).

(** The value of a computation that does not raise. *)
Definition value_of {A : Type} (m : result A) (d : A) : A :=
  match m with
  | Ok a => a
  | Raise _ => d
  end.



(** A buy of 2 shares at $25 in a week with a dividend of $60. *)
Definition week_drip : bucket := add_div 60 (add_buy "f1" 2 25 empty_bucket).

Definition week_drip_out : acc * row :=
  Eval vm_compute in
    value_of (process_week 55 [] acc0 "01/2025" week_drip) (acc0, []).

Definition week_03_2025_out : acc * row :=
  Eval vm_compute in
    value_of (process_week 55 [] (acc_of_shares 20) "03/2025" week_03_2025)
      (acc0, []).

(** [grouped[sym][kw]] read as the [defaultdict]s give it. *)
Definition bucket_of (g : dict (dict bucket)) (sym kw : string) : bucket :=
  get_or (dict_get kw (get_or (dict_get sym g) [])) empty_bucket.

Definition empty_state : symstate :=
  {| invest := float0; rows := []; last_modified := None |}.

(** One tracked symbol, and a feed for it: a buy, a dividend booked on two
    pages, its withholding, and a sale booked on two pages. *)
Definition tracked_ulty : states_t := [("ULTY", empty_state)].

Definition buy_f1 : activity := fill_activity "f1" "ULTY" "2025-01-02" "buy" 20 30.
Definition div_d1 : activity := cash_activity "DIV" "d1" "ULTY" "2025-01-03" 60.
Definition tax_t1 : activity := cash_activity "DIVNRA" "t1" "ULTY" "2025-01-10" (-9).
Definition sell_f2 : activity := fill_activity "f2" "ULTY" "2025-01-14" "sell" 20 30.

Definition ulty_positions : list position :=
  [{| p_symbol := "ULTY"; p_current_price := 55 |}].

(** The feed as fetched once, and with its sale and its dividend booked a
    second time. *)
Definition feed_once : list activity := [buy_f1; div_d1; tax_t1; sell_f2].

Definition feed_twice : list activity := feed_once ++ [sell_f2; div_d1].

Definition feed_once_out : gstate :=
  Eval vm_compute in value_of (normalize tracked_ulty [] feed_once) gstate0.

Definition feed_sale_twice_out : gstate :=
  Eval vm_compute in
    value_of (normalize tracked_ulty [] (feed_once ++ [sell_f2])) gstate0.

Definition one_dividend_out : gstate :=
  Eval vm_compute in value_of (normalize tracked_ulty [] [div_d1]) gstate0.

Definition two_dividends_out : gstate :=
  Eval vm_compute in
    value_of (normalize tracked_ulty [] [div_d1; div_d1]) gstate0.

(** The weeks of the symbol after aggregation, and its pass in week
    04/2025. *)
Definition ulty_weeks : dict bucket :=
  Eval vm_compute in get_or (dict_get "ULTY" (grouped feed_once_out)) [].

Definition ulty_pass_out : float * list row :=
  Eval vm_compute in
    value_of (process_symbol "04/2025" ulty_positions [] "ULTY" ulty_weeks)
      (float0, []).

Definition ulty_synced : states_t :=
  Eval vm_compute in
    value_of (reconcile "04/2025" feed_once ulty_positions [] []) [].

Definition cfg_ok : config :=
  {| cfg_key := Some "key"; cfg_secret := Some "secret" |}.

(** A server that answers every request. *)
Definition net_up : network :=
  fun _ req =>
    match req with
    | ReqActivities ty _ _ =>
        if String.eqb ty "FILL" then RespActivities [buy_f1; sell_f2]
        else if String.eqb ty "DIV" then RespActivities [div_d1]
        else RespActivities [tax_t1]
    | ReqPositions => RespPositions ulty_positions
    end.

(** A server whose first page of fills is full and whose request for the
    second page fails; the dividend request is answered, there is no
    withholding. *)
Definition net_page2_down : network :=
  fun _ req =>
    match req with
    | ReqActivities ty after _ =>
        if String.eqb ty "FILL" then
          match after with
          | None => RespActivities (repeat buy_f1 100)
          | Some _ => RespError
          end
        else if String.eqb ty "DIV" then RespActivities [div_d1]
        else RespActivities []
    | ReqPositions => RespPositions ulty_positions
    end.

Definition page2_down_state : states_t :=
  Eval vm_compute in
    match alpaca_sync_all 10 net_page2_down cfg_ok "2025-01-21" "04/2025" [] [] with
    | Synced _ s => s
    | _ => []
    end.

Definition net_up_state : states_t :=
  Eval vm_compute in
    match alpaca_sync_all 10 net_up cfg_ok "2025-01-21" "04/2025" []
            [("OLD", empty_state)] with
    | Synced _ s => s
    | _ => []
    end.

(** Two syncs in week 02/2025 from an empty state, nothing edited in
    between: the first before the dividend of the week is paid, the
    second after a dividend of $30 has arrived; and the sync of the later
    feed from an empty state. *)
Definition div_d2 : activity := cash_activity "DIV" "d2" "ULTY" "2025-01-10" 30.

Definition feed_before : list activity := [buy_f1; div_d1].

Definition feed_after : list activity := feed_before ++ [div_d2].

Definition first_sync_state : states_t :=
  Eval vm_compute in
    value_of (reconcile "02/2025" feed_before ulty_positions [] []) [].

Definition second_sync_state : states_t :=
  Eval vm_compute in
    value_of (reconcile "02/2025" feed_after ulty_positions [] first_sync_state)
      [].

Definition fresh_sync_state : states_t :=
  Eval vm_compute in
    value_of (reconcile "02/2025" feed_after ulty_positions [] []) [].

(** The feed of the symbol aggregated with the buy [f1] on the ignore
    list. *)
Definition feed_ignored_out : gstate :=
  Eval vm_compute in
    value_of (normalize tracked_ulty [("f1", true)] feed_once) gstate0.

(** The bucket of week 01/2025 after the aggregation of the feed. *)
Definition ulty_week_01 : bucket :=
  Eval vm_compute in get_or (dict_get "01/2025" ulty_weeks) empty_bucket.




(** A server that answers every request with the same full page. *)
Definition net_full : network :=
  fun _ _ => RespActivities (repeat buy_f1 100).

(** The pass of the symbol with a stored rate for week 02/2025, and the
    pass without a position. *)
Definition ulty_stored : states_t :=
  [("ULTY", {| invest := float0; rows := [stored_row "0.5000"];
               last_modified := None |})].

Definition ulty_pass_stored_out : float * list row :=
  Eval vm_compute in
    value_of
      (process_symbol "04/2025" ulty_positions ulty_stored "ULTY" ulty_weeks)
      (float0, []).

Definition ulty_pass_unpriced_out : float * list row :=
  Eval vm_compute in
    value_of (process_symbol "04/2025" [] [] "ULTY" ulty_weeks) (float0, []).

(** The editor of week 01/2025 with the box of the buy [f1] checked. *)
Definition f1_checked : dict bool :=
  set_checked "f1" true
    (editor_init "ULTY" "01/2025" (map cached_of_trade (trades ulty_week_01)) []).

(** The trades cache after the sync of the feed in week 04/2025. *)
Definition ulty_cache : cache_t :=
  Eval vm_compute in
    value_of (sync_trades_cache "ULTY" "04/2025" (grouped feed_once_out) []) [].

(** A state file with two symbols. *)
Definition two_symbols : dict jvalue := [("ULTY", new_state); ("MSTY", new_state)].

(** Two buys of one week without an identifier. *)
Definition buy_without_id (day : string) (qty price : float) : activity :=
  {| a_activity_type := Some "FILL"; a_symbol := Some "ULTY";
     a_date := None; a_transaction_time := Some (day +++ "T14:30:00Z");
     a_side := Some "buy"; a_type := Some "fill"; a_id := None;
     a_qty := Some qty; a_price := Some price;
     a_net_amount := None; a_amount := None |}.

Definition two_buys_without_id_out : gstate :=
  Eval vm_compute in
    value_of
      (normalize tracked_ulty []
         [buy_without_id "2025-01-02" 10 30; buy_without_id "2025-01-03" 5 31])
      gstate0.

(** The table shown for the symbol after its sync in week 04/2025, as
    filled from the stored rows and as recalculated; the same rows with
    another [Div/W] typed in every week; and the state saved from the
    table. *)
Definition ulty_filled : table := populate_table (stored_rows ulty_synced "ULTY").

Definition ulty_refresh : string * table :=
  Eval vm_compute in value_of (refresh_from_state ulty_synced "ULTY") ("", []).

Definition ulty_retyped : table := map (dict_set "Div/W" "9.9999") ulty_filled.

Definition ulty_retyped_out : table :=
  Eval vm_compute in
    value_of (recalculate_all (fst ulty_refresh) ulty_retyped) [].

Definition ulty_saved : states_t :=
  save_state (fst ulty_refresh) (snd ulty_refresh) "ULTY" "2025-01-21T10:00:00"
    ulty_synced.

(** * Properties *)

(** ** The error monad *)

Lemma bind_ok {A B : Type} (m : result A) (k : A -> result B) (b : B) :
  bind m k = Ok b -> exists a, m = Ok a /\ k a = Ok b.
Proof.
  destruct m as [a|e]; simpl; intros H; [eauto | discriminate].
Qed.

Lemma foldM_app {A S : Type} (body : S -> A -> result S) (xs ys : list A) (st : S) :
  foldM body (xs ++ ys) st = bind (foldM body xs st) (foldM body ys).
Proof.
  revert st; induction xs as [|x xs IH]; intros st; simpl; [reflexivity|].
  destruct (body st x) as [st'|e]; simpl; [apply IH | reflexivity].
Qed.

(** Inversion of a successful monadic computation, one [bind] at a time. *)
Ltac inv_bind H :=
  match type of H with
  | bind ?m _ = Ok _ =>
      let a := fresh "a" in
      let Ha := fresh "Hm" in
      apply bind_ok in H; destruct H as (a & Ha & H)
  end.

(** ** Dictionaries *)

Section DictFacts.
Context {V : Type}.
Implicit Types (d : dict V) (k : string) (v : V).

Lemma dict_get_set k k' v d :
  dict_get k (dict_set k' v d) = if String.eqb k k' then Some v else dict_get k d.
Proof.
  induction d as [|[k0 v0] d IH]; simpl.
  - reflexivity.
  - destruct (String.eqb k' k0) eqn:E'; simpl.
    + apply String.eqb_eq in E'; subst k0.
      destruct (String.eqb k k'); reflexivity.
    + rewrite IH. destruct (String.eqb k k0) eqn:E0; [|reflexivity].
      apply String.eqb_eq in E0; subst k0.
      rewrite String.eqb_sym in E'. rewrite E'. reflexivity.
Qed.

Lemma dict_get_pop k k' d :
  dict_get k (dict_pop k' d) = if String.eqb k k' then None else dict_get k d.
Proof.
  unfold dict_pop. induction d as [|[k0 v0] d IH]; simpl.
  - destruct (String.eqb k k'); reflexivity.
  - destruct (String.eqb k' k0) eqn:E'; simpl.
    + rewrite IH. apply String.eqb_eq in E'; subst k0.
      destruct (String.eqb k k'); reflexivity.
    + rewrite IH. destruct (String.eqb k k0) eqn:E0; [|reflexivity].
      apply String.eqb_eq in E0; subst k0.
      rewrite String.eqb_sym in E'. rewrite E'. reflexivity.
Qed.

Lemma dict_set_same k v d : dict_get k d = Some v -> dict_set k v d = d.
Proof.
  induction d as [|[k0 v0] d IH]; simpl; [discriminate|].
  destruct (String.eqb k k0) eqn:E; intros H.
  - injection H as ->. reflexivity.
  - f_equal. auto.
Qed.

Lemma dict_keys_set_mem k v d :
  dict_mem k d = true -> dict_keys (dict_set k v d) = dict_keys d.
Proof.
  unfold dict_mem, dict_keys.
  induction d as [|[k0 v0] d IH]; simpl; [discriminate|].
  destruct (String.eqb k k0) eqn:E; simpl; intros H; [reflexivity|].
  f_equal. auto.
Qed.

Lemma dict_keys_set_new k v d :
  dict_mem k d = false -> dict_keys (dict_set k v d) = dict_keys d ++ [k].
Proof.
  unfold dict_mem, dict_keys.
  induction d as [|[k0 v0] d IH]; simpl; [reflexivity|].
  destruct (String.eqb k k0) eqn:E; simpl; intros H; [discriminate|].
  f_equal. auto.
Qed.

Lemma dict_mem_in_keys k d : dict_mem k d = true <-> In k (dict_keys d).
Proof.
  unfold dict_mem, dict_keys.
  induction d as [|[k0 v0] d IH]; simpl.
  - split; [discriminate | tauto].
  - destruct (String.eqb k k0) eqn:E.
    + apply String.eqb_eq in E. subst. tauto.
    + apply String.eqb_neq in E. rewrite IH. split; [tauto|].
      intros [H|H]; [congruence | exact H].
Qed.

Lemma dict_mem_set k k' v d :
  dict_mem k (dict_set k' v d) = String.eqb k k' || dict_mem k d.
Proof.
  unfold dict_mem. rewrite dict_get_set.
  destruct (String.eqb k k'); reflexivity.
Qed.

Lemma dict_set_nodup k v d :
  NoDup (dict_keys d) -> NoDup (dict_keys (dict_set k v d)).
Proof.
  intros H. destruct (dict_mem k d) eqn:E.
  - rewrite dict_keys_set_mem by exact E. exact H.
  - rewrite dict_keys_set_new by exact E.
    apply NoDup_app; [exact H | constructor; [intros [] | constructor] |].
    intros x Hx [<-|[]]. apply dict_mem_in_keys in Hx. congruence.
Qed.

Lemma dict_get_in k v d : dict_get k d = Some v -> In (k, v) d.
Proof.
  induction d as [|[k0 v0] d IH]; simpl; [discriminate|].
  destruct (String.eqb k k0) eqn:E; intros H.
  - apply String.eqb_eq in E. injection H as ->. left; congruence.
  - right; auto.
Qed.

Lemma dict_in_get k v d :
  NoDup (dict_keys d) -> In (k, v) d -> dict_get k d = Some v.
Proof.
  induction d as [|[k0 v0] d IH]; simpl; [tauto|].
  intros Hnd [H|H].
  - injection H as -> ->. rewrite String.eqb_refl. reflexivity.
  - inversion Hnd as [|? ? Hnot Hnd']; subst.
    destruct (String.eqb k k0) eqn:E.
    + apply String.eqb_eq in E; subst k0. exfalso. apply Hnot.
      change (In (fst (k, v)) (map fst d)). apply in_map. exact H.
    + auto.
Qed.

End DictFacts.

Lemma str_mem_in k s : str_mem k s = true <-> In k s.
Proof.
  unfold str_mem. rewrite existsb_exists. split.
  - intros (x & Hx & E). apply String.eqb_eq in E. subst. exact Hx.
  - intros H. exists k. split; [exact H | apply String.eqb_refl].
Qed.

Lemma str_mem_add k k' s :
  str_mem k (str_add k' s) = String.eqb k k' || str_mem k s.
Proof.
  unfold str_add. destruct (str_mem k' s) eqn:E.
  - destruct (String.eqb k k') eqn:E'; [|reflexivity].
    apply String.eqb_eq in E'. subst. simpl. exact E.
  - unfold str_mem. rewrite existsb_app. simpl.
    rewrite orb_false_r. apply orb_comm.
Qed.

(** ** Rows *)

Lemma cell_set c c' v (r : row) :
  cell c (dict_set c' v r) = if String.eqb c c' then v else cell c r.
Proof.
  unfold cell. rewrite dict_get_set. destruct (String.eqb c c'); reflexivity.
Qed.

Ltac cells := repeat (rewrite cell_set; simpl String.eqb; cbv iota).

(** ** The blocks of the week loop *)

Lemma sell_block_inv vals st st' :
  sell_block vals st = Ok st' ->
  if PrimFloat.ltb float0 (sell_total_qty vals) then
    st' = {| total_invested := (total_invested st - sell_total_cost vals)%float;
             cumulative_shares := 0;
             cumulative_div_total := cumulative_div_total st;
             week_count := week_count st |}
  else st' = st.
Proof.
  unfold sell_block. destruct (PrimFloat.ltb float0 (sell_total_qty vals)).
  - intros H. inv_bind H. congruence.
  - congruence.
Qed.

Lemma buy_block_other_keys cp vals st r st' r' c :
  buy_block cp vals st r = Ok (st', r') ->
  String.eqb c "Preis" = false -> String.eqb c "DRIP" = false ->
  dict_get c r' = dict_get c r.
Proof.
  unfold buy_block. intros H HP HD.
  destruct (PrimFloat.ltb float0 (buy_total_qty vals)).
  - inv_bind H. inv_bind H.
    destruct (PrimFloat.leb (buy_total_cost vals) (net_div_of vals)).
    + inv_bind H. inv_bind H. injection H as _ <-.
      rewrite !dict_get_set, HP, HD. reflexivity.
    + injection H as _ <-. rewrite !dict_get_set, HP, HD. reflexivity.
  - injection H as _ <-. rewrite dict_get_set, HD.
    destruct (PrimFloat.ltb float0 cp); [rewrite dict_get_set, HP|]; reflexivity.
Qed.

Lemma buy_block_other_cells cp vals st r st' r' c :
  buy_block cp vals st r = Ok (st', r') ->
  String.eqb c "Preis" = false -> String.eqb c "DRIP" = false ->
  cell c r' = cell c r.
Proof.
  intros H HP HD. unfold cell.
  rewrite (buy_block_other_keys _ _ _ _ _ _ c H HP HD). reflexivity.
Qed.

Lemma buy_block_acc cp vals st r st' r' :
  buy_block cp vals st r = Ok (st', r') ->
  cumulative_div_total st' = cumulative_div_total st
  /\ week_count st' = week_count st.
Proof.
  unfold buy_block. intros H.
  destruct (PrimFloat.ltb float0 (buy_total_qty vals)).
  - inv_bind H. inv_bind H.
    destruct (PrimFloat.leb (buy_total_cost vals) (net_div_of vals)).
    + inv_bind H. inv_bind H. injection H as <- _. split; reflexivity.
    + injection H as <- _. split; reflexivity.
  - injection H as <- _. split; reflexivity.
Qed.

(** The accumulator after the buy block does not depend on the row it
    is given, nor does the block's success. *)
Lemma buy_block_row_indep cp vals st r1 r2 st' r1' :
  buy_block cp vals st r1 = Ok (st', r1') ->
  exists r2', buy_block cp vals st r2 = Ok (st', r2').
Proof.
  unfold buy_block. intros H.
  destruct (PrimFloat.ltb float0 (buy_total_qty vals)).
  - inv_bind H. rewrite Hm. simpl. inv_bind H. rewrite Hm0. simpl.
    destruct (PrimFloat.leb (buy_total_cost vals) (net_div_of vals)).
    + inv_bind H. rewrite Hm1. simpl. inv_bind H. rewrite Hm2. simpl.
      injection H as <- _. eauto.
    + injection H as <- _. eauto.
  - injection H as <- _. eauto.
Qed.

Lemma finish_week_inv cp vals st r st' r' :
  finish_week cp vals st r = Ok (st', r') ->
  total_invested st' = total_invested st
  /\ cumulative_shares st' = cumulative_shares st
  /\ cumulative_div_total st' = (cumulative_div_total st + net_div_of vals)%float
  /\ week_count st' = week_count st + 1
  /\ cell "Gesamt" r' = str_of_int (cumulative_shares st)
  /\ (forall c, existsb (String.eqb c)
                  ["Gesamt"; "Wert"; "Ø/Woche"; "Jahr"; "Rendite"; "Edit"] = false ->
                dict_get c r' = dict_get c r).
Proof.
  unfold finish_week. intros H.
  inv_bind H. inv_bind H. inv_bind H. injection H as <- <-. simpl.
  repeat split.
  - cells. reflexivity.
  - intros c Hc. simpl in Hc.
    repeat (apply orb_false_elim in Hc; destruct Hc as [? Hc]).
    rewrite !dict_get_set.
    repeat match goal with E : String.eqb c _ = false |- _ => rewrite E; clear E end.
    reflexivity.
Qed.

Lemma finish_week_other_cells cp vals st r st' r' c :
  finish_week cp vals st r = Ok (st', r') ->
  existsb (String.eqb c)
    ["Gesamt"; "Wert"; "Ø/Woche"; "Jahr"; "Rendite"; "Edit"] = false ->
  cell c r' = cell c r.
Proof.
  intros H Hc. apply finish_week_inv in H.
  destruct H as (_ & _ & _ & _ & _ & Hother).
  unfold cell. rewrite (Hother c Hc). reflexivity.
Qed.

Lemma row_head_cells kw st vals :
  dict_get "KW" (row_head kw st vals) = Some kw
  /\ cell "Start" (row_head kw st vals) = str_of_int (cumulative_shares st).
Proof.
  unfold row_head. split; [|cells; reflexivity].
  rewrite !dict_get_set. reflexivity.
Qed.

(** What one week of the loop yields, block by block. *)
Lemma process_week_inv cp ex st kw vals st' r :
  process_week cp ex st kw vals = Ok (st', r) ->
  exists dw st1 r1 st2,
    div_w_cell ex kw (div_gross vals) (cumulative_shares st) = Ok dw
    /\ buy_block cp vals st (dict_set "Div/W" dw (row_head kw st vals)) = Ok (st1, r1)
    /\ sell_block vals st1 = Ok st2
    /\ finish_week cp vals st2 r1 = Ok (st', r).
Proof.
  unfold process_week. intros H.
  inv_bind H. inv_bind H. destruct a0 as [st1 r1]. inv_bind H.
  exists a, st1, r1, a0. auto.
Qed.

Lemma process_week_cells cp ex st kw vals st' r :
  process_week cp ex st kw vals = Ok (st', r) ->
  dict_get "KW" r = Some kw
  /\ cell "Start" r = str_of_int (cumulative_shares st)
  /\ cell "Gesamt" r = str_of_int (cumulative_shares st')
  /\ div_w_cell ex kw (div_gross vals) (cumulative_shares st) = Ok (cell "Div/W" r).
Proof.
  intros H. apply process_week_inv in H.
  destruct H as (dw & st1 & r1 & st2 & Hdw & Hbuy & Hsell & Hfin).
  pose proof (finish_week_inv _ _ _ _ _ _ Hfin) as (_ & Hsh & _ & _ & Hges & Hother).
  destruct (row_head_cells kw st vals) as [Hkw Hstart].
  repeat split.
  - rewrite Hother by reflexivity.
    rewrite (buy_block_other_keys _ _ _ _ _ _ "KW" Hbuy) by reflexivity.
    rewrite dict_get_set. simpl. exact Hkw.
  - rewrite (finish_week_other_cells _ _ _ _ _ _ "Start" Hfin) by reflexivity.
    rewrite (buy_block_other_cells _ _ _ _ _ _ "Start" Hbuy) by reflexivity.
    cells. exact Hstart.
  - rewrite Hges, Hsh. reflexivity.
  - rewrite (finish_week_other_cells _ _ _ _ _ _ "Div/W" Hfin) by reflexivity.
    rewrite (buy_block_other_cells _ _ _ _ _ _ "Div/W" Hbuy) by reflexivity.
    cells. exact Hdw.
Qed.

(** ** White space and number rendering *)







Lemma truthy_strip s : truthy (strip s) = true <-> strip s <> "".
Proof.
  destruct (strip s); simpl; split; congruence.
Qed.

(** [int()] of a float that is not negative is its floor. *)
Lemma py_int_floor q n :
  PrimFloat.leb float0 q = true -> py_int q = Ok n -> float_floor q = Some n.
Proof.
  rewrite leb_spec. unfold py_int, float_floor.
  change (Prim2SF float0) with (S754_zero false).
  destruct (Prim2SF q) as [s|s| |s m e]; simpl; try discriminate.
  - congruence.
  - destruct s; [discriminate|]. intros _ H. injection H as <-. reflexivity.
Qed.

(** ** The [Div/W] protection *)

Lemma kept_div_w_stored ex kw v : kept_div_w ex kw = Some v <-> stored_rate ex kw v.
Proof.
  unfold kept_div_w, stored_rate. split.
  - destruct (dict_get kw ex) as [r0|]; [|discriminate].
    destruct (truthy (strip (cell "Div/W" r0))) eqn:E; [|discriminate].
    intros H. injection H as <-. exists r0. repeat split.
    apply truthy_strip. exact E.
  - intros (r0 & -> & <- & Hnb). apply truthy_strip in Hnb. rewrite Hnb.
    reflexivity.
Qed.

Lemma kept_div_w_none ex kw :
  kept_div_w ex kw = None <-> (forall v, ~ stored_rate ex kw v).
Proof.
  split.
  - intros H v Hv. apply kept_div_w_stored in Hv. congruence.
  - intros H. destruct (kept_div_w ex kw) as [v|] eqn:E; [|reflexivity].
    apply kept_div_w_stored in E. destruct (H v E).
Qed.



(** C5.  The rule asks for [gross_div / start_shares] in a week that
    starts with shares and has no manually pinned value.  The code at a
    failing input: the state is empty and no value is ever entered by
    hand; the first sync of week 02/2025 runs before the dividend of the
    week and renders 0 / 20 = 0.0000; the second sync, after a dividend
    of $30 has arrived, keeps 0.0000 as if it were manually set, where
    30 / 20 = 1.5000 is the rate, as a sync from an empty state shows. *)
Theorem stale_rate_is_kept :
  reconcile "02/2025" feed_before ulty_positions [] [] = Ok first_sync_state
  /\ map (cell "Div/W") (stored_rows first_sync_state "ULTY") = [""; "0.0000"]
  /\ reconcile "02/2025" feed_after ulty_positions [] first_sync_state
     = Ok second_sync_state
  /\ map (cell "KW") (stored_rows second_sync_state "ULTY")
     = ["01/2025"; "02/2025"]
  /\ map (cell "Start") (stored_rows second_sync_state "ULTY") = ["0"; "20"]
  /\ map (cell "Brutto") (stored_rows second_sync_state "ULTY")
     = ["$60.00"; "$30.00"]
  /\ map (cell "Div/W") (stored_rows second_sync_state "ULTY") = [""; "0.0000"]
  /\ reconcile "02/2025" feed_after ulty_positions [] [] = Ok fresh_sync_state
  /\ map (cell "Div/W") (stored_rows fresh_sync_state "ULTY") = [""; "1.5000"].
Proof.
  split; [vm_compute; reflexivity|]. split; [reflexivity|].
  split; [vm_compute; reflexivity|]. split; [reflexivity|].
  split; [reflexivity|]. split; [reflexivity|]. split; [reflexivity|].
  split; [vm_compute; reflexivity | reflexivity].
Qed.




(** ** Buy and sell processing *)

Lemma buy_block_invested cp vals st r st' r' :
  buy_block cp vals st r = Ok (st', r') ->
  total_invested st' = invested_after_buy vals (total_invested st).
Proof.
  unfold buy_block, invested_after_buy. intros H.
  destruct (PrimFloat.ltb float0 (buy_total_qty vals)).
  - inv_bind H. inv_bind H.
    destruct (PrimFloat.leb (buy_total_cost vals) (net_div_of vals)).
    + inv_bind H. inv_bind H. injection H as <- _. reflexivity.
    + injection H as <- _. reflexivity.
  - injection H as <- _. reflexivity.
Qed.

(** The reinvested shares written by a buy block that runs. *)
Lemma buy_block_drip cp vals st r st' r' :
  PrimFloat.ltb float0 (buy_total_qty vals) = true ->
  buy_block cp vals st r = Ok (st', r') ->
  exists avg,
    py_div (buy_total_cost vals) (buy_total_qty vals) = Ok avg
    /\ cell "Preis" r' = fmt_2f avg
    /\ if PrimFloat.leb (buy_total_cost vals) (net_div_of vals)
       then exists q n, py_div (net_div_of vals) avg = Ok q
                        /\ py_int q = Ok n
                        /\ cell "DRIP" r' = str_of_int n
       else cell "DRIP" r' = "0".
Proof.
  unfold buy_block. intros -> H.
  inv_bind H. inv_bind H. exists a0. split; [exact Hm0|].
  destruct (PrimFloat.leb (buy_total_cost vals) (net_div_of vals)).
  - inv_bind H. inv_bind H. injection H as _ <-. split; [cells; reflexivity|].
    exists a1, a2. repeat split; try assumption. cells. reflexivity.
  - injection H as _ <-. split; cells; reflexivity.
Qed.

Lemma process_week_invested cp ex st kw vals st' r :
  process_week cp ex st kw vals = Ok (st', r) ->
  total_invested st'
  = invested_after_sell vals (invested_after_buy vals (total_invested st)).
Proof.
  intros H. apply process_week_inv in H.
  destruct H as (dw & st1 & r1 & st2 & _ & Hbuy & Hsell & Hfin).
  apply finish_week_inv in Hfin. destruct Hfin as (-> & _).
  apply buy_block_invested in Hbuy. apply sell_block_inv in Hsell.
  unfold invested_after_sell.
  destruct (PrimFloat.ltb float0 (sell_total_qty vals)); subst st2; simpl;
    rewrite Hbuy; reflexivity.
Qed.

(** C4, as the code has it.  In a week with [buy_qty > 0] that the loop
    processes: when [net_div >= buy_cost] the buy processing leaves the
    invested capital unchanged and the reinvested shares are
    [int(net_div / avg_buy_price)], the quotient truncated toward zero,
    which is its floor whenever the quotient is not negative; otherwise
    the buy processing adds exactly [buy_cost - net_div] and the
    reinvested shares are 0.  The only other change of the week to the
    invested capital is the decrement of its sell processing. *)
Theorem drip_heuristic cp ex st kw vals st' r :
  PrimFloat.ltb float0 (buy_total_qty vals) = true ->
  process_week cp ex st kw vals = Ok (st', r) ->
  total_invested st'
  = invested_after_sell vals (invested_after_buy vals (total_invested st))
  /\ exists avg,
      py_div (buy_total_cost vals) (buy_total_qty vals) = Ok avg
      /\ if PrimFloat.leb (buy_total_cost vals) (net_div_of vals)
         then invested_after_buy vals (total_invested st) = total_invested st
              /\ exists q n,
                  py_div (net_div_of vals) avg = Ok q
                  /\ py_int q = Ok n
                  /\ cell "DRIP" r = str_of_int n
                  /\ (PrimFloat.leb float0 q = true -> float_floor q = Some n)
         else invested_after_buy vals (total_invested st)
              = (total_invested st + (buy_total_cost vals - net_div_of vals))%float
              /\ cell "DRIP" r = "0".
Proof.
  intros Hq H. split; [apply (process_week_invested _ _ _ _ _ _ _ H)|].
  apply process_week_inv in H.
  destruct H as (dw & st1 & r1 & st2 & _ & Hbuy & _ & Hfin).
  pose proof (fun c => finish_week_other_cells _ _ _ _ _ _ c Hfin) as Hother.
  apply (buy_block_drip _ _ _ _ _ _ Hq) in Hbuy.
  destruct Hbuy as (avg & Havg & _ & Hdrip). exists avg. split; [exact Havg|].
  unfold invested_after_buy. rewrite Hq.
  destruct (PrimFloat.leb (buy_total_cost vals) (net_div_of vals)).
  - split; [reflexivity|]. destruct Hdrip as (q & n & Hq' & Hn & Hc).
    exists q, n. repeat split; try assumption.
    + rewrite Hother by reflexivity. exact Hc.
    + intros Hpos. apply py_int_floor; assumption.
  - split; [reflexivity|]. rewrite Hother by reflexivity. exact Hdrip.
Qed.

(** A buy of 2 shares at $25 in a week with a dividend of $60: the
    dividend covers the cost and 60 / 25 = 2.4 gives 2 reinvested
    shares. *)
Lemma drip_heuristic_witness :
  process_week 55 [] acc0 "01/2025" week_drip = Ok week_drip_out
  /\ total_invested (fst week_drip_out) = total_invested acc0
  /\ cell "DRIP" (snd week_drip_out) = "2".
Proof.
  assert (H : process_week 55 [] acc0 "01/2025" week_drip
              = Ok (fst week_drip_out, snd week_drip_out))
    by (vm_compute; reflexivity).
  assert (Hq : PrimFloat.ltb float0 (buy_total_qty week_drip) = true)
    by reflexivity.
  split; [exact H|].
  destruct (drip_heuristic 55%float [] acc0 "01/2025" week_drip _ _ Hq H)
    as (Hinv & avg & Havg & Hcase).
  split; [exact Hinv | reflexivity].
Defined.

(** C4 as stated fails where the quotient is negative: with one share
    bought at $-2 and a dividend of $3, [net_div >= buy_cost] holds, the
    quotient is -1.5, its floor is -2, and the row reports -1. *)
Lemma drip_is_truncation_not_floor :
  let vals := add_div 3 (add_buy "f1" 1 (-2) empty_bucket) in
  PrimFloat.ltb float0 (buy_total_qty vals) = true
  /\ PrimFloat.leb (buy_total_cost vals) (net_div_of vals) = true
  /\ py_div (buy_total_cost vals) (buy_total_qty vals) = Ok (-2)%float
  /\ py_div (net_div_of vals) (-2)%float = Ok (-1.5)%float
  /\ float_floor (-1.5)%float = Some (-2)
  /\ py_int (-1.5)%float = Ok (-1)
  /\ exists st' r,
       process_week 55 [] acc0 "01/2025" vals = Ok (st', r)
       /\ cell "DRIP" r = "-1"
       /\ cell "DRIP" r <> str_of_int (-2).
Proof.
  split; [reflexivity|]. split; [reflexivity|].
  split; [vm_compute; reflexivity|].
  split; [vm_compute; reflexivity|].
  split; [vm_compute; reflexivity|].
  split; [vm_compute; reflexivity|].
  eexists. eexists.
  split; [vm_compute; reflexivity|].
  split; [reflexivity | discriminate].
Qed.

(** A buy at price 0 in a week without dividends: the average buy price
    is 0 and the quotient [net_div / avg_buy_price] raises. *)
Lemma zero_cost_buy_raises :
  process_week 55 [] acc0 "01/2025" (add_buy "f1" 10 0 empty_bucket)
  = Raise ZeroDivisionError.
Proof. vm_compute. reflexivity. Qed.

(** C6. In every week with [sell_qty > 0] that the loop processes, the
    sell processing takes exactly [sell_cost] off the invested capital
    as the buy processing of the week left it (off the capital carried
    into the week when the week has no buy), and the position is exactly
    0 after the week, whatever it was before and whatever the quantity
    sold. *)
Theorem sell_clears_position cp ex st kw vals st' r :
  PrimFloat.ltb float0 (sell_total_qty vals) = true ->
  process_week cp ex st kw vals = Ok (st', r) ->
  total_invested st'
  = (invested_after_buy vals (total_invested st) - sell_total_cost vals)%float
  /\ (PrimFloat.ltb float0 (buy_total_qty vals) = false ->
      total_invested st' = (total_invested st - sell_total_cost vals)%float)
  /\ cumulative_shares st' = 0
  /\ cell "Gesamt" r = "0".
Proof.
  intros Hs H.
  pose proof (process_week_invested _ _ _ _ _ _ _ H) as Hinv.
  unfold invested_after_sell in Hinv. rewrite Hs in Hinv.
  split; [exact Hinv|]. split.
  - intros Hb. rewrite Hinv. unfold invested_after_buy. rewrite Hb. reflexivity.
  - pose proof (process_week_cells _ _ _ _ _ _ _ H) as (_ & _ & Hges & _).
    apply process_week_inv in H.
    destruct H as (dw & st1 & r1 & st2 & _ & _ & Hsell & Hfin).
    apply finish_week_inv in Hfin. destruct Hfin as (_ & Hsh & _).
    apply sell_block_inv in Hsell. rewrite Hs in Hsell.
    assert (E : cumulative_shares st' = 0) by (rewrite Hsh, Hsell; reflexivity).
    split; [exact E|]. rewrite Hges, E. reflexivity.
Qed.

(** Week 03/2025: a sale of 20 shares at $30 on a position of 20 shares
    leaves no share and takes $600 off the invested capital. *)
Lemma sell_clears_position_witness :
  process_week 55 [] (acc_of_shares 20) "03/2025" week_03_2025
  = Ok week_03_2025_out
  /\ total_invested (fst week_03_2025_out)
     = (total_invested (acc_of_shares 20) - 600)%float
  /\ cumulative_shares (fst week_03_2025_out) = 0
  /\ cell "Gesamt" (snd week_03_2025_out) = "0".
Proof.
  assert (H : process_week 55 [] (acc_of_shares 20) "03/2025" week_03_2025
              = Ok (fst week_03_2025_out, snd week_03_2025_out))
    by (vm_compute; reflexivity).
  assert (Hs : PrimFloat.ltb float0 (sell_total_qty week_03_2025) = true)
    by reflexivity.
  assert (Hb : PrimFloat.ltb float0 (buy_total_qty week_03_2025) = false)
    by reflexivity.
  split; [exact H|].
  destruct (sell_clears_position 55%float [] (acc_of_shares 20) "03/2025"
              week_03_2025 _ _ Hs H) as (_ & Hinv & Hsh & Hg).
  split; [exact (Hinv Hb)|]. split; [exact Hsh | exact Hg].
Defined.

(** ** The scenario of week 01/2025 *)

Lemma float_neq_by_ltb (x y : float) : PrimFloat.ltb x y = true -> y <> x.
Proof.
  intros H E. subst y. rewrite ltb_spec in H.
  unfold SFltb, SFcompare in H.
  destruct (Prim2SF x) as [s|s| |s m e]; try discriminate.
  - destruct s; discriminate.
  - rewrite Z.compare_refl in H.
    assert (Hc : PosDef.Pos.compare_cont Eq m m = Eq) by apply Pos.compare_refl.
    rewrite Hc in H. destruct s; discriminate.
Qed.

Lemma week_01_2025_run :
  process_week 55 [] acc0 "01/2025" week_01_2025
  = Ok ({| total_invested := 440; cumulative_shares := 10;
           cumulative_div_total := 60; week_count := 1 |},
        [("KW", "01/2025"); ("Start", "0"); ("Div/W", "");
         ("Brutto", "$60.00"); ("WHT", "$0.00"); ("Netto", "$60.00");
         ("DRIP", "0"); ("Gesamt", "10"); ("Preis", "50.00");
         ("Wert", "$550.00"); ("Ø/Woche", "$60.00"); ("Jahr", "$3,120.00");
         ("Rendite", "$-380.00"); ("Edit", "Edit")]).
Proof. vm_compute. reflexivity. Qed.

(** C2, as the code has it: for the single week 01/2025 with a buy of 10
    shares at $50 and a dividend of $60, at a current price of $55, the
    dividend does not cover the cost of $500, so the engine reports 0
    reinvested shares and adds 500 - 60 = 440 to the invested capital;
    the total is 10 shares and the market value $550.00. *)
Theorem week_01_2025_scenario :
  exists st' r,
    process_week 55 [] acc0 "01/2025" week_01_2025 = Ok (st', r)
    /\ PrimFloat.leb (buy_total_cost week_01_2025) (net_div_of week_01_2025) = false
    /\ cell "DRIP" r = "0"
    /\ total_invested st' = (total_invested acc0 + 440)%float
    /\ cell "Gesamt" r = "10"
    /\ cell "Wert" r = "$550.00".
Proof.
  eexists. eexists. split; [apply week_01_2025_run|].
  repeat split.
Qed.

(** C2 as stated fails: the engine reports 0 reinvested shares, not 1,
    and the invested capital changes. *)
Lemma week_01_2025_not_reinvested :
  exists st' r,
    process_week 55 [] acc0 "01/2025" week_01_2025 = Ok (st', r)
    /\ cell "DRIP" r <> "1"
    /\ total_invested st' <> total_invested acc0.
Proof.
  eexists. eexists. split; [apply week_01_2025_run|].
  split; [discriminate|]. apply float_neq_by_ltb. reflexivity.
Qed.

(** ** The chain of share counts *)

Lemma linked_app start rs r :
  linked start (rs ++ [r]) <-> linked start rs /\ cell "Start" r = carry start rs.
Proof.
  revert start. induction rs as [|r0 rs IH]; intros start; simpl.
  - tauto.
  - rewrite IH. tauto.
Qed.

Lemma carry_app start rs r : carry start (rs ++ [r]) = cell "Gesamt" r.
Proof.
  revert start. induction rs as [|r0 rs IH]; intros start; simpl; auto.
Qed.

Lemma linked_nth start rs :
  linked start rs ->
  (forall r, nth_error rs 0 = Some r -> cell "Start" r = start)
  /\ (forall i r r', nth_error rs i = Some r -> nth_error rs (S i) = Some r' ->
                     cell "Start" r' = cell "Gesamt" r).
Proof.
  revert start. induction rs as [|r0 rs IH]; intros start; simpl.
  - intros _. split; [discriminate|]. intros [|i]; discriminate.
  - intros [Hs Hl]. destruct (IH _ Hl) as [H0 Hn]. split.
    + intros r H. injection H as <-. exact Hs.
    + intros [|i] r r'; simpl.
      * intros H. injection H as <-. apply H0.
      * apply Hn.
Qed.

Lemma week_body_linked cp ex weeks ks :
  forall st rs st' rs',
    foldM (week_body cp ex weeks) ks (st, rs) = Ok (st', rs') ->
    linked "0" rs /\ carry "0" rs = str_of_int (cumulative_shares st) ->
    linked "0" rs' /\ carry "0" rs' = str_of_int (cumulative_shares st').
Proof.
  induction ks as [|k ks IH]; intros st rs st' rs'; simpl.
  - intros H. injection H as <- <-. auto.
  - intros H [Hl Hc]. inv_bind H. destruct a as [st1 rs1].
    apply (IH _ _ _ _ H). clear H IH.
    unfold week_body in Hm. simpl in Hm.
    destruct (dict_get k weeks) as [vals|]; [|discriminate].
    inv_bind Hm. destruct a as [st2 r]. injection Hm as <- <-.
    apply process_week_cells in Hm0. destruct Hm0 as (_ & Hs & Hg & _).
    split.
    + apply linked_app. split; [exact Hl | congruence].
    + rewrite carry_app. exact Hg.
Qed.

(** C7. In the rows a pass produces for a symbol, the first row starts
    with 0 shares and every later row starts with the total of the row
    before it. *)
Theorem start_is_previous_total current_kw positions states sym weeks inv rs :
  process_symbol current_kw positions states sym weeks = Ok (inv, rs) ->
  (forall r, nth_error rs 0 = Some r -> cell "Start" r = "0")
  /\ (forall i r r', nth_error rs i = Some r -> nth_error rs (S i) = Some r' ->
                     cell "Start" r' = cell "Gesamt" r).
Proof.
  unfold process_symbol. intros H.
  inv_bind H. inv_bind H. inv_bind H. destruct a1 as [st rs1].
  injection H as _ <-. unfold run_weeks in Hm1.
  apply week_body_linked in Hm1; [|split; reflexivity].
  apply linked_nth. apply Hm1.
Qed.

(** The pass of the symbol over its four weeks: 0, then 20 shares bought,
    carried through week 02, sold in week 03. *)
Lemma start_is_previous_total_witness :
  process_symbol "04/2025" ulty_positions [] "ULTY" ulty_weeks = Ok ulty_pass_out
  /\ map (cell "Start") (snd ulty_pass_out) = ["0"; "20"; "20"; "0"]
  /\ map (cell "Gesamt") (snd ulty_pass_out) = ["20"; "20"; "0"; "0"]
  /\ (forall r, nth_error (snd ulty_pass_out) 0 = Some r -> cell "Start" r = "0")
  /\ (forall i r r',
         nth_error (snd ulty_pass_out) i = Some r ->
         nth_error (snd ulty_pass_out) (S i) = Some r' ->
         cell "Start" r' = cell "Gesamt" r).
Proof.
  assert (H : process_symbol "04/2025" ulty_positions [] "ULTY" ulty_weeks
              = Ok (fst ulty_pass_out, snd ulty_pass_out))
    by (vm_compute; reflexivity).
  split; [exact H|]. split; [reflexivity|]. split; [reflexivity|].
  exact (start_is_previous_total "04/2025" ulty_positions [] "ULTY" ulty_weeks
           _ _ H).
Defined.

(** ** Tracked symbols *)

Lemma symbols_with_divs_fold sym acts s0 :
  str_mem sym
    (fold_left
       (fun s a =>
          if is_div_type a then
            match a_symbol a with
            | Some sym => if truthy sym then str_add sym s else s
            | None => s
            end
          else s) acts s0) = true
  <-> str_mem sym s0 = true
      \/ exists a, In a acts /\ is_div_type a = true
                   /\ a_symbol a = Some sym /\ sym <> "".
Proof.
  revert s0. induction acts as [|a acts IH]; intros s0; simpl.
  - split; [auto | intros [H|(a & [] & _)]; exact H].
  - rewrite IH. clear IH. split.
    + intros [H|(b & Hb & Hrest)]; [|right; exists b; tauto].
      destruct (is_div_type a) eqn:Ed; [|auto].
      destruct (a_symbol a) as [sa|] eqn:Es; [|auto].
      destruct (truthy sa) eqn:Et; [|auto].
      rewrite str_mem_add in H. apply orb_true_iff in H.
      destruct H as [H|H]; [|auto].
      apply String.eqb_eq in H. subst sa. right. exists a.
      repeat split; auto. intros ->. discriminate.
    + intros [H|(b & [<-|Hb] & Hd & Hs & Hne)].
      * left. destruct (is_div_type a); [|exact H].
        destruct (a_symbol a) as [sa|]; [|exact H].
        destruct (truthy sa); [|exact H].
        rewrite str_mem_add, H. apply orb_true_r.
      * left. rewrite Hd, Hs.
        destruct sym as [|c t]; [congruence|]. simpl.
        rewrite str_mem_add, String.eqb_refl. reflexivity.
      * right. exists b. tauto.
Qed.

(** The set built by the first loop over the activities. *)
Lemma symbols_with_divs_spec sym acts :
  str_mem sym (symbols_with_divs acts) = true
  <-> exists a, In a acts /\ is_div_type a = true
                /\ a_symbol a = Some sym /\ sym <> "".
Proof.
  unfold symbols_with_divs. rewrite symbols_with_divs_fold.
  split; [intros [H|H]; [discriminate | exact H] | auto].
Qed.

Lemma drop_fold_get swd k ks (st : states_t) :
  dict_get k
    (fold_left (fun st sym => if str_mem sym swd then st else dict_pop sym st)
       ks st)
  = if str_mem k ks && negb (str_mem k swd) then None else dict_get k st.
Proof.
  revert st. induction ks as [|k0 ks IH]; intros st; simpl; [reflexivity|].
  rewrite IH. clear IH.
  destruct (String.eqb k k0) eqn:E; simpl.
  - apply String.eqb_eq in E. subst k0.
    destruct (str_mem k swd) eqn:Es; simpl.
    + rewrite andb_false_r. reflexivity.
    + rewrite andb_true_r, dict_get_pop, String.eqb_refl.
      destruct (str_mem k ks); reflexivity.
  - destruct (str_mem k0 swd); [reflexivity|].
    rewrite dict_get_pop, E. reflexivity.
Qed.

Lemma drop_symbols_get swd k (st : states_t) :
  dict_get k (drop_symbols swd st)
  = if str_mem k swd then dict_get k st else None.
Proof.
  unfold drop_symbols. rewrite drop_fold_get.
  destruct (str_mem k swd) eqn:Es; simpl.
  - rewrite andb_false_r. reflexivity.
  - rewrite andb_true_r. destruct (str_mem k (dict_keys st)) eqn:Ek; [reflexivity|].
    destruct (dict_get k st) eqn:Eg; [|reflexivity].
    assert (Hm : dict_mem k st = true) by (unfold dict_mem; rewrite Eg; reflexivity).
    apply dict_mem_in_keys in Hm. apply str_mem_in in Hm. congruence.
Qed.

Lemma add_fold_mem k l (st : states_t) :
  dict_mem k
    (fold_left
       (fun st sym =>
          if dict_mem sym st then st
          else dict_set sym {| invest := float0; rows := []; last_modified := None |} st)
       l st)
  = dict_mem k st || str_mem k l.
Proof.
  revert st. induction l as [|k0 l IH]; intros st; simpl.
  - rewrite orb_false_r. reflexivity.
  - rewrite IH. clear IH. change (existsb (String.eqb k) l) with (str_mem k l).
    destruct (dict_mem k0 st) eqn:E0.
    + destruct (String.eqb k k0) eqn:E; simpl; [|reflexivity].
      apply String.eqb_eq in E. subst k0. rewrite E0. reflexivity.
    + rewrite dict_mem_set.
      destruct (String.eqb k k0), (dict_mem k st); reflexivity.
Qed.

(** After the two loops over the state, the tracked symbols are those of
    the dividend records. *)
Lemma tracked_after_update swd k (st : states_t) :
  dict_mem k (add_symbols swd (drop_symbols swd st)) = str_mem k swd.
Proof.
  unfold add_symbols. rewrite add_fold_mem.
  unfold dict_mem at 1. rewrite drop_symbols_get.
  destruct (str_mem k swd); [apply orb_true_r | reflexivity].
Qed.

Lemma sync_symbol_keys current_kw positions st item st' :
  sync_symbol current_kw positions st item = Ok st' ->
  dict_keys st' = dict_keys st.
Proof.
  unfold sync_symbol. destruct item as [sym weeks]. intros H.
  inv_bind H. destruct a as [inv rs].
  destruct (dict_get sym st) as [s|] eqn:E; [|discriminate].
  injection H as <-. apply dict_keys_set_mem. unfold dict_mem. rewrite E.
  reflexivity.
Qed.

Lemma sync_loop_keys current_kw positions items :
  forall st st',
    foldM (sync_symbol current_kw positions) items st = Ok st' ->
    dict_keys st' = dict_keys st.
Proof.
  induction items as [|item items IH]; intros st st'; simpl.
  - intros H. injection H as <-. reflexivity.
  - intros H. inv_bind H. apply sync_symbol_keys in Hm. rewrite <- Hm. auto.
Qed.

Lemma dict_mem_keys_eq {V W : Type} (d : dict V) (d' : dict W) k :
  dict_keys d = dict_keys d' -> dict_mem k d = dict_mem k d'.
Proof.
  intros E. destruct (dict_mem k d') eqn:E'.
  - apply dict_mem_in_keys. rewrite E. apply dict_mem_in_keys. exact E'.
  - destruct (dict_mem k d) eqn:Ed; [|reflexivity].
    apply dict_mem_in_keys in Ed. rewrite E in Ed.
    apply dict_mem_in_keys in Ed. congruence.
Qed.

Lemma reconcile_tracked current_kw acts positions ignored states states' k :
  reconcile current_kw acts positions ignored states = Ok states' ->
  dict_mem k states' = str_mem k (symbols_with_divs acts).
Proof.
  unfold reconcile. intros H. inv_bind H.
  apply sync_loop_keys in H.
  rewrite (dict_mem_keys_eq _ _ k H). apply tracked_after_update.
Qed.

(** What a sync that reaches the state file has fetched and computed. *)
Lemma synced_inv fuel net cfg until current_kw ignored states n states' :
  alpaca_sync_all fuel net cfg until current_kw ignored states = Synced n states' ->
  exists acts m positions,
    get_all_activities_complete fuel net 0 None (Some until) = Some (acts, m)
    /\ get_alpaca_positions net m = Ok positions
    /\ reconcile current_kw acts positions ignored states = Ok states'
    /\ n = List.length acts.
Proof.
  unfold alpaca_sync_all.
  destruct (negb (truthy (get_or (cfg_key cfg) ""))
            || negb (truthy (get_or (cfg_secret cfg) ""))); [discriminate|].
  destruct (get_all_activities_complete fuel net 0 None (Some until))
    as [[acts m]|]; [|discriminate].
  destruct (get_alpaca_positions net m) as [positions|e] eqn:Ep; simpl;
    [|discriminate].
  destruct (reconcile current_kw acts positions ignored states) as [s|e] eqn:Er;
    [|discriminate].
  intros H. injection H as <- <-. exists acts, m, positions. auto.
Qed.

(** C9. After a sync, a symbol is in the tracked state if and only if
    the fetch holds a dividend-bearing record ([DIV] or [DIVNRA]) for it:
    symbols without one are dropped, and every symbol with one has an
    entry. *)
Theorem tracked_iff_dividend fuel net cfg until current_kw ignored states n states' :
  alpaca_sync_all fuel net cfg until current_kw ignored states = Synced n states' ->
  exists acts m,
    get_all_activities_complete fuel net 0 None (Some until) = Some (acts, m)
    /\ forall sym,
        dict_mem sym states' = true
        <-> exists a, In a acts
                      /\ (a_activity_type a = Some "DIV"
                          \/ a_activity_type a = Some "DIVNRA")
                      /\ a_symbol a = Some sym /\ sym <> "".
Proof.
  intros H. apply synced_inv in H.
  destruct H as (acts & m & positions & Hf & _ & Hr & _).
  exists acts, m. split; [exact Hf|]. intros sym.
  rewrite (reconcile_tracked _ _ _ _ _ _ sym Hr), symbols_with_divs_spec.
  split; intros (a & Ha & Hd & Hs); exists a; (split; [exact Ha|]);
    (split; [|exact Hs]).
  - unfold is_div_type in Hd. destruct (a_activity_type a) as [t|]; [|discriminate].
    apply orb_true_iff in Hd.
    destruct Hd as [E|E]; apply String.eqb_eq in E; subst; auto.
  - unfold is_div_type. destruct Hd as [-> | ->]; reflexivity.
Qed.

(** A sync that tracked a symbol without dividends before: the symbol is
    dropped, and the symbol of the dividend is tracked. *)
Lemma tracked_iff_dividend_witness :
  alpaca_sync_all 10 net_up cfg_ok "2025-01-21" "04/2025" []
    [("OLD", empty_state)] = Synced 4 net_up_state
  /\ dict_keys net_up_state = ["ULTY"]
  /\ exists acts m,
       get_all_activities_complete 10 net_up 0 None (Some "2025-01-21")
       = Some (acts, m)
       /\ forall sym,
           dict_mem sym net_up_state = true
           <-> exists a, In a acts
                         /\ (a_activity_type a = Some "DIV"
                             \/ a_activity_type a = Some "DIVNRA")
                         /\ a_symbol a = Some sym /\ sym <> "".
Proof.
  assert (H : alpaca_sync_all 10 net_up cfg_ok "2025-01-21" "04/2025" []
                [("OLD", empty_state)] = Synced 4 net_up_state)
    by (vm_compute; reflexivity).
  split; [exact H|]. split; [reflexivity|].
  exact (tracked_iff_dividend 10 net_up cfg_ok "2025-01-21" "04/2025" []
           [("OLD", empty_state)] 4 net_up_state H).
Defined.

(** ** The fetch *)

(** The loop only ever appends to what it has fetched. *)
Lemma fetch_pages_extends fuel net :
  forall n activity_type after until all_activities res m,
    fetch_pages fuel net n activity_type after until all_activities
    = Some (res, m) ->
    exists pages, res = all_activities ++ pages.
Proof.
  induction fuel as [|fuel IH]; intros n ty after until all res m; simpl;
    [discriminate|].
  destruct (net n (ReqActivities ty after until)) as [data| |].
  - destruct data as [|d ds].
    + intros H. injection H as <- _. exists []. rewrite app_nil_r. reflexivity.
    + destruct (List.length (d :: ds) <? 100)%nat.
      * intros H. injection H as <- _. eauto.
      * destruct (str_or (a_date (last ds d)) (a_transaction_time (last ds d)))
          as [last_date|].
        -- destruct (truthy last_date).
           ++ intros H. apply IH in H. destruct H as (pages & ->).
              exists ((d :: ds) ++ pages). rewrite app_assoc. reflexivity.
           ++ intros H. injection H as <- _. eauto.
        -- intros H. injection H as <- _. eauto.
  - intros H. injection H as <- _. exists []. rewrite app_nil_r. reflexivity.
  - intros H. injection H as <- _. exists []. rewrite app_nil_r. reflexivity.
Qed.

(** C1, as the code has it.  A network error on a page request ends the
    fetch of that activity type only, and the fetch returns the pages
    retrieved so far: nothing fetched is ever discarded.  A sync whose
    fetch has returned reports failure only when the positions request or
    the reconciliation raises; otherwise it reconciles the activities
    fetched and writes the result. *)
Theorem fetch_error_keeps_pages :
  (forall fuel net n activity_type after until all_activities,
      net n (ReqActivities activity_type after until) = RespError ->
      fetch_pages (S fuel) net n activity_type after until all_activities
      = Some (all_activities, S n))
  /\ (forall fuel net n activity_type after until all_activities res m,
         fetch_pages fuel net n activity_type after until all_activities
         = Some (res, m) ->
         exists pages, res = all_activities ++ pages)
  /\ (forall fuel net cfg until current_kw ignored states acts m,
         truthy (get_or (cfg_key cfg) "") = true ->
         truthy (get_or (cfg_secret cfg) "") = true ->
         get_all_activities_complete fuel net 0 None (Some until) = Some (acts, m) ->
         alpaca_sync_all fuel net cfg until current_kw ignored states
         = match get_alpaca_positions net m with
           | Ok positions =>
               match reconcile current_kw acts positions ignored states with
               | Ok states' => Synced (List.length acts) states'
               | Raise e => SyncFailed e
               end
           | Raise e => SyncFailed e
           end).
Proof.
  split; [|split].
  - intros fuel net n ty after until all H. simpl. rewrite H. reflexivity.
  - intros fuel net. apply fetch_pages_extends.
  - intros fuel net cfg until kw ignored states acts m Hk Hs Hf.
    unfold alpaca_sync_all. rewrite Hk, Hs, Hf. simpl.
    destruct (get_alpaca_positions net m); reflexivity.
Qed.

(** The second page of fills fails: the 100 fills of the first page are
    returned, and the sync goes on to reconcile and store them. *)
Lemma fetch_error_keeps_pages_witness :
  fetch_pages 9 net_page2_down 1%nat "FILL" (Some "2025-01-02")
    (Some "2025-01-21") (repeat buy_f1 100) = Some (repeat buy_f1 100, 2%nat)
  /\ alpaca_sync_all 10 net_page2_down cfg_ok "2025-01-21" "04/2025" [] []
     = Synced 101 page2_down_state.
Proof.
  destruct fetch_error_keeps_pages as (Hpage & _ & Hsync). split.
  - apply (Hpage 8%nat net_page2_down 1%nat "FILL" (Some "2025-01-02")
             (Some "2025-01-21") (repeat buy_f1 100)).
    reflexivity.
  - assert (Hf : get_all_activities_complete 10 net_page2_down 0 None
                   (Some "2025-01-21")
                 = Some (repeat buy_f1 100 ++ [div_d1], 4%nat))
      by (vm_compute; reflexivity).
    rewrite (Hsync 10%nat net_page2_down cfg_ok "2025-01-21" "04/2025" [] []
               _ _ eq_refl eq_refl Hf).
    vm_compute. reflexivity.
Defined.

(** C1 as stated fails: the request for the second page of fills ends in
    a network error, the 100 fills of the first page are kept, the sync
    reports success, and the state computed from them is written. *)
Lemma page_error_does_not_abort_sync :
  net_page2_down 1%nat
    (ReqActivities "FILL" (Some "2025-01-02") (Some "2025-01-21")) = RespError
  /\ get_activities_by_type 10 net_page2_down 0 "FILL" None (Some "2025-01-21")
     = Some (repeat buy_f1 100, 2%nat)
  /\ alpaca_sync_all 10 net_page2_down cfg_ok "2025-01-21" "04/2025" [] []
     = Synced 101 page2_down_state
  /\ map (cell "KW") (stored_rows page2_down_state "ULTY")
     = ["01/2025"; "04/2025"]
  /\ map (cell "Gesamt") (stored_rows page2_down_state "ULTY") = ["20"; "20"].
Proof.
  split; [reflexivity|]. split; [vm_compute; reflexivity|].
  split; [vm_compute; reflexivity|]. split; reflexivity.
Qed.

(** ** Duplicate identifiers *)

(** A fill whose identifier has been seen changes neither the totals nor
    the identifiers seen. *)
Lemma normalize_event_duplicate states ignored g seen a oid g' seen' line :
  a_activity_type a = Some "FILL" ->
  a_id a = Some oid ->
  str_mem oid seen = true ->
  normalize_event states ignored g seen a = Ok (g', seen', line) ->
  g' = g /\ seen' = seen
  /\ (line = Some (Duplicate oid)
      \/ (line = None
          /\ forall g0 seen0,
              normalize_event states ignored g0 seen0 a = Ok (g0, seen0, None))).
Proof.
  intros Ht Hid Hseen. unfold normalize_event. rewrite Ht. simpl get_or.
  destruct (negb (truthy (get_or (a_symbol a) ""))
            || negb (dict_mem (get_or (a_symbol a) "") states)).
  { intros H. injection H as <- <- <-. auto. }
  destruct (negb (truthy (date_of a))).
  { intros H. injection H as <- <- <-. auto. }
  destruct (kw_of_date (date_of a)) as [kw|e]; simpl; [|discriminate].
  destruct (negb (is_execution a)).
  { intros H. injection H as <- <- <-. auto. }
  unfold order_id_of. rewrite Hid. simpl get_or. rewrite Hseen.
  intros H. injection H as <- <- <-. auto.
Qed.

Lemma normalize_step_notes states ignored st a st' :
  normalize_step states ignored st a = Ok st' ->
  exists l, notes st' = notes st ++ l.
Proof.
  unfold normalize_step. intros H. inv_bind H. destruct a0 as [[g seen] line].
  injection H as <-. simpl. destruct line as [n|].
  - exists [n]. reflexivity.
  - exists []. rewrite app_nil_r. reflexivity.
Qed.

Lemma normalize_loop_notes states ignored acts :
  forall st st',
    foldM (normalize_step states ignored) acts st = Ok st' ->
    exists l, notes st' = notes st ++ l.
Proof.
  induction acts as [|a acts IH]; intros st st'; simpl.
  - intros H. injection H as <-. exists []. rewrite app_nil_r. reflexivity.
  - intros H. inv_bind H. apply normalize_step_notes in Hm.
    destruct Hm as (l1 & E1). apply IH in H. destruct H as (l2 & E2).
    exists (l1 ++ l2). rewrite E2, E1, app_assoc. reflexivity.
Qed.

(** The loop reads the totals and the identifiers seen, not the lines
    reported. *)
Lemma normalize_loop_totals states ignored acts :
  forall st1 st2 st1',
    grouped st1 = grouped st2 ->
    seen_order_ids st1 = seen_order_ids st2 ->
    foldM (normalize_step states ignored) acts st1 = Ok st1' ->
    exists st2',
      foldM (normalize_step states ignored) acts st2 = Ok st2'
      /\ grouped st2' = grouped st1'
      /\ seen_order_ids st2' = seen_order_ids st1'.
Proof.
  induction acts as [|a acts IH]; intros st1 st2 st1' Hg Hs; simpl.
  - intros H. injection H as <-. exists st2. auto.
  - intros H. inv_bind H. unfold normalize_step in Hm |- *.
    rewrite <- Hg, <- Hs. inv_bind Hm. rewrite Hm0. simpl.
    destruct a1 as [[g seen] line]. injection Hm as <-.
    eapply IH; [| |exact H]; reflexivity.
Qed.

(** X25.  A fill whose identifier has already been seen in the run is
    discarded: the run with it yields the same weekly totals and the same
    identifiers seen as the run without it, and it is reported as a
    duplicate unless it is a record the loop skips in any state
    (untracked symbol, no date, not an executed order). *)
Lemma seen_fill_is_discarded states ignored acts1 a acts2 oid g1 g :
  a_activity_type a = Some "FILL" ->
  a_id a = Some oid ->
  normalize states ignored acts1 = Ok g1 ->
  str_mem oid (seen_order_ids g1) = true ->
  normalize states ignored (acts1 ++ a :: acts2) = Ok g ->
  (exists g', normalize states ignored (acts1 ++ acts2) = Ok g'
              /\ grouped g' = grouped g
              /\ seen_order_ids g' = seen_order_ids g)
  /\ (In (Duplicate oid) (notes g)
      \/ forall st0, normalize_step states ignored st0 a = Ok st0).
Proof.
  unfold normalize. intros Ht Hid H1 Hseen H.
  rewrite foldM_app, H1 in H. simpl in H. inv_bind H.
  rewrite foldM_app, H1. simpl.
  unfold normalize_step in Hm. inv_bind Hm. destruct a1 as [[g' seen'] line].
  injection Hm as <-.
  destruct (normalize_event_duplicate _ _ _ _ _ _ _ _ _ Ht Hid Hseen Hm0)
    as (-> & -> & Hline).
  split.
  - eapply normalize_loop_totals; [| |exact H]; reflexivity.
  - destruct Hline as [-> | [-> Hskip]].
    + left. apply normalize_loop_notes in H. destruct H as (l & ->). simpl.
      apply in_or_app. left. apply in_or_app. right. left. reflexivity.
    + right. intros st0. unfold normalize_step. rewrite Hskip. simpl.
      destruct st0; reflexivity.
Qed.

(** The sale booked on two pages: the second record changes no total and
    is reported as a duplicate. *)
Lemma seen_fill_is_discarded_example :
  normalize tracked_ulty [] (feed_once ++ [sell_f2]) = Ok feed_sale_twice_out
  /\ sell_total_qty (bucket_of (grouped feed_sale_twice_out) "ULTY" "03/2025")
     = 20%float
  /\ (exists g', normalize tracked_ulty [] (feed_once ++ []) = Ok g'
                 /\ grouped g' = grouped feed_sale_twice_out
                 /\ seen_order_ids g' = seen_order_ids feed_sale_twice_out)
  /\ (In (Duplicate "f2") (notes feed_sale_twice_out)
      \/ forall st0, normalize_step tracked_ulty [] st0 sell_f2 = Ok st0).
Proof.
  assert (H1 : normalize tracked_ulty [] feed_once = Ok feed_once_out)
    by (vm_compute; reflexivity).
  assert (H2 : normalize tracked_ulty [] (feed_once ++ [sell_f2])
               = Ok feed_sale_twice_out) by (vm_compute; reflexivity).
  assert (Hseen : str_mem "f2" (seen_order_ids feed_once_out) = true)
    by reflexivity.
  split; [exact H2|]. split; [reflexivity|].
  exact (seen_fill_is_discarded tracked_ulty [] feed_once sell_f2 [] "f2"
           feed_once_out feed_sale_twice_out eq_refl eq_refl H1 Hseen H2).
Defined.

(** C3.  Two activities with one identifier are to contribute once.  The
    code at a failing input: the dividend record [d1] of $60 delivered
    twice in one fetch adds $120 to the gross dividend of its week and is
    not reported, where the sale [f2] delivered twice counts once. *)
Theorem duplicate_dividend_counts_twice :
  a_id div_d1 = Some "d1"
  /\ normalize tracked_ulty [] [div_d1] = Ok one_dividend_out
  /\ normalize tracked_ulty [] [div_d1; div_d1] = Ok two_dividends_out
  /\ div_gross (bucket_of (grouped one_dividend_out) "ULTY" "01/2025") = 60%float
  /\ div_gross (bucket_of (grouped two_dividends_out) "ULTY" "01/2025") = 120%float
  /\ notes two_dividends_out = []
  /\ normalize tracked_ulty [] (feed_once ++ [sell_f2]) = Ok feed_sale_twice_out
  /\ sell_total_qty (bucket_of (grouped feed_once_out) "ULTY" "03/2025") = 20%float
  /\ sell_total_qty (bucket_of (grouped feed_sale_twice_out) "ULTY" "03/2025")
     = 20%float
  /\ notes feed_sale_twice_out = [Duplicate "f2"].
Proof.
  split; [reflexivity|]. split; [vm_compute; reflexivity|].
  split; [vm_compute; reflexivity|]. split; [reflexivity|].
  split; [reflexivity|]. split; [reflexivity|].
  split; [vm_compute; reflexivity|]. repeat split.
Qed.

(** ** Running the pass twice *)

Lemma foldM_ext {A S : Type} (f g : S -> A -> result S) (xs : list A) (st : S) :
  (forall s a, f s a = g s a) -> foldM f xs st = foldM g xs st.
Proof.
  intros E. revert st. induction xs as [|x xs IH]; intros st; simpl; [reflexivity|].
  rewrite E. destruct (g st x); simpl; auto.
Qed.

Lemma insert_by_key_perm x l : Permutation (insert_by_key x l) (x :: l).
Proof.
  induction l as [|y l IH]; simpl; [reflexivity|].
  destruct (key_le (fst x) (fst y)); [reflexivity|].
  rewrite IH. apply perm_swap.
Qed.

Lemma sort_by_key_perm l : Permutation (fold_right insert_by_key [] l) l.
Proof.
  induction l as [|x l IH]; simpl; [reflexivity|].
  rewrite insert_by_key_perm. constructor. exact IH.
Qed.

Lemma with_keys_snd ks keyed : with_keys ks = Ok keyed -> map snd keyed = ks.
Proof.
  revert keyed. induction ks as [|k ks IH]; intros keyed; simpl.
  - intros H. injection H as <-. reflexivity.
  - intros H. inv_bind H. inv_bind H. injection H as <-. simpl.
    f_equal. auto.
Qed.

Lemma sorted_weeks_perm ks sorted :
  sorted_weeks_of ks = Ok sorted -> Permutation sorted ks.
Proof.
  unfold sorted_weeks_of. intros H. inv_bind H. injection H as <-.
  rewrite <- (with_keys_snd _ _ Hm). apply Permutation_map, sort_by_key_perm.
Qed.

(** The imperative loop appends the rows of the recursion. *)
Lemma run_weeks_from cp ex weeks ks :
  forall st rs0,
    foldM (week_body cp ex weeks) ks (st, rs0)
    = bind (weeks_from cp ex weeks st ks)
        (fun out => Ok (fst out, rs0 ++ snd out)).
Proof.
  induction ks as [|k ks IH]; intros st rs0; simpl.
  - rewrite app_nil_r. reflexivity.
  - unfold week_body at 1. simpl.
    destruct (dict_get k weeks) as [vals|]; [|reflexivity].
    destruct (process_week cp ex st k vals) as [[st1 r]|e]; simpl; [|reflexivity].
    rewrite IH.
    destruct (weeks_from cp ex weeks st1 ks) as [[st' rs]|e]; simpl; [|reflexivity].
    rewrite <- app_assoc. reflexivity.
Qed.

Lemma weeks_from_keys cp ex weeks :
  forall ks st st' rs,
    weeks_from cp ex weeks st ks = Ok (st', rs) ->
    Forall2 (fun k r => dict_get "KW" r = Some k) ks rs.
Proof.
  induction ks as [|k ks IH]; intros st st' rs; simpl.
  - intros H. injection H as _ <-. constructor.
  - destruct (dict_get k weeks) as [vals|]; [|discriminate].
    intros H. inv_bind H. destruct a as [st1 r]. inv_bind H.
    destruct a as [st2 rs']. injection H as _ <-.
    constructor; [|eauto].
    apply process_week_cells in Hm. apply Hm.
Qed.

(** A blank cell is never the result of the protection or of a rate. *)
Lemma div_w_cell_stable ex ex2 k gross start dw r :
  div_w_cell ex k gross start = Ok dw ->
  dict_get k ex2 = Some r -> cell "Div/W" r = dw ->
  div_w_cell ex2 k gross start = Ok dw.
Proof.
  intros H Hr Hc. unfold div_w_cell at 1. unfold kept_div_w. rewrite Hr, Hc.
  destruct (truthy (strip dw)) eqn:Et; [reflexivity|].
  destruct (kept_div_w ex k) as [v|] eqn:Ek.
  - exfalso. unfold div_w_cell in H. rewrite Ek in H. injection H as ->.
    apply kept_div_w_stored in Ek. destruct Ek as (r0 & _ & _ & Hnb).
    apply truthy_strip in Hnb. congruence.
  - unfold div_w_cell in H. rewrite Ek in H. exact H.
Qed.

Lemma process_week_stable cp ex ex2 st k vals st' r :
  process_week cp ex st k vals = Ok (st', r) ->
  dict_get k ex2 = Some r ->
  process_week cp ex2 st k vals = Ok (st', r).
Proof.
  intros H Hr.
  pose proof (process_week_cells _ _ _ _ _ _ _ H) as (_ & _ & _ & Hdw).
  pose proof (div_w_cell_stable _ _ _ _ _ _ _ Hdw Hr eq_refl) as Hdw2.
  unfold process_week in *. rewrite Hdw in H. rewrite Hdw2. exact H.
Qed.

Lemma weeks_from_stable cp ex ex2 weeks :
  forall ks st st' rs,
    weeks_from cp ex weeks st ks = Ok (st', rs) ->
    (forall k r, In (k, r) (combine ks rs) -> dict_get k ex2 = Some r) ->
    weeks_from cp ex2 weeks st ks = Ok (st', rs).
Proof.
  induction ks as [|k ks IH]; intros st st' rs; simpl.
  - auto.
  - destruct (dict_get k weeks) as [vals|]; [|discriminate].
    intros H Hex. inv_bind H. destruct a as [st1 r]. inv_bind H.
    destruct a as [st2 rs']. injection H as <- <-.
    rewrite (process_week_stable _ _ ex2 _ _ _ _ _ Hm); [|apply Hex; left; reflexivity].
    simpl. rewrite (IH _ _ _ Hm0); [reflexivity|].
    intros k' r' Hin. apply Hex. right. exact Hin.
Qed.

(** The dictionary of the rows of a pass, keyed by their weeks. *)
Lemma existing_rows_other rs :
  forall ex0 ex k,
    foldM (fun d r => match dict_get "KW" r with
                      | Some kw => Ok (dict_set kw r d)
                      | None => Raise KeyError
                      end) rs ex0 = Ok ex ->
    (forall r, In r rs -> dict_get "KW" r <> Some k) ->
    dict_get k ex = dict_get k ex0.
Proof.
  induction rs as [|r rs IH]; intros ex0 ex k; simpl.
  - intros H _. injection H as <-. reflexivity.
  - intros H Hk. inv_bind H.
    destruct (dict_get "KW" r) as [kw|] eqn:E; [|discriminate].
    injection Hm as <-. rewrite (IH _ _ k H); [|intros r' Hr'; apply Hk; auto].
    rewrite dict_get_set. destruct (String.eqb k kw) eqn:Ek; [|reflexivity].
    apply String.eqb_eq in Ek. subst kw. destruct (Hk r (or_introl eq_refl) E).
Qed.

Lemma existing_rows_of_pass ks :
  forall rs ex0,
    Forall2 (fun k r => dict_get "KW" r = Some k) ks rs ->
    NoDup ks ->
    exists ex,
      foldM (fun d r => match dict_get "KW" r with
                        | Some kw => Ok (dict_set kw r d)
                        | None => Raise KeyError
                        end) rs ex0 = Ok ex
      /\ forall k r, In (k, r) (combine ks rs) -> dict_get k ex = Some r.
Proof.
  induction ks as [|k ks IH]; intros rs ex0 HF Hnd.
  - inversion HF; subst. exists ex0. split; [reflexivity | intros ? ? []].
  - inversion HF as [|? r ? rs' Hk HF']; subst.
    inversion Hnd as [|? ? Hnot Hnd']; subst.
    destruct (IH rs' (dict_set k r ex0) HF' Hnd') as (ex & Hex & Hget).
    exists ex. simpl. rewrite Hk. simpl. split; [exact Hex|].
    intros k' r' [E|Hin].
    + injection E as <- <-.
      rewrite (existing_rows_other _ _ _ k Hex).
      * rewrite dict_get_set, String.eqb_refl. reflexivity.
      * intros r0 Hr0 E0. apply Hnot.
        clear - HF' Hr0 E0. induction HF' as [|k1 r1 ks1 rs1 H1 HF1 IH1].
        -- destruct Hr0.
        -- destruct Hr0 as [<-|Hr0]; [left; congruence | right; auto].
    + apply Hget. exact Hin.
Qed.

(** The pass over one symbol returns its own rows when it reads them as
    the stored rows. *)
Lemma process_symbol_idempotent current_kw positions s s' sym weeks inv rs :
  NoDup (dict_keys weeks) ->
  process_symbol current_kw positions s sym weeks = Ok (inv, rs) ->
  stored_rows s' sym = rs ->
  process_symbol current_kw positions s' sym weeks = Ok (inv, rs).
Proof.
  unfold process_symbol, run_weeks, existing_rows_of. intros Hnd H Hst.
  set (weeks' := if dict_mem current_kw weeks then weeks
                 else dict_set current_kw empty_bucket weeks) in *.
  assert (Hnd' : NoDup (dict_keys weeks')).
  { unfold weeks'. destruct (dict_mem current_kw weeks);
      [exact Hnd | apply dict_set_nodup; exact Hnd]. }
  inv_bind H. rewrite Hm. simpl. inv_bind H.
  rewrite run_weeks_from in H. inv_bind H. destruct a1 as [st out].
  injection H as <- <-. inv_bind Hm1. destruct a1 as [st1 rs1].
  simpl in Hm1. injection Hm1 as <- <-. rewrite Hst.
  pose proof (weeks_from_keys _ _ _ _ _ _ _ Hm2) as HF.
  assert (Hnds : NoDup a).
  { apply (Permutation_NoDup (l := dict_keys weeks')); [|exact Hnd'].
    symmetry. apply sorted_weeks_perm. exact Hm. }
  destruct (existing_rows_of_pass _ _ [] HF Hnds) as (ex2 & Hex2 & Hget).
  rewrite Hex2. simpl. rewrite run_weeks_from.
  rewrite (weeks_from_stable _ _ ex2 _ _ _ _ _ Hm2 Hget). reflexivity.
Qed.

Lemma dict_set_in {V : Type} k (v : V) d k' v' :
  In (k', v') (dict_set k v d) -> (k', v') = (k, v) \/ In (k', v') d.
Proof.
  induction d as [|[k0 v0] d IH]; simpl.
  - intros [H|[]]. left. congruence.
  - destruct (String.eqb k k0) eqn:E; simpl.
    + apply String.eqb_eq in E. subst k0. intros [H|H]; [left; exact (eq_sym H) | auto].
    + intros [H|H]; [auto | destruct (IH H); auto].
Qed.

Lemma upd_bucket_wf sym kw f g : wf_grouped g -> wf_grouped (upd_bucket sym kw f g).
Proof.
  intros [Hnd Hweeks]. unfold upd_bucket. split.
  - apply dict_set_nodup. exact Hnd.
  - intros s w Hin. apply dict_set_in in Hin. destruct Hin as [E|Hin]; [|eauto].
    injection E as -> ->. apply dict_set_nodup.
    destruct (dict_get sym g) as [weeks|] eqn:Eg; simpl.
    + apply (Hweeks sym). apply dict_get_in. exact Eg.
    + constructor.
Qed.

Lemma normalize_event_wf states ignored g seen a g' seen' line :
  normalize_event states ignored g seen a = Ok (g', seen', line) ->
  wf_grouped g -> wf_grouped g'.
Proof.
  unfold normalize_event. intros H Hwf.
  repeat match type of H with
         | Ok _ = Ok _ => injection H as <- <- <-
         | bind ?m _ = Ok _ => inv_bind H
         | (if ?c then _ else _) = Ok _ => destruct c
         | match ?o with Some _ => _ | None => _ end = Ok _ => destruct o
         end;
    try exact Hwf; apply upd_bucket_wf; exact Hwf.
Qed.

Lemma normalize_wf states ignored acts g :
  normalize states ignored acts = Ok g -> wf_grouped (grouped g).
Proof.
  unfold normalize.
  assert (Hgen : forall st st',
             foldM (normalize_step states ignored) acts st = Ok st' ->
             wf_grouped (grouped st) -> wf_grouped (grouped st')).
  { induction acts as [|a acts IH]; intros st st'; simpl.
    - intros H. injection H as <-. auto.
    - intros H Hwf. inv_bind H. apply (IH _ _ H). clear H IH.
      unfold normalize_step in Hm. inv_bind Hm. destruct a1 as [[g1 seen1] line].
      injection Hm as <-. simpl.
      apply (normalize_event_wf _ _ _ _ _ _ _ _ Hm0 Hwf). }
  intros H. apply (Hgen _ _ H). split; [constructor | intros ? ? []].
Qed.

Lemma normalize_tracked_ext s s' ignored acts :
  (forall k, dict_mem k s = dict_mem k s') ->
  normalize s ignored acts = normalize s' ignored acts.
Proof.
  intros E. unfold normalize. apply foldM_ext. intros st a.
  unfold normalize_step, normalize_event. rewrite E. reflexivity.
Qed.

Lemma drop_fold_id swd ks (s : states_t) :
  (forall k, In k ks -> str_mem k swd = true) ->
  fold_left (fun st sym => if str_mem sym swd then st else dict_pop sym st) ks s
  = s.
Proof.
  induction ks as [|k ks IH]; intros H; simpl; [reflexivity|].
  rewrite (H k (or_introl eq_refl)). apply IH. intros k' Hk'. apply H.
  right. exact Hk'.
Qed.

Lemma drop_symbols_id swd (s : states_t) :
  (forall k, In k (dict_keys s) -> str_mem k swd = true) ->
  drop_symbols swd s = s.
Proof.
  intros H. unfold drop_symbols. apply drop_fold_id. exact H.
Qed.

Lemma add_symbols_id swd (s : states_t) :
  (forall k, In k swd -> dict_mem k s = true) -> add_symbols swd s = s.
Proof.
  unfold add_symbols. induction swd as [|k l IH]; intros H; simpl; [reflexivity|].
  rewrite (H k (or_introl eq_refl)). apply IH. intros k' Hk'. apply H.
  right. exact Hk'.
Qed.

Lemma process_symbol_rows_ext current_kw positions s s' sym weeks :
  stored_rows s' sym = stored_rows s sym ->
  process_symbol current_kw positions s' sym weeks
  = process_symbol current_kw positions s sym weeks.
Proof.
  intros E. unfold process_symbol. rewrite E. reflexivity.
Qed.

Lemma sync_loop_untouched current_kw positions items :
  forall s s1 sym,
    foldM (sync_symbol current_kw positions) items s = Ok s1 ->
    ~ In sym (dict_keys items) ->
    dict_get sym s1 = dict_get sym s.
Proof.
  induction items as [|[sym0 weeks0] items IH]; intros s s1 sym; simpl.
  - intros H _. injection H as <-. reflexivity.
  - intros H Hnot. inv_bind H. rewrite (IH _ _ sym H); [|tauto].
    unfold sync_symbol in Hm. inv_bind Hm. destruct a0 as [inv rs].
    destruct (dict_get sym0 s); [|discriminate]. injection Hm as <-.
    rewrite dict_get_set. destruct (String.eqb sym sym0) eqn:E; [|reflexivity].
    apply String.eqb_eq in E. subst sym0. tauto.
Qed.

(** What the first pass leaves for each symbol of [grouped]. *)
Lemma sync_loop_first current_kw positions items :
  forall s s1,
    NoDup (dict_keys items) ->
    foldM (sync_symbol current_kw positions) items s = Ok s1 ->
    forall sym weeks,
      In (sym, weeks) items ->
      exists inv rs lm,
        process_symbol current_kw positions s sym weeks = Ok (inv, rs)
        /\ dict_get sym s1
           = Some {| invest := inv; rows := rs; last_modified := lm |}.
Proof.
  induction items as [|[sym0 weeks0] items IH]; intros s s1 Hnd H sym weeks;
    simpl in *; [intros []|].
  inversion Hnd as [|? ? Hnot Hnd']; subst.
  inv_bind H. pose proof Hm as Hstep. unfold sync_symbol in Hm. inv_bind Hm.
  destruct a0 as [inv0 rs0].
  destruct (dict_get sym0 s) as [st0|] eqn:E0; [|discriminate].
  injection Hm as <-. intros [E|Hin].
  - injection E as <- <-. exists inv0, rs0, (last_modified st0).
    split; [exact Hm0|].
    rewrite (sync_loop_untouched _ _ _ _ _ sym0 H Hnot).
    rewrite dict_get_set, String.eqb_refl. reflexivity.
  - destruct (IH _ _ Hnd' H sym weeks Hin) as (inv & rs & lm & Hp & Hg).
    exists inv, rs, lm. split; [|exact Hg].
    rewrite <- Hp. symmetry. apply process_symbol_rows_ext.
    unfold stored_rows. rewrite dict_get_set.
    destruct (String.eqb sym sym0) eqn:E; [|reflexivity].
    apply String.eqb_eq in E. subst sym0. exfalso. apply Hnot.
    change (In (fst (sym, weeks)) (map fst items)). apply in_map. exact Hin.
Qed.

(** A pass over a state that already holds its results changes nothing. *)
Lemma sync_loop_second current_kw positions items s1 :
  (forall sym weeks,
      In (sym, weeks) items ->
      exists inv rs lm,
        process_symbol current_kw positions s1 sym weeks = Ok (inv, rs)
        /\ dict_get sym s1
           = Some {| invest := inv; rows := rs; last_modified := lm |}) ->
  foldM (sync_symbol current_kw positions) items s1 = Ok s1.
Proof.
  induction items as [|[sym0 weeks0] items IH]; intros H; simpl; [reflexivity|].
  destruct (H sym0 weeks0 (or_introl eq_refl)) as (inv & rs & lm & Hp & Hg).
  unfold sync_symbol at 1. rewrite Hp. simpl. rewrite Hg. simpl.
  rewrite (dict_set_same _ _ _ Hg). simpl. apply IH.
  intros sym weeks Hin. apply H. right. exact Hin.
Qed.

Lemma reconcile_fixpoint current_kw acts positions ignored states s1 :
  reconcile current_kw acts positions ignored states = Ok s1 ->
  reconcile current_kw acts positions ignored s1 = Ok s1.
Proof.
  unfold reconcile. intros H. inv_bind H.
  set (swd := symbols_with_divs acts) in *.
  set (s0 := add_symbols swd (drop_symbols swd states)) in *.
  pose proof (sync_loop_keys _ _ _ _ _ H) as Hkeys.
  assert (Hmem : forall k, dict_mem k s1 = str_mem k swd).
  { intros k. rewrite (dict_mem_keys_eq _ _ k Hkeys). apply tracked_after_update. }
  assert (Hfix : add_symbols swd (drop_symbols swd s1) = s1).
  { rewrite drop_symbols_id.
    - apply add_symbols_id. intros k Hk. rewrite Hmem. apply str_mem_in. exact Hk.
    - intros k Hk. rewrite <- Hmem. apply dict_mem_in_keys. exact Hk. }
  rewrite Hfix.
  rewrite (normalize_tracked_ext s1 s0 ignored acts), Hm;
    [|intros k; apply dict_mem_keys_eq; exact Hkeys].
  simpl. destruct (normalize_wf _ _ _ _ Hm) as [Hnd Hweeks].
  apply sync_loop_second. intros sym weeks Hin.
  destruct (sync_loop_first _ _ _ _ _ Hnd H sym weeks Hin)
    as (inv & rs & lm & Hp & Hg).
  exists inv, rs, lm. split; [|exact Hg].
  apply (process_symbol_idempotent _ _ s0); [eauto | exact Hp |].
  unfold stored_rows. rewrite Hg. reflexivity.
Qed.

(** C8. A second reconciliation pass on the same activities, with the
    same ignore list, prices and current week, that reads the state the
    first pass stored, stores that state again: the rows of every symbol
    are identical. *)
Theorem reconcile_twice current_kw acts positions ignored states s1 :
  reconcile current_kw acts positions ignored states = Ok s1 ->
  reconcile current_kw acts positions ignored s1 = Ok s1
  /\ forall s2,
      reconcile current_kw acts positions ignored s1 = Ok s2 ->
      forall sym, stored_rows s2 sym = stored_rows s1 sym.
Proof.
  intros H. pose proof (reconcile_fixpoint _ _ _ _ _ _ H) as H2.
  split; [exact H2|]. intros s2 Hs2 sym. congruence.
Qed.

(** The feed of the symbol reconciled from an empty state, then again
    from the state stored. *)
Lemma reconcile_twice_witness :
  reconcile "04/2025" feed_once ulty_positions [] [] = Ok ulty_synced
  /\ List.length (stored_rows ulty_synced "ULTY") = 4%nat
  /\ reconcile "04/2025" feed_once ulty_positions [] ulty_synced = Ok ulty_synced
  /\ forall s2,
       reconcile "04/2025" feed_once ulty_positions [] ulty_synced = Ok s2 ->
       forall sym, stored_rows s2 sym = stored_rows ulty_synced sym.
Proof.
  assert (H : reconcile "04/2025" feed_once ulty_positions [] [] = Ok ulty_synced)
    by (vm_compute; reflexivity).
  split; [exact H|]. split; [reflexivity|].
  exact (reconcile_twice "04/2025" feed_once ulty_positions [] [] ulty_synced H).
Defined.

(** * Further properties of the sync *)

(** ** Ignored fills *)

(** Two runs of the loop body from the same totals, whose sets of seen
    identifiers differ at most at an ignored identifier, yield the same
    totals. *)
Lemma normalize_event_sim states ignored oid g seenA seenB b gA sA lA :
  get_or (dict_get oid ignored) false = true ->
  (forall id, id <> oid -> str_mem id seenA = str_mem id seenB) ->
  normalize_event states ignored g seenA b = Ok (gA, sA, lA) ->
  exists sB lB,
    normalize_event states ignored g seenB b = Ok (gA, sB, lB)
    /\ forall id, id <> oid -> str_mem id sA = str_mem id sB.
Proof.
  intros Hign Hrel. unfold normalize_event.
  destruct (negb (truthy (get_or (a_symbol b) ""))
            || negb (dict_mem (get_or (a_symbol b) "") states)).
  { intros H. injection H as <- <- <-. eauto. }
  destruct (negb (truthy (date_of b))).
  { intros H. injection H as <- <- <-. eauto. }
  destruct (kw_of_date (date_of b)) as [kw|e]; simpl; [|discriminate].
  destruct (String.eqb (get_or (a_activity_type b) "") "FILL").
  2:{ destruct (String.eqb (get_or (a_activity_type b) "") "DIV").
      { intros H. injection H as <- <- <-. eauto. }
      destruct (String.eqb (get_or (a_activity_type b) "") "DIVNRA");
        intros H; injection H as <- <- <-; eauto. }
  destruct (negb (is_execution b)).
  { intros H. injection H as <- <- <-. eauto. }
  set (oidb := order_id_of b (get_or (a_symbol b) "") kw).
  assert (Hadd : forall id, id <> oid ->
            str_mem id (str_add oidb seenA) = str_mem id (str_add oidb seenB)).
  { intros id Hid. rewrite !str_mem_add, (Hrel id Hid). reflexivity. }
  destruct (String.eqb oidb oid) eqn:Eo.
  - apply String.eqb_eq in Eo. rewrite Eo in *. rewrite Hign.
    assert (Hone : forall s id, id <> oid -> str_mem id (str_add oid s) = str_mem id s).
    { intros s id Hid. rewrite str_mem_add.
      apply String.eqb_neq in Hid. rewrite Hid. reflexivity. }
    destruct (str_mem oid seenA), (str_mem oid seenB);
      intros H; injection H as <- <- <-; do 2 eexists; (split; [reflexivity|]);
      intros id Hid; rewrite ?Hone by exact Hid; auto.
  - apply String.eqb_neq in Eo. rewrite <- (Hrel oidb Eo).
    destruct (str_mem oidb seenA).
    { intros H. injection H as <- <- <-. eauto. }
    destruct (get_or (dict_get oidb ignored) false).
    { intros H. injection H as <- <- <-. eauto. }
    destruct (PrimFloat.leb (get_or (a_qty b) float0) float0).
    { intros H. injection H as <- <- <-. eauto. }
    destruct (a_side b) as [side|].
    2:{ intros H. injection H as <- <- <-. eauto. }
    destruct (String.eqb side "buy").
    { intros H. injection H as <- <- <-. eauto. }
    destruct (String.eqb side "sell");
      intros H; injection H as <- <- <-; eauto.
Qed.

Lemma normalize_loop_sim states ignored oid acts :
  get_or (dict_get oid ignored) false = true ->
  forall stA stB stA',
    grouped stA = grouped stB ->
    (forall id, id <> oid ->
       str_mem id (seen_order_ids stA) = str_mem id (seen_order_ids stB)) ->
    foldM (normalize_step states ignored) acts stA = Ok stA' ->
    exists stB',
      foldM (normalize_step states ignored) acts stB = Ok stB'
      /\ grouped stB' = grouped stA'.
Proof.
  intros Hign. induction acts as [|b acts IH]; intros stA stB stA' Hg Hrel; simpl.
  - intros H. injection H as <-. exists stB. auto.
  - intros H. inv_bind H. unfold normalize_step in Hm |- *. inv_bind Hm.
    destruct a0 as [[gA sA] lA]. injection Hm as <-.
    rewrite Hg in Hm0.
    destruct (normalize_event_sim _ _ _ _ _ _ _ _ _ _ Hign Hrel Hm0)
      as (sB & lB & HB & Hrel').
    rewrite HB. simpl. eapply IH; [| |exact H]; simpl; auto.
Qed.

Lemma normalize_event_ignored states ignored g seen a oid g' seen' line :
  a_activity_type a = Some "FILL" ->
  a_id a = Some oid ->
  get_or (dict_get oid ignored) false = true ->
  normalize_event states ignored g seen a = Ok (g', seen', line) ->
  g' = g /\ forall id, id <> oid -> str_mem id seen' = str_mem id seen.
Proof.
  intros Ht Hid Hign. unfold normalize_event. rewrite Ht. simpl get_or.
  destruct (negb (truthy (get_or (a_symbol a) ""))
            || negb (dict_mem (get_or (a_symbol a) "") states)).
  { intros H. injection H as <- <- <-. auto. }
  destruct (negb (truthy (date_of a))).
  { intros H. injection H as <- <- <-. auto. }
  destruct (kw_of_date (date_of a)) as [kw|e]; simpl; [|discriminate].
  destruct (negb (is_execution a)).
  { intros H. injection H as <- <- <-. auto. }
  unfold order_id_of. rewrite Hid. simpl get_or. rewrite Hign.
  destruct (str_mem oid seen); intros H; injection H as <- <- <-;
    (split; [reflexivity|]); auto.
  intros id Hne. rewrite str_mem_add. apply String.eqb_neq in Hne.
  rewrite Hne. reflexivity.
Qed.

(** X1.  A fill on the ignore list contributes nothing: the aggregation
    of a feed that holds such a fill yields the same weekly totals, for
    every symbol and week, as the aggregation of the feed without it. *)
Theorem ignored_fill_contributes_nothing states ignored acts1 a acts2 oid g :
  a_activity_type a = Some "FILL" ->
  a_id a = Some oid ->
  get_or (dict_get oid ignored) false = true ->
  normalize states ignored (acts1 ++ a :: acts2) = Ok g ->
  exists g', normalize states ignored (acts1 ++ acts2) = Ok g'
             /\ grouped g' = grouped g.
Proof.
  unfold normalize. intros Ht Hid Hign H.
  rewrite foldM_app in H. inv_bind H. simpl in H. inv_bind H.
  rewrite foldM_app, Hm. simpl.
  unfold normalize_step in Hm0. inv_bind Hm0. destruct a2 as [[g' seen'] line].
  injection Hm0 as <-.
  destruct (normalize_event_ignored _ _ _ _ _ _ _ _ _ Ht Hid Hign Hm1) as (-> & Hrel).
  eapply (normalize_loop_sim _ _ oid); [exact Hign| | |exact H]; simpl; auto.
Qed.

(** ** The trades listed for a week *)

(** A property of buckets kept by an update of [grouped[sym][kw]]. *)
Lemma upd_bucket_all (P : string -> bucket -> Prop) sym kw f g :
  P kw empty_bucket ->
  (forall b, P kw b -> P kw (f b)) ->
  (forall s w k b, In (s, w) g -> In (k, b) w -> P k b) ->
  forall s w k b, In (s, w) (upd_bucket sym kw f g) -> In (k, b) w -> P k b.
Proof.
  intros H0 Hf Hg s w k b Hs Hk. unfold upd_bucket in Hs.
  apply dict_set_in in Hs. destruct Hs as [E|Hs]; [|eauto].
  injection E as -> ->.
  assert (Hw : forall k b, In (k, b) (get_or (dict_get sym g) []) -> P k b).
  { destruct (dict_get sym g) as [w0|] eqn:E0; simpl; [|intros ? ? []].
    intros k0 b0. apply Hg with (s := sym). apply dict_get_in. exact E0. }
  apply dict_set_in in Hk. destruct Hk as [E|Hk]; [|eauto].
  injection E as -> ->. apply Hf.
  match goal with
  | |- P _ (get_or ?x _) => destruct x as [b0|] eqn:E1; simpl; [|exact H0]
  end.
  apply (Hw kw). apply dict_get_in. exact E1.
Qed.

Lemma add_buy_sums oid qty price b : sums_ok b -> sums_ok (add_buy oid qty price b).
Proof.
  intros [Hq Hc]. unfold sums_ok, sum_qty, sum_cost. simpl.
  rewrite !fold_left_app. simpl. fold (sum_qty (trades b)) (sum_cost (trades b)).
  rewrite Hq, Hc. auto.
Qed.

Lemma normalize_event_sums states ignored g seen a g' seen' line :
  (forall s w k b, In (s, w) g -> In (k, b) w -> sums_ok b) ->
  normalize_event states ignored g seen a = Ok (g', seen', line) ->
  forall s w k b, In (s, w) g' -> In (k, b) w -> sums_ok b.
Proof.
  intros Hg. unfold normalize_event.
  assert (H0 : sums_ok empty_bucket) by (split; reflexivity).
  repeat match goal with
         | |- context [bind ?m _] => destruct m; simpl; [|discriminate]
         | |- context [match a_side a with _ => _ end] => destruct (a_side a)
         | |- context [if ?c then _ else _] => destruct c
         end;
    intros H; injection H as <- <- <-; try exact Hg;
    apply (upd_bucket_all (fun _ => sums_ok)); auto using add_buy_sums.
Qed.

Lemma normalize_loop_sums states ignored acts :
  forall st st',
    (forall s w k b, In (s, w) (grouped st) -> In (k, b) w -> sums_ok b) ->
    foldM (normalize_step states ignored) acts st = Ok st' ->
    forall s w k b, In (s, w) (grouped st') -> In (k, b) w -> sums_ok b.
Proof.
  induction acts as [|a acts IH]; intros st st' Hst; simpl.
  - intros H. injection H as <-. exact Hst.
  - intros H. inv_bind H. apply (IH a0); [|exact H].
    unfold normalize_step in Hm. inv_bind Hm. destruct a1 as [[g seen] line].
    injection Hm as <-. simpl.
    eapply normalize_event_sums; eassumption.
Qed.

(** X2.  After the aggregation, the buy quantity and the buy cost of
    every week are the sums over the trades listed for that week, in the
    order of the feed: of [qty] for the one, of [qty * price] for the
    other. *)
Theorem buy_totals_are_sums states ignored acts g sym weeks kw b :
  normalize states ignored acts = Ok g ->
  dict_get sym (grouped g) = Some weeks ->
  dict_get kw weeks = Some b ->
  buy_total_qty b = sum_qty (trades b)
  /\ buy_total_cost b = sum_cost (trades b).
Proof.
  intros H Hs Hk.
  eapply (normalize_loop_sums _ _ _ gstate0 g); [intros ? ? ? ? [] | exact H | |].
  - apply dict_get_in. exact Hs.
  - apply dict_get_in. exact Hk.
Qed.

(** The trades listed after an update of one bucket. *)
Lemma flat_map_dict_set {V B : Type} (F : V -> list B) (dflt : V) k v (d : dict V) :
  F dflt = [] ->
  exists l1 l2,
    flat_map (fun kv => F (snd kv)) d
    = l1 ++ F (get_or (dict_get k d) dflt) ++ l2
    /\ flat_map (fun kv => F (snd kv)) (dict_set k v d) = l1 ++ F v ++ l2.
Proof.
  intros Hd. induction d as [|[k0 v0] d IH]; simpl.
  - exists [], []. rewrite Hd, !app_nil_r. auto.
  - destruct (String.eqb k k0); simpl.
    + exists [], (flat_map (fun kv => F (snd kv)) d). auto.
    + destruct IH as (l1 & l2 & E1 & E2). exists (F v0 ++ l1), l2.
      rewrite E1, E2, <- !app_assoc. auto.
Qed.

Lemma all_trades_upd sym kw f new g :
  (forall b, trades (f b) = trades b ++ new) ->
  Permutation (all_trades (upd_bucket sym kw f g)) (new ++ all_trades g).
Proof.
  intros Hf. unfold upd_bucket.
  set (weeks := get_or (dict_get sym g) []).
  set (b := get_or (dict_get kw weeks) empty_bucket).
  pose (Fw := fun w : dict bucket => flat_map (fun kb => trades (snd kb)) w).
  destruct (flat_map_dict_set Fw [] sym (dict_set kw (f b) weeks) g eq_refl)
    as (L1 & L2 & E1 & E2).
  destruct (flat_map_dict_set trades empty_bucket kw (f b) weeks eq_refl)
    as (l1 & l2 & e1 & e2).
  change (Permutation
            (flat_map (fun kv => Fw (snd kv))
               (dict_set sym (dict_set kw (f b) weeks) g))
            (new ++ flat_map (fun kv => Fw (snd kv)) g)).
  rewrite E2, E1. fold weeks. unfold Fw. rewrite e2, e1. fold b. rewrite Hf.
  rewrite <- !app_assoc.
  rewrite (Permutation_app_swap_app new L1).
  apply Permutation_app_head.
  rewrite (Permutation_app_swap_app new l1).
  apply Permutation_app_head.
  rewrite (Permutation_app_swap_app new (trades b)).
  reflexivity.
Qed.

Lemma trades_ok_seen ignored g seen oid :
  trades_ok ignored g seen -> trades_ok ignored g (str_add oid seen).
Proof.
  intros [Hnd Hall]. split; [exact Hnd|].
  eapply Forall_impl; [|exact Hall].
  intros t (Hs & Hrest). split; [|exact Hrest].
  rewrite str_mem_add, Hs. apply orb_true_r.
Qed.

Lemma trades_ok_same ignored sym kw f g seen :
  (forall b, trades (f b) = trades b) ->
  trades_ok ignored g seen -> trades_ok ignored (upd_bucket sym kw f g) seen.
Proof.
  intros Hf [Hnd Hall].
  assert (Hp : Permutation (all_trades (upd_bucket sym kw f g)) (all_trades g)).
  { apply (all_trades_upd sym kw f [] g). intros b. rewrite app_nil_r. apply Hf. }
  split.
  - eapply Permutation_NoDup; [|exact Hnd].
    apply Permutation_map. symmetry. exact Hp.
  - eapply Permutation_Forall; [|exact Hall]. symmetry. exact Hp.
Qed.

Lemma trades_ok_buy ignored sym kw oid qty price g seen :
  str_mem oid seen = false ->
  get_or (dict_get oid ignored) false = false ->
  PrimFloat.leb qty float0 = false ->
  trades_ok ignored g seen ->
  trades_ok ignored (upd_bucket sym kw (add_buy oid qty price) g) (str_add oid seen).
Proof.
  intros Hs Hi Hq Hok.
  pose proof (trades_ok_seen _ _ _ oid Hok) as [Hnd Hall].
  destruct Hok as [_ Hall0].
  set (t := {| order_id := oid; t_qty := qty; t_price := price |}).
  assert (Hp : Permutation
                 (all_trades (upd_bucket sym kw (add_buy oid qty price) g))
                 ([t] ++ all_trades g)).
  { apply all_trades_upd. intros b. reflexivity. }
  split.
  - eapply Permutation_NoDup;
      [apply Permutation_map; symmetry; exact Hp|].
    simpl. constructor; [|exact Hnd].
    intros Hin. apply in_map_iff in Hin. destruct Hin as (t0 & E & Hin).
    rewrite Forall_forall in Hall0. destruct (Hall0 t0 Hin) as (Hs0 & _).
    rewrite E in Hs0. congruence.
  - eapply Permutation_Forall; [symmetry; exact Hp|].
    simpl. constructor; [|exact Hall].
    split; [|split]; simpl; auto.
    rewrite str_mem_add, String.eqb_refl. reflexivity.
Qed.

Lemma normalize_event_trades states ignored g seen a g' seen' line :
  trades_ok ignored g seen ->
  normalize_event states ignored g seen a = Ok (g', seen', line) ->
  trades_ok ignored g' seen'.
Proof.
  intros Hok. unfold normalize_event.
  destruct (negb (truthy (get_or (a_symbol a) ""))
            || negb (dict_mem (get_or (a_symbol a) "") states)).
  { intros H. injection H as <- <- <-. exact Hok. }
  destruct (negb (truthy (date_of a))).
  { intros H. injection H as <- <- <-. exact Hok. }
  destruct (kw_of_date (date_of a)) as [kw|e]; simpl; [|discriminate].
  destruct (String.eqb (get_or (a_activity_type a) "") "FILL").
  2:{ destruct (String.eqb (get_or (a_activity_type a) "") "DIV").
      { intros H. injection H as <- <- <-. apply trades_ok_same; auto. }
      destruct (String.eqb (get_or (a_activity_type a) "") "DIVNRA");
        intros H; injection H as <- <- <-; [apply trades_ok_same; auto | exact Hok]. }
  destruct (negb (is_execution a)).
  { intros H. injection H as <- <- <-. exact Hok. }
  set (oid := order_id_of a (get_or (a_symbol a) "") kw).
  destruct (str_mem oid seen) eqn:Es.
  { intros H. injection H as <- <- <-. exact Hok. }
  destruct (get_or (dict_get oid ignored) false) eqn:Ei.
  { intros H. injection H as <- <- <-. apply trades_ok_seen. exact Hok. }
  destruct (PrimFloat.leb (get_or (a_qty a) float0) float0) eqn:Eq.
  { intros H. injection H as <- <- <-. apply trades_ok_seen. exact Hok. }
  destruct (a_side a) as [side|].
  2:{ intros H. injection H as <- <- <-. apply trades_ok_seen. exact Hok. }
  destruct (String.eqb side "buy").
  { intros H. injection H as <- <- <-. apply trades_ok_buy; auto. }
  destruct (String.eqb side "sell"); intros H; injection H as <- <- <-.
  - apply trades_ok_same; [reflexivity|]. apply trades_ok_seen. exact Hok.
  - apply trades_ok_seen. exact Hok.
Qed.

Lemma normalize_loop_trades states ignored acts :
  forall st st',
    trades_ok ignored (grouped st) (seen_order_ids st) ->
    foldM (normalize_step states ignored) acts st = Ok st' ->
    trades_ok ignored (grouped st') (seen_order_ids st').
Proof.
  induction acts as [|a acts IH]; intros st st' Hst; simpl.
  - intros H. injection H as <-. exact Hst.
  - intros H. inv_bind H. apply (IH a0); [|exact H].
    unfold normalize_step in Hm. inv_bind Hm. destruct a1 as [[g seen] line].
    injection Hm as <-. simpl.
    eapply normalize_event_trades; eassumption.
Qed.

(** X3.  After the aggregation no order identifier is listed twice among
    the trades of all symbols and weeks, and every listed trade has its
    identifier among those seen, is not on the ignore list and did not
    satisfy [qty <= 0]. *)
Theorem listed_trades_are_distinct states ignored acts g :
  normalize states ignored acts = Ok g ->
  NoDup (map order_id (all_trades (grouped g)))
  /\ forall t, In t (all_trades (grouped g)) ->
       str_mem (order_id t) (seen_order_ids g) = true
       /\ get_or (dict_get (order_id t) ignored) false = false
       /\ PrimFloat.leb (t_qty t) float0 = false.
Proof.
  intros H.
  destruct (normalize_loop_trades states ignored acts gstate0 g) as [Hnd Hall];
    [split; constructor | exact H |].
  split; [exact Hnd|]. rewrite Forall_forall in Hall. exact Hall.
Qed.












(** ** A fetch that does not end *)

(** X6.  The loop of [get_activities_by_type] has no end when every
    request is answered by a full page (100 records or more) whose last
    record is dated: no number of iterations returns. *)
Theorem full_pages_never_end net activity_type until :
  (forall n after,
     exists d ds last_date,
       net n (ReqActivities activity_type after until) = RespActivities (d :: ds)
       /\ (100 <= List.length (d :: ds))%nat
       /\ str_or (a_date (last ds d)) (a_transaction_time (last ds d))
          = Some last_date
       /\ last_date <> "") ->
  forall fuel n after all_activities,
    fetch_pages fuel net n activity_type after until all_activities = None.
Proof.
  intros Hnet. induction fuel as [|fuel IH]; intros n after all_activities;
    [reflexivity|].
  simpl. destruct (Hnet n after) as (d & ds & ld & -> & Hlen & Hlast & Hne).
  apply Nat.ltb_ge in Hlen. simpl in Hlen. simpl List.length. 
  rewrite Hlen, Hlast.
  destruct ld; [congruence|]. simpl truthy. cbv iota. apply IH.
Qed.

(** ** Week keys and their order *)

Lemma split_on_none sep s :
  (forall c, In c (chars s) -> c <> sep) -> split_on sep s = [s].
Proof.
  induction s as [|c s IH]; intros H; simpl; [reflexivity|].
  destruct (Ascii.eqb c sep) eqn:E.
  - apply Ascii.eqb_eq in E. destruct (H c (or_introl eq_refl) E).
  - rewrite IH; [reflexivity|]. intros c' Hc'. apply H. right. exact Hc'.
Qed.

Lemma split_on_app sep a b :
  (forall c, In c (chars a) -> c <> sep) ->
  split_on sep (a +++ String sep b) = a :: split_on sep b.
Proof.
  induction a as [|c a IH]; intros H; simpl.
  - rewrite Ascii.eqb_refl. reflexivity.
  - destruct (Ascii.eqb c sep) eqn:E.
    + apply Ascii.eqb_eq in E. destruct (H c (or_introl eq_refl) E).
    + rewrite IH; [reflexivity|]. intros c' Hc'. apply H. right. exact Hc'.
Qed.

Lemma rstrip_id s :
  (forall c, In c (chars s) -> is_space c = false) -> rstrip s = s.
Proof.
  induction s as [|c s IH]; intros H; simpl; [reflexivity|].
  rewrite IH by (intros c' Hc'; apply H; right; exact Hc').
  destruct s; [|reflexivity]. rewrite (H c (or_introl eq_refl)). reflexivity.
Qed.

Lemma strip_id s :
  (forall c, In c (chars s) -> is_space c = false) -> strip s = s.
Proof.
  intros H. unfold strip.
  assert (E : lstrip s = s).
  { destruct s as [|c s]; [reflexivity|]. simpl.
    rewrite (H c (or_introl eq_refl)). reflexivity. }
  rewrite E. apply rstrip_id. exact H.
Qed.

Lemma uint_chars u : Forall (fun c => is_digit c = true) (chars (NilEmpty.string_of_uint u)).
Proof. induction u; simpl; constructor; auto. Qed.

Lemma nz_uint_chars u :
  Forall (fun c => is_digit c = true) (chars (NilZero.string_of_uint u)).
Proof.
  destruct u; try apply uint_chars. simpl. constructor; [reflexivity|constructor].
Qed.

Lemma str_of_int_chars n : Forall (fun c => num_char c = true) (chars (str_of_int n)).
Proof.
  unfold str_of_int, NilZero.string_of_int.
  destruct (Z.to_int n) as [u|u].
  - eapply Forall_impl; [|apply nz_uint_chars].
    intros c Hc. unfold num_char. rewrite Hc. reflexivity.
  - simpl. constructor; [reflexivity|].
    eapply Forall_impl; [|apply nz_uint_chars].
    intros c Hc. unfold num_char. rewrite Hc. reflexivity.
Qed.

Lemma num_char_plain c :
  num_char c = true -> is_space c = false /\ c <> "/"%char /\ c <> "+"%char.
Proof.
  destruct c as [[] [] [] [] [] [] [] []]; vm_compute; intros H;
    try discriminate; repeat split; discriminate.
Qed.

Lemma int_of_str_plain c t :
  (forall c', In c' (chars (String c t)) -> num_char c' = true) ->
  int_of_str (String c t)
  = match NilZero.int_of_string (String c t) with
    | Some i => Ok (Z.of_int i)
    | None => Raise ValueError
    end.
Proof.
  intros H. unfold int_of_str. rewrite strip_id.
  - assert (Hc : c <> "+"%char) by (apply num_char_plain, H; left; reflexivity).
    destruct c as [[] [] [] [] [] [] [] []]; try reflexivity. congruence.
  - intros c' Hc'. apply num_char_plain, H. exact Hc'.
Qed.

Lemma str_of_int_cons n : exists c t, str_of_int n = String c t.
Proof.
  unfold str_of_int, NilZero.string_of_int.
  destruct (Z.to_int n) as [u|u]; [|eauto].
  destruct u; simpl; eauto.
Qed.

Lemma to_int_proper n : Z.to_int n <> Decimal.Pos Decimal.Nil /\ Z.to_int n <> Decimal.Neg Decimal.Nil.
Proof.
  destruct n; simpl; split; try discriminate;
    intros H; injection H; apply Unsigned.to_uint_nonnil.
Qed.

(** [int(str(n)) == n] *)
Lemma int_of_str_of_int n : int_of_str (str_of_int n) = Ok n.
Proof.
  destruct (str_of_int_cons n) as (c & t & E).
  pose proof (str_of_int_chars n) as Hc. rewrite Forall_forall in Hc.
  rewrite E in *. rewrite int_of_str_plain by exact Hc.
  rewrite <- E. unfold str_of_int.
  destruct (to_int_proper n) as [H1 H2].
  rewrite NilZero.isi by assumption. rewrite DecimalZ.of_to. reflexivity.
Qed.

(** [int(f"{n:02d}") == n] *)
Lemma int_of_fmt_02d n : int_of_str (fmt_02d n) = Ok n.
Proof.
  unfold fmt_02d.
  destruct (String.length (str_of_int n) <? 2)%nat eqn:El;
    [|apply int_of_str_of_int].
  apply Nat.ltb_lt in El.
  pose proof (str_of_int_chars n) as Hc. rewrite Forall_forall in Hc.
  change ("0" +++ str_of_int n) with (String "0" (str_of_int n)).
  rewrite int_of_str_plain.
  2:{ intros c' [<-|Hc']; [reflexivity | apply Hc; exact Hc']. }
  rewrite <- (DecimalZ.of_to n) at 2.
  unfold str_of_int in *. unfold NilZero.int_of_string. simpl Ascii.eqb. cbv iota.
  unfold NilZero.uint_of_string.
  destruct (Z.to_int n) as [u|u] eqn:Eu.
  - destruct (to_int_proper n) as [H1 _]. rewrite Eu in H1.
    assert (E : NilZero.string_of_uint u = NilEmpty.string_of_uint u)
      by (destruct u; try reflexivity; congruence).
    simpl NilZero.string_of_int. rewrite E.
    simpl NilEmpty.uint_of_string. rewrite NilEmpty.usu. reflexivity.
  - exfalso. simpl in El. destruct u; simpl in El; lia.
Qed.

Lemma num_chars_no_slash s :
  Forall (fun c => num_char c = true) (chars s) ->
  forall c, In c (chars s) -> c <> "/"%char.
Proof.
  intros H c Hc. rewrite Forall_forall in H. apply num_char_plain, H, Hc.
Qed.

Lemma fmt_02d_chars n : Forall (fun c => num_char c = true) (chars (fmt_02d n)).
Proof.
  unfold fmt_02d. destruct (String.length (str_of_int n) <? 2)%nat.
  - constructor; [reflexivity | apply str_of_int_chars].
  - apply str_of_int_chars.
Qed.

(** X7.  The sort key read back from a week key is the pair the key was
    made from: [sort_key] of [f"{w:02d}/{y}"] is [(y, w)], for every
    week and year. *)
Theorem week_key_round_trip w y : sort_key (fmt_kw w y) = Ok (y, w).
Proof.
  unfold sort_key, fmt_kw.
  change ("/" +++ str_of_int y) with (String "/" (str_of_int y)).
  rewrite split_on_app by (apply num_chars_no_slash, fmt_02d_chars).
  rewrite split_on_none by (apply num_chars_no_slash, str_of_int_chars).
  cbv beta iota zeta delta [nth_error]. rewrite int_of_str_of_int.
  cbv beta iota delta [bind].
  rewrite int_of_fmt_02d. reflexivity.
Qed.

Lemma key_le_total a b : key_le a b = false -> key_le b a = true.
Proof.
  unfold key_le. destruct a as [y1 w1], b as [y2 w2]. simpl. intros H.
  apply orb_false_elim in H. destruct H as [H1 H2].
  apply Z.ltb_ge in H1.
  destruct (y2 <? y1) eqn:E; [reflexivity|]. apply Z.ltb_ge in E.
  assert (y1 = y2) by lia. subst y2. rewrite Z.eqb_refl in *. simpl in *.
  apply Z.leb_gt in H2. apply Z.leb_le. lia.
Qed.

Lemma key_le_trans a b c :
  key_le a b = true -> key_le b c = true -> key_le a c = true.
Proof.
  unfold key_le. destruct a as [y1 w1], b as [y2 w2], c as [y3 w3]. simpl.
  rewrite !orb_true_iff, !andb_true_iff, !Z.ltb_lt, !Z.eqb_eq, !Z.leb_le. lia.
Qed.

Lemma insert_by_key_sorted x l :
  Sorted (fun a b => key_le (fst a) (fst b) = true) l ->
  Sorted (fun a b => key_le (fst a) (fst b) = true) (insert_by_key x l).
Proof.
  induction l as [|y l IH]; intros Hs; simpl.
  - constructor; constructor.
  - destruct (key_le (fst x) (fst y)) eqn:E.
    + constructor; [exact Hs | constructor; exact E].
    + inversion Hs as [|? ? Hs' Hhd]; subst. constructor; [auto|].
      destruct l as [|z l]; simpl.
      * constructor. apply key_le_total. exact E.
      * destruct (key_le (fst x) (fst z)).
        -- constructor. apply key_le_total. exact E.
        -- inversion Hhd; subst. constructor. assumption.
Qed.

Lemma sort_by_key_sorted l :
  StronglySorted (fun a b => key_le (fst a) (fst b) = true)
    (fold_right insert_by_key [] l).
Proof.
  apply Sorted_StronglySorted.
  - intros a b c. apply key_le_trans.
  - induction l as [|x l IH]; simpl; [constructor|].
    apply insert_by_key_sorted. exact IH.
Qed.

Lemma with_keys_keys ks keyed :
  with_keys ks = Ok keyed ->
  Forall (fun p => sort_key (snd p) = Ok (fst p)) keyed.
Proof.
  revert keyed. induction ks as [|k ks IH]; intros keyed; simpl.
  - intros H. injection H as <-. constructor.
  - intros H. inv_bind H. inv_bind H. injection H as <-.
    constructor; [exact Hm | auto].
Qed.

Lemma keyed_sorted l :
  StronglySorted (fun a b : (Z * Z) * string => key_le (fst a) (fst b) = true) l ->
  StronglySorted (fun a b => key_le a b = true) (map fst l).
Proof.
  induction 1 as [|x l Hs IH Hx]; simpl; constructor; [exact IH|].
  rewrite Forall_forall in *. intros key Hin. apply in_map_iff in Hin.
  destruct Hin as (p & <- & Hp). apply Hx. exact Hp.
Qed.

Lemma keyed_keys (l : list ((Z * Z) * string)) :
  Forall (fun p => sort_key (snd p) = Ok (fst p)) l ->
  Forall2 (fun k key => sort_key k = Ok key) (map snd l) (map fst l).
Proof.
  induction 1; simpl; constructor; auto.
Qed.

(** The sorted weeks with the keys they were sorted by. *)
Lemma sorted_weeks_keys ks sorted :
  sorted_weeks_of ks = Ok sorted ->
  exists keys,
    Forall2 (fun k key => sort_key k = Ok key) sorted keys
    /\ StronglySorted (fun a b => key_le a b = true) keys.
Proof.
  unfold sorted_weeks_of. intros H. inv_bind H. injection H as <-.
  exists (map fst (fold_right insert_by_key [] a)). split.
  - apply keyed_keys.
    eapply Permutation_Forall; [symmetry; apply sort_by_key_perm|].
    eapply with_keys_keys. exact Hm.
  - apply keyed_sorted, sort_by_key_sorted.
Qed.

(** ** The rows of a symbol *)

Lemma forall2_compose {A B C : Type} (P : A -> B -> Prop) (Q : A -> C -> Prop)
    (R : B -> C -> Prop) (la : list A) :
  (forall a b c, P a b -> Q a c -> R b c) ->
  forall lb lc, Forall2 P la lb -> Forall2 Q la lc -> Forall2 R lb lc.
Proof.
  intros H. induction la as [|a la IH]; intros lb lc HP HQ;
    inversion HP; inversion HQ; subst; constructor; eauto.
Qed.

Lemma rows_week_keys ks rs :
  Forall2 (fun k r => dict_get "KW" r = Some k) ks rs ->
  map (cell "KW") rs = ks.
Proof.
  induction 1 as [|k r ks rs Hk HF IH]; simpl; [reflexivity|].
  unfold cell at 1. rewrite Hk, IH. reflexivity.
Qed.

(** The rows of a pass carry the sorted weeks, one row each. *)
Lemma process_symbol_weeks current_kw positions states sym weeks inv rs :
  process_symbol current_kw positions states sym weeks = Ok (inv, rs) ->
  exists sorted,
    sorted_weeks_of
      (dict_keys (if dict_mem current_kw weeks then weeks
                  else dict_set current_kw empty_bucket weeks)) = Ok sorted
    /\ Forall2 (fun k r => dict_get "KW" r = Some k) sorted rs.
Proof.
  unfold process_symbol, run_weeks. intros H.
  inv_bind H. inv_bind H. rewrite run_weeks_from in H. inv_bind H.
  destruct a1 as [st out]. inv_bind Hm1. destruct a1 as [st1 rs1].
  simpl in Hm1. injection Hm1 as <- <-. injection H as _ <-.
  exists a. split; [exact Hm|]. eapply weeks_from_keys. exact Hm2.
Qed.

(** X8.  The rows computed for a symbol are in calendar order: their
    week keys read as (year, week) pairs never decrease from a row to any
    later row. *)
Theorem rows_in_week_order current_kw positions states sym weeks inv rs :
  process_symbol current_kw positions states sym weeks = Ok (inv, rs) ->
  exists keys,
    Forall2 (fun r key => sort_key (cell "KW" r) = Ok key) rs keys
    /\ StronglySorted (fun a b => key_le a b = true) keys.
Proof.
  intros H. apply process_symbol_weeks in H. destruct H as (sorted & Hs & HF).
  destruct (sorted_weeks_keys _ _ Hs) as (keys & Hk & Hsorted).
  exists keys. split; [|exact Hsorted].
  eapply forall2_compose; [|exact HF|exact Hk].
  intros k r key Hr Hkey. unfold cell. rewrite Hr. exact Hkey.
Qed.

(** X9.  The rows computed for a symbol are one per week: no week key
    occurs twice, and the weeks of the rows are the weeks that hold an
    aggregated record and the current week, which has a row in any
    case. *)
Theorem one_row_per_week current_kw positions states sym weeks inv rs :
  NoDup (dict_keys weeks) ->
  process_symbol current_kw positions states sym weeks = Ok (inv, rs) ->
  NoDup (map (cell "KW") rs)
  /\ forall k, In k (map (cell "KW") rs)
               <-> k = current_kw \/ dict_mem k weeks = true.
Proof.
  intros Hnd H. apply process_symbol_weeks in H. destruct H as (sorted & Hs & HF).
  rewrite (rows_week_keys _ _ HF). apply sorted_weeks_perm in Hs.
  set (weeks' := if dict_mem current_kw weeks then weeks
                 else dict_set current_kw empty_bucket weeks) in *.
  assert (Hnd' : NoDup (dict_keys weeks')).
  { unfold weeks'. destruct (dict_mem current_kw weeks);
      [exact Hnd | apply dict_set_nodup; exact Hnd]. }
  split.
  - eapply Permutation_NoDup; [symmetry; exact Hs | exact Hnd'].
  - intros k. split.
    + intros Hin. apply (Permutation_in _ Hs) in Hin.
      apply dict_mem_in_keys in Hin. unfold weeks' in Hin.
      destruct (dict_mem current_kw weeks) eqn:E; [auto|].
      rewrite dict_mem_set in Hin. apply orb_true_iff in Hin.
      destruct Hin as [Hin|Hin]; [left; apply String.eqb_eq; exact Hin | auto].
    + intros Hk. apply (Permutation_in _ (Permutation_sym Hs)).
      apply dict_mem_in_keys. unfold weeks'.
      destruct (dict_mem current_kw weeks) eqn:E.
      * destruct Hk as [->|Hk]; assumption.
      * rewrite dict_mem_set. apply orb_true_iff.
        destruct Hk as [->|Hk]; [left; apply String.eqb_refl | auto].
Qed.

(** ** Sorting the weeks the sync has made *)

Lemma kw_of_date_fmt dstr k :
  kw_of_date dstr = Ok k -> exists w y, k = fmt_kw w y.
Proof.
  unfold kw_of_date. intros H. inv_bind H. destruct a as [[y m] d].
  destruct (isocalendar y m d) as [iy iw]. injection H as <-. eauto.
Qed.

Lemma with_keys_total ks :
  Forall (fun k => exists w y, k = fmt_kw w y) ks ->
  exists keyed, with_keys ks = Ok keyed.
Proof.
  induction 1 as [|k ks (w & y & ->) HF (keyed & IH)]; simpl; [eauto|].
  rewrite week_key_round_trip, IH. simpl. eauto.
Qed.

Lemma normalize_event_keys states ignored g seen a g' seen' line :
  (forall s w k b, In (s, w) g -> In (k, b) w -> exists wk y, k = fmt_kw wk y) ->
  normalize_event states ignored g seen a = Ok (g', seen', line) ->
  forall s w k b, In (s, w) g' -> In (k, b) w -> exists wk y, k = fmt_kw wk y.
Proof.
  intros Hg. unfold normalize_event.
  destruct (negb (truthy (get_or (a_symbol a) ""))
            || negb (dict_mem (get_or (a_symbol a) "") states)).
  { intros H. injection H as <- <- <-. exact Hg. }
  destruct (negb (truthy (date_of a))).
  { intros H. injection H as <- <- <-. exact Hg. }
  destruct (kw_of_date (date_of a)) as [kw|e] eqn:Ek; simpl; [|discriminate].
  apply kw_of_date_fmt in Ek.
  repeat match goal with
         | |- context [match a_side a with _ => _ end] => destruct (a_side a)
         | |- context [if ?c then _ else _] => destruct c
         end;
    intros H; injection H as <- <- <-; try exact Hg;
    apply (upd_bucket_all (fun k _ => exists wk y, k = fmt_kw wk y)); auto.
Qed.

Lemma normalize_loop_keys states ignored acts :
  forall st st',
    (forall s w k b, In (s, w) (grouped st) -> In (k, b) w ->
                     exists wk y, k = fmt_kw wk y) ->
    foldM (normalize_step states ignored) acts st = Ok st' ->
    forall s w k b, In (s, w) (grouped st') -> In (k, b) w ->
                    exists wk y, k = fmt_kw wk y.
Proof.
  induction acts as [|a acts IH]; intros st st' Hst; simpl.
  - intros H. injection H as <-. exact Hst.
  - intros H. inv_bind H. apply (IH a0); [|exact H].
    unfold normalize_step in Hm. inv_bind Hm. destruct a1 as [[g seen] line].
    injection Hm as <-. simpl.
    eapply normalize_event_keys; eassumption.
Qed.

(** X10.  Sorting the weeks of a symbol cannot fail on the keys the sync
    makes itself: for the weeks of any symbol of the aggregation and a
    current week rendered as [f"{w:02d}/{y}"], the key function raises
    neither [IndexError] nor [ValueError]. *)
Theorem week_sort_never_fails states ignored acts g sym weeks w y :
  normalize states ignored acts = Ok g ->
  In (sym, weeks) (grouped g) ->
  exists sorted,
    sorted_weeks_of
      (dict_keys (if dict_mem (fmt_kw w y) weeks then weeks
                  else dict_set (fmt_kw w y) empty_bucket weeks)) = Ok sorted.
Proof.
  intros H Hin.
  assert (Hk : forall k b, In (k, b) weeks -> exists wk y0, k = fmt_kw wk y0).
  { intros k b. eapply (normalize_loop_keys _ _ _ gstate0 g);
      [intros ? ? ? ? [] | exact H | exact Hin]. }
  set (weeks' := if dict_mem (fmt_kw w y) weeks then weeks
                 else dict_set (fmt_kw w y) empty_bucket weeks).
  assert (Hk' : Forall (fun k => exists wk y0, k = fmt_kw wk y0) (dict_keys weeks')).
  { apply Forall_forall. intros k Hkin. unfold dict_keys in Hkin.
    apply in_map_iff in Hkin. destruct Hkin as ([k0 b] & <- & Hkb). simpl.
    unfold weeks' in Hkb. destruct (dict_mem (fmt_kw w y) weeks); [eauto|].
    apply dict_set_in in Hkb. destruct Hkb as [E|Hkb]; [|eauto].
    injection E as -> _. eauto. }
  destruct (with_keys_total _ Hk') as (keyed & E).
  unfold sorted_weeks_of. rewrite E. simpl. eauto.
Qed.

(** ** Share counts *)

Lemma py_int_nonneg x n :
  PrimFloat.ltb float0 x = true -> py_int x = Ok n -> 0 <= n.
Proof.
  rewrite ltb_spec. unfold py_int.
  change (Prim2SF float0) with (S754_zero false).
  destruct (Prim2SF x) as [s|s| |s m e]; try (intros; discriminate).
  intros Hlt H. destruct s; [discriminate|]. injection H as <-.
  destruct (0 <=? e) eqn:E.
  - change (0 <= Z.pos m * 2 ^ e).
    apply Z.mul_nonneg_nonneg; [lia|]. apply Z.pow_nonneg. lia.
  - change (0 <= Z.pos m / 2 ^ (- e)).
    apply Z.div_pos; [lia|]. apply Z.pow_pos_nonneg; [lia|].
    apply Z.leb_gt in E. lia.
Qed.

Lemma buy_block_shares cp vals st r st' r' :
  buy_block cp vals st r = Ok (st', r') ->
  cumulative_shares st <= cumulative_shares st'.
Proof.
  unfold buy_block. intros H.
  destruct (PrimFloat.ltb float0 (buy_total_qty vals)) eqn:Eq.
  - inv_bind H. apply (py_int_nonneg _ _ Eq) in Hm. inv_bind H.
    destruct (PrimFloat.leb (buy_total_cost vals) (net_div_of vals)).
    + inv_bind H. inv_bind H. injection H as <- _. simpl. lia.
    + injection H as <- _. simpl. lia.
  - injection H as <- _. lia.
Qed.

Lemma process_week_shares cp ex st kw vals st' r :
  process_week cp ex st kw vals = Ok (st', r) ->
  cumulative_shares st' = 0 \/ cumulative_shares st <= cumulative_shares st'.
Proof.
  intros H. apply process_week_inv in H.
  destruct H as (dw & st1 & r1 & st2 & _ & Hbuy & Hsell & Hfin).
  apply buy_block_shares in Hbuy. apply sell_block_inv in Hsell.
  apply finish_week_inv in Hfin. destruct Hfin as (_ & -> & _).
  destruct (PrimFloat.ltb float0 (sell_total_qty vals)); subst st2; simpl; auto.
Qed.

Lemma weeks_from_shares cp ex weeks :
  forall ks st st' rs,
    0 <= cumulative_shares st ->
    weeks_from cp ex weeks st ks = Ok (st', rs) ->
    Forall (fun r => exists a b,
                cell "Start" r = str_of_int a /\ cell "Gesamt" r = str_of_int b
                /\ 0 <= a /\ (b = 0 \/ a <= b)) rs.
Proof.
  induction ks as [|k ks IH]; intros st st' rs Hst; simpl.
  - intros H. injection H as _ <-. constructor.
  - destruct (dict_get k weeks) as [vals|]; [|discriminate].
    intros H. inv_bind H. destruct a as [st1 r]. inv_bind H.
    destruct a as [st2 rs']. injection H as _ <-.
    pose proof (process_week_shares _ _ _ _ _ _ _ Hm) as Hsh.
    pose proof (process_week_cells _ _ _ _ _ _ _ Hm) as (_ & Hstart & Hges & _).
    constructor.
    + exists (cumulative_shares st), (cumulative_shares st1). auto.
    + apply (IH st1 st2); [lia | exact Hm0].
Qed.

(** X11.  In every row computed for a symbol, [Start] and [Gesamt] render
    integers: the shares carried in are not negative, and the shares at
    the end of the week are either zero (after a sale) or no fewer than
    the shares carried in. *)
Theorem shares_never_negative current_kw positions states sym weeks inv rs :
  process_symbol current_kw positions states sym weeks = Ok (inv, rs) ->
  forall r, In r rs ->
    exists a b,
      cell "Start" r = str_of_int a /\ cell "Gesamt" r = str_of_int b
      /\ 0 <= a /\ (b = 0 \/ a <= b).
Proof.
  unfold process_symbol, run_weeks. intros H.
  inv_bind H. inv_bind H. rewrite run_weeks_from in H. inv_bind H.
  destruct a1 as [st out]. inv_bind Hm1. destruct a1 as [st1 rs1].
  simpl in Hm1. injection Hm1 as <- <-. injection H as _ <-.
  apply weeks_from_shares in Hm2; [|simpl; lia].
  rewrite Forall_forall in Hm2. exact Hm2.
Qed.

(** ** What the stored rows and the prices reach *)

Lemma same_except_refl cs (r : row) : same_except cs r r.
Proof. intros c _. reflexivity. Qed.

Lemma same_except_set cs k v (r1 r2 : row) :
  same_except cs r1 r2 -> same_except cs (dict_set k v r1) (dict_set k v r2).
Proof.
  intros H c Hc. rewrite !dict_get_set. destruct (String.eqb c k); auto.
Qed.

Lemma same_except_set_free cs k v1 v2 (r1 r2 : row) :
  str_mem k cs = true ->
  same_except cs r1 r2 -> same_except cs (dict_set k v1 r1) (dict_set k v2 r2).
Proof.
  intros Hk H c Hc. rewrite !dict_get_set.
  destruct (String.eqb c k) eqn:E; [|auto].
  apply String.eqb_eq in E. subst c. congruence.
Qed.

Lemma same_except_set_l cs k v (r1 r2 : row) :
  str_mem k cs = true ->
  same_except cs r1 r2 -> same_except cs (dict_set k v r1) r2.
Proof.
  intros Hk H c Hc. rewrite dict_get_set.
  destruct (String.eqb c k) eqn:E; [|auto].
  apply String.eqb_eq in E. subst c. congruence.
Qed.

Lemma same_except_set_r cs k v (r1 r2 : row) :
  str_mem k cs = true ->
  same_except cs r1 r2 -> same_except cs r1 (dict_set k v r2).
Proof.
  intros Hk H c Hc. rewrite dict_get_set.
  destruct (String.eqb c k) eqn:E; [|auto].
  apply String.eqb_eq in E. subst c. congruence.
Qed.

Lemma buy_block_frame cs cp cp' vals st r1 r2 st1 r1' st2 r2' :
  cp = cp' \/ str_mem "Preis" cs = true ->
  same_except cs r1 r2 ->
  buy_block cp vals st r1 = Ok (st1, r1') ->
  buy_block cp' vals st r2 = Ok (st2, r2') ->
  st1 = st2 /\ same_except cs r1' r2'.
Proof.
  unfold buy_block. intros Hcp Hr H1 H2.
  destruct (PrimFloat.ltb float0 (buy_total_qty vals)).
  - inv_bind H1. inv_bind H1. inv_bind H2. inv_bind H2.
    assert (a1 = a) by congruence. assert (a2 = a0) by congruence. subst a1 a2.
    destruct (PrimFloat.leb (buy_total_cost vals) (net_div_of vals)).
    + inv_bind H1. inv_bind H1. inv_bind H2. inv_bind H2.
      assert (a3 = a1) by congruence. subst a3.
      assert (a4 = a2) by congruence. subst a4.
      injection H1 as <- <-. injection H2 as <- <-.
      split; [reflexivity|]. auto using same_except_set.
    + injection H1 as <- <-. injection H2 as <- <-.
      split; [reflexivity|]. auto using same_except_set.
  - injection H1 as <- <-. injection H2 as <- <-. split; [reflexivity|].
    apply same_except_set.
    destruct Hcp as [<-|Hp].
    + destruct (PrimFloat.ltb float0 cp); auto using same_except_set.
    + destruct (PrimFloat.ltb float0 cp), (PrimFloat.ltb float0 cp');
        auto using same_except_set_free, same_except_set_l, same_except_set_r.
Qed.

Lemma finish_week_frame cs cp cp' vals st r1 r2 st1 r1' st2 r2' :
  cp = cp' \/ str_mem "Wert" cs = true ->
  same_except cs r1 r2 ->
  finish_week cp vals st r1 = Ok (st1, r1') ->
  finish_week cp' vals st r2 = Ok (st2, r2') ->
  st1 = st2 /\ same_except cs r1' r2'.
Proof.
  unfold finish_week. intros Hcp Hr H1 H2.
  inv_bind H1. inv_bind H1. inv_bind H1. inv_bind H2. inv_bind H2. inv_bind H2.
  assert (a3 = a0) by congruence. assert (a4 = a1) by congruence. subst a3 a4.
  injection H1 as <- <-. injection H2 as <- <-. split; [reflexivity|].
  repeat apply same_except_set.
  destruct Hcp as [<-|Hw].
  - assert (a2 = a) by congruence. subst a2. auto using same_except_set.
  - auto using same_except_set_free, same_except_set.
Qed.

Lemma process_week_frame cs cp cp' ex ex' st kw vals st1 r1 st2 r2 :
  cp = cp' \/ (str_mem "Preis" cs = true /\ str_mem "Wert" cs = true) ->
  ex = ex' \/ str_mem "Div/W" cs = true ->
  process_week cp ex st kw vals = Ok (st1, r1) ->
  process_week cp' ex' st kw vals = Ok (st2, r2) ->
  st1 = st2 /\ same_except cs r1 r2.
Proof.
  intros Hcp Hex H1 H2.
  apply process_week_inv in H1. destruct H1 as (dw & sa & ra & sb & Hdw & Hb & Hs & Hf).
  apply process_week_inv in H2.
  destruct H2 as (dw' & sa' & ra' & sb' & Hdw' & Hb' & Hs' & Hf').
  assert (Hr0 : same_except cs (dict_set "Div/W" dw (row_head kw st vals))
                  (dict_set "Div/W" dw' (row_head kw st vals))).
  { destruct Hex as [<-|Hd].
    - assert (dw' = dw) by congruence. subst dw'. apply same_except_refl.
    - apply same_except_set_free; [exact Hd | apply same_except_refl]. }
  destruct (buy_block_frame cs _ _ _ _ _ _ _ _ _ _
              (match Hcp with or_introl E => or_introl E
                            | or_intror (conj P _) => or_intror P end)
              Hr0 Hb Hb') as [<- Hra].
  assert (sb' = sb) by congruence. subst sb'.
  apply (finish_week_frame cs cp cp' vals sb ra ra'); auto.
  destruct Hcp as [E|[_ W]]; auto.
Qed.

Lemma weeks_from_frame cs cp cp' ex ex' weeks :
  cp = cp' \/ (str_mem "Preis" cs = true /\ str_mem "Wert" cs = true) ->
  ex = ex' \/ str_mem "Div/W" cs = true ->
  forall ks st st1 rs1 st2 rs2,
    weeks_from cp ex weeks st ks = Ok (st1, rs1) ->
    weeks_from cp' ex' weeks st ks = Ok (st2, rs2) ->
    st1 = st2 /\ Forall2 (same_except cs) rs1 rs2.
Proof.
  intros Hcp Hex. induction ks as [|k ks IH]; intros st st1 rs1 st2 rs2; simpl.
  - intros H1 H2. injection H1 as <- <-. injection H2 as <- <-.
    split; [reflexivity | constructor].
  - destruct (dict_get k weeks) as [vals|]; [|discriminate].
    intros H1 H2. inv_bind H1. destruct a as [sa ra]. inv_bind H1.
    destruct a as [sb rb]. injection H1 as <- <-.
    inv_bind H2. destruct a as [sa' ra']. inv_bind H2.
    destruct a as [sb' rb']. injection H2 as <- <-.
    destruct (process_week_frame cs _ _ _ _ _ _ _ _ _ _ _ Hcp Hex Hm Hm1)
      as [<- Hr].
    destruct (IH _ _ _ _ _ Hm0 Hm2) as [<- Hrs].
    split; [reflexivity | constructor; assumption].
Qed.

Lemma process_symbol_frame cs current_kw positions positions' states states'
    sym weeks inv rs inv' rs' :
  price_of positions sym = price_of positions' sym
  \/ (str_mem "Preis" cs = true /\ str_mem "Wert" cs = true) ->
  stored_rows states sym = stored_rows states' sym
  \/ str_mem "Div/W" cs = true ->
  process_symbol current_kw positions states sym weeks = Ok (inv, rs) ->
  process_symbol current_kw positions' states' sym weeks = Ok (inv', rs') ->
  inv' = inv /\ Forall2 (same_except cs) rs rs'.
Proof.
  unfold process_symbol, run_weeks. intros Hcp Hex H1 H2.
  inv_bind H1. inv_bind H1. rewrite run_weeks_from in H1. inv_bind H1.
  destruct a1 as [st out]. inv_bind Hm1. destruct a1 as [st1 rs1].
  simpl in Hm1. injection Hm1 as <- <-. injection H1 as <- <-.
  inv_bind H2. inv_bind H2. rewrite run_weeks_from in H2. inv_bind H2.
  destruct a3 as [st' out']. inv_bind Hm4. destruct a3 as [st2 rs2].
  simpl in Hm4. injection Hm4 as <- <-. injection H2 as <- <-.
  assert (a1 = a) by congruence. subst a1.
  assert (Hex' : a0 = a2 \/ str_mem "Div/W" cs = true).
  { destruct Hex as [E|D]; [left | right; exact D].
    rewrite E in Hm0. congruence. }
  destruct (weeks_from_frame cs _ _ _ _ _ Hcp Hex' _ _ _ _ _ _ Hm2 Hm5)
    as [<- Hrs].
  split; [reflexivity | exact Hrs].
Qed.

(** X12.  The stored rows reach the [Div/W] column only: two passes over
    the same weeks of a symbol that read different stored states yield the
    same invested capital, and rows that agree in every other column. *)
Theorem stored_rows_reach_only_div_w current_kw positions states states'
    sym weeks inv rs inv' rs' :
  process_symbol current_kw positions states sym weeks = Ok (inv, rs) ->
  process_symbol current_kw positions states' sym weeks = Ok (inv', rs') ->
  inv' = inv
  /\ Forall2 (fun r r' => forall c, c <> "Div/W" -> cell c r' = cell c r) rs rs'.
Proof.
  intros H1 H2.
  destruct (process_symbol_frame ["Div/W"] _ _ _ _ _ _ _ _ _ _ _
              (or_introl eq_refl) (or_intror eq_refl) H1 H2) as [E Hrs].
  split; [exact E|]. eapply Forall2_impl; [|exact Hrs].
  intros r r' Hr c Hc. unfold cell. rewrite (Hr c); [reflexivity|].
  simpl. apply String.eqb_neq in Hc. rewrite Hc. reflexivity.
Qed.

(** X13.  The prices of the positions reach the [Preis] and [Wert]
    columns only: two passes over the same weeks of a symbol with
    different positions yield the same invested capital, and rows that
    agree in every other column. *)
Theorem prices_reach_only_price_cells current_kw positions positions' states
    sym weeks inv rs inv' rs' :
  process_symbol current_kw positions states sym weeks = Ok (inv, rs) ->
  process_symbol current_kw positions' states sym weeks = Ok (inv', rs') ->
  inv' = inv
  /\ Forall2 (fun r r' => forall c, c <> "Preis" -> c <> "Wert" ->
                                    cell c r' = cell c r) rs rs'.
Proof.
  intros H1 H2.
  destruct (process_symbol_frame ["Preis"; "Wert"] _ _ _ _ _ _ _ _ _ _ _
              (or_intror (conj eq_refl eq_refl)) (or_introl eq_refl) H1 H2)
    as [E Hrs].
  split; [exact E|]. eapply Forall2_impl; [|exact Hrs].
  intros r r' Hr c Hp Hw. unfold cell. rewrite (Hr c); [reflexivity|].
  simpl. apply String.eqb_neq in Hp, Hw. rewrite Hp, Hw. reflexivity.
Qed.

(** ** The trade editor *)

Lemma editor_accept_get oid :
  forall trade_checks ignored,
    NoDup (dict_keys trade_checks) ->
    get_or (dict_get oid (editor_accept trade_checks ignored)) false
    = match dict_get oid trade_checks with
      | Some checked => checked
      | None => get_or (dict_get oid ignored) false
      end.
Proof.
  unfold editor_accept.
  induction trade_checks as [|[k b] checks IH]; intros ignored Hnd; simpl;
    [reflexivity|].
  inversion Hnd as [|? ? Hnot Hnd']; subst. rewrite IH by exact Hnd'.
  destruct (String.eqb oid k) eqn:E.
  - apply String.eqb_eq in E. subst k.
    assert (Hnone : dict_get oid checks = None).
    { destruct (dict_get oid checks) eqn:Eg; [|reflexivity].
      exfalso. apply Hnot. apply dict_mem_in_keys. unfold dict_mem.
      rewrite Eg. reflexivity. }
    rewrite Hnone. destruct b.
    + rewrite dict_get_set, String.eqb_refl. reflexivity.
    + rewrite dict_get_pop, String.eqb_refl. reflexivity.
  - destruct (dict_get oid checks); [reflexivity|]. destruct b.
    + rewrite dict_get_set, E. reflexivity.
    + rewrite dict_get_pop, E. reflexivity.
Qed.

Lemma trade_checks_from_spec sym kw ignored :
  forall trades_list i checks,
    NoDup (dict_keys checks) ->
    (forall oid b, dict_get oid checks = Some b ->
                   b = get_or (dict_get oid ignored) false) ->
    NoDup (dict_keys (trade_checks_from sym kw ignored i trades_list checks))
    /\ forall oid b,
         dict_get oid (trade_checks_from sym kw ignored i trades_list checks)
         = Some b ->
         b = get_or (dict_get oid ignored) false.
Proof.
  induction trades_list as [|t rest IH]; intros i checks Hnd Hc; simpl;
    [auto|].
  apply IH.
  - apply dict_set_nodup. exact Hnd.
  - intros oid b. rewrite dict_get_set.
    destruct (String.eqb oid (editor_order_id sym kw i t)) eqn:E; [|apply Hc].
    apply String.eqb_eq in E. subst oid. congruence.
Qed.

Lemma editor_init_spec sym kw trades_list ignored :
  NoDup (dict_keys (editor_init sym kw trades_list ignored))
  /\ forall oid b,
       dict_get oid (editor_init sym kw trades_list ignored) = Some b ->
       b = get_or (dict_get oid ignored) false.
Proof.
  apply trade_checks_from_spec; [constructor | discriminate].
Qed.

Lemma set_checked_nodup oid b checks :
  NoDup (dict_keys checks) -> NoDup (dict_keys (set_checked oid b checks)).
Proof.
  intros H. unfold set_checked.
  destruct (dict_mem oid checks); [apply dict_set_nodup|]; exact H.
Qed.

(** X14.  Accepting the trade editor stores the boxes: afterwards an
    identifier that has a box is ignored exactly when its box is checked,
    and every other identifier is ignored exactly when it was before. *)
Theorem editor_accept_stores_boxes trade_checks ignored oid :
  NoDup (dict_keys trade_checks) ->
  get_or (dict_get oid (editor_accept trade_checks ignored)) false
  = match dict_get oid trade_checks with
    | Some checked => checked
    | None => get_or (dict_get oid ignored) false
    end.
Proof.
  apply editor_accept_get.
Qed.

(** X15.  Opening the trade editor and accepting it without touching a
    box changes the meaning of the ignore list for no identifier. *)
Theorem editor_ok_is_neutral sym kw trades_list ignored oid :
  get_or
    (dict_get oid (editor_accept (editor_init sym kw trades_list ignored) ignored))
    false
  = get_or (dict_get oid ignored) false.
Proof.
  destruct (editor_init_spec sym kw trades_list ignored) as [Hnd Hc].
  rewrite editor_accept_get by exact Hnd.
  destruct (dict_get oid (editor_init sym kw trades_list ignored)) as [b|] eqn:E;
    [|reflexivity].
  apply Hc. exact E.
Qed.

(** X16.  A fill whose box was checked when the editor was accepted
    contributes nothing to the next aggregation: with the ignore list the
    editor has saved, the feed with the fill yields the same weekly totals
    as the feed without it. *)
Theorem checked_fill_leaves_the_totals
    states ignored trade_checks acts1 a acts2 oid g :
  NoDup (dict_keys trade_checks) ->
  dict_get oid trade_checks = Some true ->
  a_activity_type a = Some "FILL" ->
  a_id a = Some oid ->
  normalize states (editor_accept trade_checks ignored) (acts1 ++ a :: acts2)
  = Ok g ->
  exists g',
    normalize states (editor_accept trade_checks ignored) (acts1 ++ acts2) = Ok g'
    /\ grouped g' = grouped g.
Proof.
  intros Hnd Hc Ht Hid H.
  assert (Hign : get_or (dict_get oid (editor_accept trade_checks ignored)) false
                 = true).
  { rewrite editor_accept_get by exact Hnd. rewrite Hc. reflexivity. }
  unfold normalize in *.
  rewrite foldM_app in H. inv_bind H. simpl in H. inv_bind H.
  rewrite foldM_app, Hm. simpl.
  unfold normalize_step in Hm0. inv_bind Hm0. destruct a2 as [[g' seen'] line].
  injection Hm0 as <-.
  destruct (normalize_event_ignored _ _ _ _ _ _ _ _ _ Ht Hid Hign Hm1) as (-> & Hrel).
  eapply (normalize_loop_sim _ _ oid); [exact Hign| | |exact H]; simpl; auto.
Qed.

(** ** The trades cache *)

Lemma cache_week_lookup sym kw ts cache s k :
  cache_lookup (cache_week sym kw ts cache) s k
  = if String.eqb s sym && String.eqb k kw then Some (map cached_of_trade ts)
    else cache_lookup cache s k.
Proof.
  unfold cache_lookup, cache_week. rewrite dict_get_set.
  destruct (String.eqb s sym) eqn:Es; simpl.
  - apply String.eqb_eq in Es. subst s. rewrite dict_get_set.
    destruct (String.eqb k kw); [reflexivity|].
    destruct (dict_mem sym cache) eqn:Em.
    + destruct (dict_get sym cache); reflexivity.
    + rewrite dict_get_set, String.eqb_refl. simpl.
      unfold dict_mem in Em. destruct (dict_get sym cache); [discriminate|].
      reflexivity.
  - destruct (dict_mem sym cache); [reflexivity|].
    rewrite dict_get_set, Es. reflexivity.
Qed.

Lemma cache_weeks_lookup sym (weeks : dict bucket) s k :
  forall ks cache cache',
    foldM
      (fun c kw =>
         match dict_get kw weeks with
         | Some vals => Ok (cache_week sym kw (trades vals) c)
         | None => Raise KeyError
         end) ks cache = Ok cache' ->
    cache_lookup cache' s k
    = if String.eqb s sym && str_mem k ks
      then option_map (fun vals => map cached_of_trade (trades vals))
             (dict_get k weeks)
      else cache_lookup cache s k.
Proof.
  induction ks as [|k0 ks IH]; intros cache cache'; simpl.
  - intros H. injection H as <-. rewrite andb_false_r. reflexivity.
  - destruct (dict_get k0 weeks) as [vals|] eqn:E0; simpl; [|discriminate].
    intros H. rewrite (IH _ _ H). rewrite cache_week_lookup.
    change (existsb (String.eqb k) ks) with (str_mem k ks).
    destruct (String.eqb s sym); simpl; [|reflexivity].
    destruct (str_mem k ks); simpl; [rewrite orb_true_r; reflexivity|].
    rewrite orb_false_r. destruct (String.eqb k k0) eqn:Ek; [|reflexivity].
    apply String.eqb_eq in Ek. subst k0. rewrite E0. reflexivity.
Qed.

Lemma cache_symbol_lookup current_kw cache sym weeks cache' s k :
  cache_symbol current_kw cache (sym, weeks) = Ok cache' ->
  cache_lookup cache' s k
  = if String.eqb s sym
    then match dict_get k weeks with
         | Some vals => Some (map cached_of_trade (trades vals))
         | None => if String.eqb k current_kw then Some []
                   else cache_lookup cache s k
         end
    else cache_lookup cache s k.
Proof.
  unfold cache_symbol. intros H. inv_bind H.
  rewrite (cache_weeks_lookup _ _ s k _ _ _ H).
  destruct (String.eqb s sym); simpl; [|reflexivity].
  apply sorted_weeks_perm in Hm.
  set (weeks' := if dict_mem current_kw weeks then weeks
                 else dict_set current_kw empty_bucket weeks) in *.
  assert (Hmem : str_mem k a = dict_mem k weeks').
  { destruct (dict_mem k weeks') eqn:E.
    - apply str_mem_in. apply (Permutation_in _ (Permutation_sym Hm)).
      apply dict_mem_in_keys. exact E.
    - destruct (str_mem k a) eqn:E'; [|reflexivity].
      apply str_mem_in in E'. apply (Permutation_in _ Hm) in E'.
      apply dict_mem_in_keys in E'. congruence. }
  rewrite Hmem. unfold weeks'. unfold dict_mem at 1.
  destruct (dict_mem current_kw weeks) eqn:Ec.
  - destruct (dict_get k weeks) eqn:Ek; simpl; [reflexivity|].
    destruct (String.eqb k current_kw) eqn:E; [|reflexivity].
    apply String.eqb_eq in E. subst k. unfold dict_mem in Ec.
    rewrite Ek in Ec. discriminate.
  - rewrite dict_get_set. destruct (String.eqb k current_kw) eqn:E; simpl.
    + apply String.eqb_eq in E. subst k. unfold dict_mem in Ec.
      destruct (dict_get current_kw weeks); [discriminate | reflexivity].
    + destruct (dict_get k weeks); reflexivity.
Qed.

Lemma cache_loop_other current_kw s k :
  forall g cache cache',
    foldM (cache_symbol current_kw) g cache = Ok cache' ->
    ~ In s (dict_keys g) ->
    cache_lookup cache' s k = cache_lookup cache s k.
Proof.
  induction g as [|[sym weeks] g IH]; intros cache cache'; simpl.
  - intros H _. injection H as <-. reflexivity.
  - intros H Hnot. inv_bind H. rewrite (IH _ _ H) by tauto.
    rewrite (cache_symbol_lookup _ _ _ _ _ s k Hm).
    destruct (String.eqb s sym) eqn:E; [|reflexivity].
    apply String.eqb_eq in E. subst s. tauto.
Qed.

Lemma cache_loop_lookup current_kw sym weeks k vals :
  forall g cache cache',
    NoDup (dict_keys g) ->
    foldM (cache_symbol current_kw) g cache = Ok cache' ->
    In (sym, weeks) g ->
    dict_get k weeks = Some vals ->
    cache_lookup cache' sym k = Some (map cached_of_trade (trades vals)).
Proof.
  induction g as [|[sym0 weeks0] g IH]; intros cache cache' Hnd; simpl;
    [intros _ []|].
  inversion Hnd as [|? ? Hnot Hnd']; subst.
  intros H [E|Hin] Hk.
  - injection E as -> ->. inv_bind H.
    rewrite (cache_loop_other _ sym k _ _ _ H Hnot).
    rewrite (cache_symbol_lookup _ _ _ _ _ sym k Hm), String.eqb_refl, Hk.
    reflexivity.
  - inv_bind H. eapply IH; eauto.
Qed.

Lemma fmt_kw_truthy w y : truthy (fmt_kw w y) = true.
Proof.
  unfold fmt_kw. destruct (fmt_02d w); reflexivity.
Qed.

Lemma trade_checks_from_all sym kw ignored (P : bool -> Prop) :
  forall trades_list i checks,
    (forall t j, In t trades_list ->
                 P (get_or (dict_get (editor_order_id sym kw j t) ignored) false)) ->
    (forall kv, In kv checks -> P (snd kv)) ->
    forall kv, In kv (trade_checks_from sym kw ignored i trades_list checks) ->
               P (snd kv).
Proof.
  induction trades_list as [|t rest IH]; intros i checks Ht Hc; simpl; [exact Hc|].
  apply IH.
  - intros t' j Hin. apply Ht. right. exact Hin.
  - intros [k b] Hin. apply dict_set_in in Hin. destruct Hin as [E|Hin].
    + injection E as _ ->. simpl. apply Ht. left. reflexivity.
    + apply (Hc _ Hin).
Qed.

(** X17.  After a sync that completes, the editor of a week of a symbol is
    handed the buys counted in that week, and every box starts unchecked:
    a trade on the ignore list is not offered, so the editor cannot take
    it off the list again. *)
Theorem editor_offers_the_counted_buys
    states ignored acts g current_etf current_kw cache cache' sym weeks kw vals :
  normalize states ignored acts = Ok g ->
  sync_trades_cache current_etf current_kw (grouped g) cache = Ok cache' ->
  dict_get sym (grouped g) = Some weeks ->
  dict_get kw weeks = Some vals ->
  offered_trades cache' sym (Some kw) = Some (map cached_of_trade (trades vals))
  /\ forall oid checked,
       In (oid, checked)
         (editor_init sym kw (map cached_of_trade (trades vals)) ignored) ->
       checked = false.
Proof.
  intros H Hc Hs Hk.
  pose proof (normalize_wf _ _ _ _ H) as [Hnd _].
  apply dict_get_in in Hs. pose proof (dict_get_in _ _ _ Hk) as Hkin.
  split.
  - unfold offered_trades.
    destruct (normalize_loop_keys _ _ _ gstate0 g
                ltac:(intros ? ? ? ? []) H sym weeks kw vals Hs Hkin)
      as (w & y & ->).
    rewrite fmt_kw_truthy. unfold sync_trades_cache in Hc.
    eapply cache_loop_lookup; eauto.
  - intros oid checked Hin.
    change (snd (oid, checked) = false).
    apply (trade_checks_from_all sym kw ignored (fun b => b = false)
             (map cached_of_trade (trades vals)) 0%nat []);
      [|intros ? []|exact Hin].
    intros t j Ht. apply in_map_iff in Ht. destruct Ht as (t0 & <- & Ht0).
    unfold editor_order_id. simpl.
    destruct (normalize_loop_trades states ignored acts gstate0 g) as [_ Hall];
      [split; constructor | exact H |].
    rewrite Forall_forall in Hall. apply Hall.
    unfold all_trades. apply in_flat_map. exists (sym, weeks). split; [exact Hs|].
    apply in_flat_map. exists (kw, vals). split; [exact Hkin | exact Ht0].
Qed.

(** ** The state file and the symbols at start *)

Lemma filter_hidden_set (k : string) (v : jvalue) (d : dict jvalue) :
  prefix "_" k = true ->
  filter (fun kv => negb (prefix "_" (fst kv))) (dict_set k v d)
  = filter (fun kv => negb (prefix "_" (fst kv))) d.
Proof.
  intros Hk. induction d as [|[k0 v0] d IH]; simpl.
  - rewrite Hk. reflexivity.
  - destruct (String.eqb k k0) eqn:E; simpl.
    + apply String.eqb_eq in E. subst k0. rewrite Hk. reflexivity.
    + rewrite IH. reflexivity.
Qed.





(** X19.  The symbol last viewed is restored: after
    [save_last_viewed_etf(name)] for a tracked symbol, the next start
    tracks the same symbols and shows [name]. *)
Theorem last_viewed_is_restored file states current_etf name :
  DivTracker_init file = Started states current_etf ->
  dict_mem name states = true ->
  DivTracker_init (save_last_viewed_etf name file) = Started states name.
Proof.
  intros H Hm. unfold DivTracker_init in *. cbv zeta in *.
  assert (Hg : get_last_viewed_etf (save_last_viewed_etf name file)
               = Some (JString name)).
  { unfold get_last_viewed_etf, save_last_viewed_etf, save_all_states.
    simpl load_all_states. rewrite dict_get_set. reflexivity. }
  rewrite Hg.
  unfold save_last_viewed_etf, save_all_states. simpl load_all_states.
  rewrite filter_hidden_set by reflexivity.
  match goal with
  | |- context [dict_mem name ?X] => set (st := X) in *
  end.
  assert (E : states = st).
  { destruct (get_last_viewed_etf file) as [[s|last]|]; [discriminate| |].
    - destruct (dict_mem last st).
      + injection H as <- _. reflexivity.
      + destruct (dict_keys st); [discriminate|]. injection H as <- _.
        reflexivity.
    - destruct (dict_keys st); [discriminate|]. injection H as <- _.
      reflexivity. }
  rewrite <- E, Hm. reflexivity.
Qed.



(** ** Adding and removing a symbol *)

Lemma dict_pop_fresh {V : Type} k (d : dict V) :
  dict_mem k d = false -> dict_pop k d = d.
Proof.
  unfold dict_mem, dict_pop. induction d as [|[k0 v0] d IH]; simpl; [reflexivity|].
  destruct (String.eqb k k0); [discriminate|]. simpl. intros H. f_equal. auto.
Qed.


Lemma dict_pop_length {V : Type} k (d : dict V) :
  NoDup (dict_keys d) -> (List.length d <= S (List.length (dict_pop k d)))%nat.
Proof.
  unfold dict_pop. induction d as [|[k0 v0] d IH]; simpl; [lia|].
  intros Hnd. inversion Hnd as [|? ? Hnot Hnd']; subst.
  destruct (String.eqb k k0) eqn:E; simpl.
  - apply String.eqb_eq in E. subst k0.
    assert (Hf : dict_mem k d = false).
    { destruct (dict_mem k d) eqn:Em; [|reflexivity].
      apply dict_mem_in_keys in Em. tauto. }
    pose proof (dict_pop_fresh k d Hf) as Ep. unfold dict_pop in Ep.
    rewrite Ep. lia.
  - specialize (IH Hnd'). lia.
Qed.

(** X21.  Removing a symbol never empties a tracked dictionary that
    holds one: the last symbol is refused. *)
Theorem removing_keeps_a_symbol name yes states :
  NoDup (dict_keys states) ->
  states <> [] ->
  remove_etf name yes states <> [].
Proof.
  intros Hnd Hne. unfold remove_etf.
  destruct (List.length states =? 1)%nat eqn:E; [exact Hne|].
  destruct yes; [|exact Hne].
  apply Nat.eqb_neq in E. pose proof (dict_pop_length name states Hnd) as Hl.
  intros Hnil. rewrite Hnil in Hl. simpl in Hl.
  destruct states as [|kv [|kv' l]]; simpl in *; try congruence; lia.
Qed.


(** ** Fills without an identifier *)

Lemma normalize_event_seen states ignored g seen a g' seen' line id :
  normalize_event states ignored g seen a = Ok (g', seen', line) ->
  str_mem id seen = true -> str_mem id seen' = true.
Proof.
  unfold normalize_event. intros H Hid.
  assert (Hadd : forall oid, str_mem id (str_add oid seen) = true).
  { intros oid. rewrite str_mem_add, Hid. apply orb_true_r. }
  repeat match type of H with
         | Ok _ = Ok _ => injection H as <- <- <-
         | bind ?m _ = Ok _ => inv_bind H
         | (if ?c then _ else _) = Ok _ => destruct c
         | match ?o with Some _ => _ | None => _ end = Ok _ => destruct o
         end; auto.
Qed.

Lemma normalize_loop_seen states ignored id acts :
  forall st st',
    foldM (normalize_step states ignored) acts st = Ok st' ->
    str_mem id (seen_order_ids st) = true ->
    str_mem id (seen_order_ids st') = true.
Proof.
  induction acts as [|a acts IH]; intros st st'; simpl.
  - intros H. injection H as <-. auto.
  - intros H Hid. inv_bind H. apply (IH _ _ H).
    unfold normalize_step in Hm. inv_bind Hm. destruct a1 as [[g seen] line].
    injection Hm as <-. simpl. eapply normalize_event_seen; eassumption.
Qed.

(** An executed fill of a tracked symbol leaves its identifier among
    those seen. *)
Lemma normalize_event_marks states ignored g seen a sym kw g' seen' line :
  a_activity_type a = Some "FILL" ->
  a_symbol a = Some sym -> sym <> "" -> dict_mem sym states = true ->
  date_of a <> "" -> kw_of_date (date_of a) = Ok kw ->
  is_execution a = true ->
  normalize_event states ignored g seen a = Ok (g', seen', line) ->
  str_mem (order_id_of a sym kw) seen' = true.
Proof.
  intros Ht Hs Hne Hm Hd Hkw Hex. unfold normalize_event.
  rewrite Ht, Hs. simpl get_or.
  assert (Hts : truthy sym = true) by (destruct sym; [congruence | reflexivity]).
  assert (Htd : truthy (date_of a) = true)
    by (destruct (date_of a); [congruence | reflexivity]).
  rewrite Hts, Hm, Htd, Hkw, Hex. simpl.
  set (oid := order_id_of a sym kw).
  assert (Hadd : str_mem oid (str_add oid seen) = true).
  { rewrite str_mem_add, String.eqb_refl. reflexivity. }
  destruct (str_mem oid seen) eqn:E.
  { intros H. injection H as _ <- _. exact E. }
  repeat match goal with
         | |- context [match a_side a with _ => _ end] => destruct (a_side a)
         | |- context [if ?c then _ else _] => destruct c
         end; intros H; injection H as _ <- _; exact Hadd.
Qed.

(** A fill whose identifier has been seen leaves the totals and the
    identifiers as they are. *)
Lemma normalize_event_seen_fill states ignored g seen b sym kw :
  a_activity_type b = Some "FILL" ->
  a_symbol b = Some sym ->
  kw_of_date (date_of b) = Ok kw ->
  str_mem (order_id_of b sym kw) seen = true ->
  exists line, normalize_event states ignored g seen b = Ok (g, seen, line).
Proof.
  intros Ht Hs Hkw Hseen. unfold normalize_event. rewrite Ht, Hs. simpl get_or.
  destruct (negb (truthy sym) || negb (dict_mem sym states)); [eauto|].
  destruct (negb (truthy (date_of b))); [eauto|].
  rewrite Hkw. simpl. destruct (negb (is_execution b)); [eauto|].
  rewrite Hseen. eauto.
Qed.

(** X24.  Of the fills of one symbol and one week that carry no
    identifier, only the first executed one is counted: a later one gets
    the same default identifier [f"{sym}_{kw}"] and is discarded, so the
    aggregation with it yields the same totals and the same identifiers
    as the aggregation without it. *)
Theorem fills_without_id_count_once
    states ignored acts1 a acts2 b acts3 sym kw g :
  a_activity_type a = Some "FILL" -> a_symbol a = Some sym -> a_id a = None ->
  sym <> "" -> dict_mem sym states = true ->
  date_of a <> "" -> kw_of_date (date_of a) = Ok kw ->
  is_execution a = true ->
  a_activity_type b = Some "FILL" -> a_symbol b = Some sym -> a_id b = None ->
  kw_of_date (date_of b) = Ok kw ->
  normalize states ignored (acts1 ++ a :: acts2 ++ b :: acts3) = Ok g ->
  exists g',
    normalize states ignored (acts1 ++ a :: acts2 ++ acts3) = Ok g'
    /\ grouped g' = grouped g
    /\ seen_order_ids g' = seen_order_ids g.
Proof.
  unfold normalize.
  intros Hta Hsa Hia Hne Hm Hda Hkwa Hex Htb Hsb Hib Hkwb H.
  rewrite foldM_app in H. inv_bind H. simpl in H. inv_bind H.
  rewrite foldM_app in H. inv_bind H. simpl in H. inv_bind H.
  rewrite foldM_app, Hm0. simpl. rewrite Hm1. simpl.
  rewrite foldM_app, Hm2. simpl.
  assert (Hseen : str_mem (order_id_of b sym kw) (seen_order_ids a2) = true).
  { apply (normalize_loop_seen _ _ _ _ _ _ Hm2).
    unfold normalize_step in Hm1. inv_bind Hm1. destruct a4 as [[g1 s1] l1].
    injection Hm1 as <-. simpl.
    replace (order_id_of b sym kw) with (order_id_of a sym kw)
      by (unfold order_id_of; rewrite Hia, Hib; reflexivity).
    eapply normalize_event_marks; eassumption. }
  destruct (normalize_event_seen_fill states ignored (grouped a2)
              (seen_order_ids a2) b sym kw Htb Hsb Hkwb Hseen) as (line & Hb).
  unfold normalize_step in Hm3. rewrite Hb in Hm3. simpl in Hm3.
  injection Hm3 as <-.
  apply normalize_loop_totals with (st2 := a2) in H; [|reflexivity|reflexivity].
  destruct H as (g' & Hg' & Eg & Es). exists g'. auto.
Qed.

(** ** The recalculation of the table *)

Lemma recalculate_row_inv ini st rw st' rw' :
  recalculate_row ini st rw = Ok (st', rw') ->
  exists d w a j rd,
    rw' = dict_set "Rendite" rd
            (dict_set "Jahr" j
               (dict_set "Ø/Woche" a (dict_set "Wert" w (dict_set "DRIP" d rw)))).
Proof.
  unfold recalculate_row. destruct st as [tn r]. intros H.
  inv_bind H. inv_bind H. inv_bind H. inv_bind H. injection H as _ <-.
  eauto 6.
Qed.

Lemma recalculate_row_other ini st rw st' rw' c :
  recalculate_row ini st rw = Ok (st', rw') ->
  existsb (String.eqb c) ["DRIP"; "Wert"; "Ø/Woche"; "Jahr"; "Rendite"] = false ->
  dict_get c rw' = dict_get c rw.
Proof.
  intros H Hc. apply recalculate_row_inv in H.
  destruct H as (d & w & a & j & rd & ->). simpl in Hc.
  repeat (apply orb_false_elim in Hc; destruct Hc as [? Hc]).
  rewrite !dict_get_set.
  repeat match goal with E : String.eqb c _ = false |- _ => rewrite E; clear E end.
  reflexivity.
Qed.

(** The iteration reads the row through three cells. *)
Lemma recalculate_row_reads ini st rw1 rw2 st' rw1' :
  cell "Preis" rw1 = cell "Preis" rw2 ->
  cell "Netto" rw1 = cell "Netto" rw2 ->
  cell "Gesamt" rw1 = cell "Gesamt" rw2 ->
  recalculate_row ini st rw1 = Ok (st', rw1') ->
  exists rw2',
    recalculate_row ini st rw2 = Ok (st', rw2')
    /\ forall c,
         existsb (String.eqb c) ["DRIP"; "Wert"; "Ø/Woche"; "Jahr"; "Rendite"]
         = true ->
         cell c rw1' = cell c rw2'.
Proof.
  unfold recalculate_row. destruct st as [tn r]. intros Hp Hn Hg H.
  rewrite <- Hp, <- Hn, <- Hg.
  inv_bind H. rewrite Hm. cbv beta iota delta [bind].
  inv_bind H. rewrite Hm0. cbv beta iota delta [bind].
  inv_bind H. rewrite Hm1. cbv beta iota delta [bind].
  inv_bind H. rewrite Hm2. cbv beta iota delta [bind].
  injection H as <- <-. eexists. split; [reflexivity|].
  intros c Hc. simpl in Hc. rewrite !cell_set.
  repeat (destruct (String.eqb c _); [reflexivity|]).
  discriminate.
Qed.

Lemma recalculate_row_again ini st rw st' rw' :
  recalculate_row ini st rw = Ok (st', rw') ->
  recalculate_row ini st rw' = Ok (st', rw').
Proof.
  intros H. pose proof H as Hinv. apply recalculate_row_inv in Hinv.
  destruct Hinv as (d & w & a & j & rd & E).
  assert (Hc : forall c,
             existsb (String.eqb c) ["DRIP"; "Wert"; "Ø/Woche"; "Jahr"; "Rendite"]
             = false -> cell c rw' = cell c rw).
  { intros c Hc. unfold cell.
    rewrite (recalculate_row_other _ _ _ _ _ c H Hc). reflexivity. }
  unfold recalculate_row in *. destruct st as [tn r].
  rewrite !Hc by reflexivity.
  inv_bind H. rewrite Hm. cbv beta iota delta [bind].
  inv_bind H. rewrite Hm0. cbv beta iota delta [bind].
  inv_bind H. rewrite Hm1. cbv beta iota delta [bind].
  inv_bind H. rewrite Hm2. cbv beta iota delta [bind].
  injection H as <- E'. do 2 f_equal.
  rewrite <- E' at 2.
  assert (Hget : forall k v, dict_get k rw' = Some v -> dict_set k v rw' = rw')
    by (intros; apply dict_set_same; assumption).
  rewrite (Hget "DRIP") by (rewrite <- E'; rewrite !dict_get_set; reflexivity).
  rewrite (Hget "Wert") by (rewrite <- E'; rewrite !dict_get_set; reflexivity).
  rewrite (Hget "Ø/Woche") by (rewrite <- E'; rewrite !dict_get_set; reflexivity).
  rewrite (Hget "Jahr") by (rewrite <- E'; rewrite !dict_get_set; reflexivity).
  rewrite (Hget "Rendite") by (rewrite <- E'; rewrite !dict_get_set; reflexivity).
  symmetry. exact E'.
Qed.

(** X26.  The recalculation of the table is idempotent: run on the table
    it has produced, with the same text in the input field, it produces
    that table again. *)
Theorem recalculation_is_idempotent invest_text t t' :
  recalculate_all invest_text t = Ok t' ->
  recalculate_all invest_text t' = Ok t'.
Proof.
  unfold recalculate_all. generalize (invest_of_text invest_text) as ini.
  intros ini. generalize (float0, 0) as st. revert t'.
  induction t as [|rw t IH]; intros t' st; simpl.
  - intros H. injection H as <-. reflexivity.
  - intros H. inv_bind H. destruct a as [st1 rw1]. inv_bind H.
    injection H as <-. simpl.
    rewrite (recalculate_row_again _ _ _ _ _ Hm). simpl.
    rewrite (IH _ _ Hm0). reflexivity.
Qed.

(** X27.  The recalculation writes five columns: in every row the cells
    of all columns other than [DRIP], [Wert], [Ø/Woche], [Jahr] and
    [Rendite] are left as they were. *)
Theorem recalculation_writes_five_columns invest_text t t' :
  recalculate_all invest_text t = Ok t' ->
  Forall2
    (fun rw rw' =>
       forall c, c <> "DRIP" -> c <> "Wert" -> c <> "Ø/Woche" -> c <> "Jahr" ->
                 c <> "Rendite" -> cell c rw' = cell c rw)
    t t'.
Proof.
  unfold recalculate_all. generalize (invest_of_text invest_text) as ini.
  intros ini. generalize (float0, 0) as st. revert t'.
  induction t as [|rw t IH]; intros t' st; simpl.
  - intros H. injection H as <-. constructor.
  - intros H. inv_bind H. destruct a as [st1 rw1]. inv_bind H.
    injection H as <-. constructor; [|eauto].
    intros c H1 H2 H3 H4 H5. unfold cell.
    rewrite (recalculate_row_other _ _ _ _ _ c Hm); [reflexivity|].
    simpl. apply String.eqb_neq in H1, H2, H3, H4, H5.
    rewrite H1, H2, H3, H4, H5. reflexivity.
Qed.

(** X28.  The recalculation reads three columns: on two tables whose rows
    agree in [Preis], [Netto] and [Gesamt] it succeeds alike and writes
    the same five cells in every row, whatever the other columns hold, the
    [Div/W] typed by the user included. *)
Theorem recalculation_reads_three_columns invest_text t1 t2 t1' :
  Forall2
    (fun rw1 rw2 =>
       cell "Preis" rw1 = cell "Preis" rw2
       /\ cell "Netto" rw1 = cell "Netto" rw2
       /\ cell "Gesamt" rw1 = cell "Gesamt" rw2)
    t1 t2 ->
  recalculate_all invest_text t1 = Ok t1' ->
  exists t2',
    recalculate_all invest_text t2 = Ok t2'
    /\ Forall2
         (fun rw1' rw2' =>
            cell "DRIP" rw1' = cell "DRIP" rw2'
            /\ cell "Wert" rw1' = cell "Wert" rw2'
            /\ cell "Ø/Woche" rw1' = cell "Ø/Woche" rw2'
            /\ cell "Jahr" rw1' = cell "Jahr" rw2'
            /\ cell "Rendite" rw1' = cell "Rendite" rw2')
         t1' t2'.
Proof.
  unfold recalculate_all. generalize (invest_of_text invest_text) as ini.
  intros ini. generalize (float0, 0) as st. intros st HF. revert st t1'.
  induction HF as [|rw1 rw2 t1 t2 (Hp & Hn & Hg) HF IH]; intros st t1'; simpl.
  - intros H. injection H as <-. exists []. split; [reflexivity | constructor].
  - intros H. inv_bind H. destruct a as [st1 rw1']. inv_bind H.
    injection H as <-.
    destruct (recalculate_row_reads _ _ _ rw2 _ _ Hp Hn Hg Hm) as (rw2' & E & Hc).
    destruct (IH _ _ Hm0) as (t2' & E2 & HF2).
    exists (rw2' :: t2'). rewrite E. simpl. rewrite E2. simpl.
    split; [reflexivity|]. constructor; [|exact HF2].
    repeat split; apply Hc; reflexivity.
Qed.

(** ** A save of the table and the next sync *)

Lemma weeks_kept_ext cp ex ex' weeks ks st :
  (forall kw, kept_div_w ex kw = kept_div_w ex' kw) ->
  foldM (week_body cp ex weeks) ks st = foldM (week_body cp ex' weeks) ks st.
Proof.
  intros H. apply foldM_ext. intros s k.
  unfold week_body, process_week, div_w_cell. rewrite H. reflexivity.
Qed.

Lemma kept_div_w_set ex k r kw :
  kept_div_w (dict_set k r ex) kw
  = if String.eqb kw k
    then (if truthy (strip (cell "Div/W" r)) then Some (cell "Div/W" r) else None)
    else kept_div_w ex kw.
Proof.
  unfold kept_div_w. rewrite dict_get_set. destruct (String.eqb kw k); reflexivity.
Qed.

(** Rows that the sync reads alike: the same week key and the same
    [Div/W] cell. *)
Lemma existing_rows_alike rs rs' :
  Forall2 (fun r r' => dict_get "KW" r' = dict_get "KW" r
                       /\ cell "Div/W" r' = cell "Div/W" r) rs rs' ->
  (forall r, In r rs -> dict_mem "KW" r = true) ->
  forall ex0 ex0',
    (forall kw, kept_div_w ex0 kw = kept_div_w ex0' kw) ->
    exists ex ex',
      foldM (fun d r => match dict_get "KW" r with
                        | Some kw => Ok (dict_set kw r d)
                        | None => Raise KeyError
                        end) rs ex0 = Ok ex
      /\ foldM (fun d r => match dict_get "KW" r with
                           | Some kw => Ok (dict_set kw r d)
                           | None => Raise KeyError
                           end) rs' ex0' = Ok ex'
      /\ forall kw, kept_div_w ex kw = kept_div_w ex' kw.
Proof.
  induction 1 as [|r r' rs rs' (Hk & Hd) HF IH]; intros Hkw ex0 ex0' H0; simpl.
  - eauto.
  - rewrite Hk. pose proof (Hkw r (or_introl eq_refl)) as Hm.
    unfold dict_mem in Hm. destruct (dict_get "KW" r) as [k|]; [|discriminate].
    simpl. apply IH.
    + intros r0 Hr0. apply Hkw. right. exact Hr0.
    + intros kw. rewrite !kept_div_w_set, Hd, H0. reflexivity.
Qed.

Lemma recalculate_rows_other ini :
  forall t st t',
    recalculate_rows ini st t = Ok t' ->
    Forall2 (fun rw rw' => dict_get "KW" rw' = dict_get "KW" rw
                           /\ dict_get "Div/W" rw' = dict_get "Div/W" rw) t t'.
Proof.
  induction t as [|rw t IH]; intros st t'; simpl.
  - intros H. injection H as <-. constructor.
  - intros H. inv_bind H. destruct a as [st1 rw1]. inv_bind H.
    injection H as <-. constructor; [|eauto].
    split; apply (recalculate_row_other _ _ _ _ _ _ Hm); reflexivity.
Qed.

Lemma recalculate_rows_one ini st rw t :
  recalculate_rows ini st [rw] = Ok t ->
  exists st' rw', recalculate_row ini st rw = Ok (st', rw') /\ t = [rw'].
Proof.
  cbn [recalculate_rows]. intros H. inv_bind H. destruct a as [st' rw'].
  cbn [bind] in H. injection H as <-. eauto.
Qed.

(** The rows that [save_state] stores after a refresh, beside the rows
    the refresh has read. *)
Lemma saved_rows_alike invest_text rs t :
  (forall r, In r rs -> dict_mem "KW" r = true) ->
  recalculate_all invest_text (populate_table rs) = Ok t ->
  Forall2 (fun r r' => dict_get "KW" r' = dict_get "KW" r
                       /\ cell "Div/W" r' = cell "Div/W" r)
    rs (map (fun rw => map (fun name => (name, cell name rw)) DATA_COLUMNS) t).
Proof.
  unfold recalculate_all, populate_table. intros Hkw H.
  apply recalculate_rows_other in H. revert t H.
  induction rs as [|r rs IH]; intros t H; simpl in H.
  - inversion H; subst. constructor.
  - inversion H as [|? rw' ? t0 (Hk & Hd) HF]; subst. simpl. constructor.
    + pose proof (Hkw r (or_introl eq_refl)) as Hm. unfold dict_mem in Hm.
      unfold cell in *. simpl in Hk, Hd. simpl. rewrite Hk, Hd.
      destruct (dict_get "KW" r); [split; reflexivity | discriminate].
    + apply IH; [|exact HF]. intros r0 Hr0. apply Hkw. right. exact Hr0.
Qed.

(** The pass of a symbol reads the state saved from the table as it reads
    the state the table was filled from. *)
Lemma process_symbol_saved
    current_kw positions states current_etf now invest_text t sym weeks :
  (forall r, In r (stored_rows states current_etf) -> dict_mem "KW" r = true) ->
  refresh_from_state states current_etf = Ok (invest_text, t) ->
  process_symbol current_kw positions
    (save_state invest_text t current_etf now states) sym weeks
  = process_symbol current_kw positions states sym weeks.
Proof.
  intros Hkw H. unfold refresh_from_state in H. inv_bind H.
  injection H as <- <-.
  destruct (String.eqb sym current_etf) eqn:E.
  2:{ apply process_symbol_rows_ext. unfold stored_rows, save_state.
      rewrite dict_get_set, E. reflexivity. }
  apply String.eqb_eq in E. subst sym.
  unfold process_symbol.
  destruct (sorted_weeks_of _) as [sorted|e]; simpl; [|reflexivity].
  assert (Hs : stored_rows (save_state
                 (fmt_2f (invest (get_or (dict_get current_etf states)
                    {| invest := float0; rows := []; last_modified := None |})))
                 a current_etf now states) current_etf
               = map (fun rw => map (fun name => (name, cell name rw)) DATA_COLUMNS) a).
  { unfold stored_rows, save_state. rewrite dict_get_set, String.eqb_refl.
    reflexivity. }
  rewrite Hs. clear Hs.
  assert (Hrows : rows (get_or (dict_get current_etf states)
                    {| invest := float0; rows := []; last_modified := None |})
                  = stored_rows states current_etf).
  { unfold stored_rows. destruct (dict_get current_etf states); reflexivity. }
  rewrite Hrows in Hm.
  assert (Hex : exists ex ex',
             existing_rows_of (stored_rows states current_etf) = Ok ex
             /\ existing_rows_of
                  (map (fun rw => map (fun name => (name, cell name rw)) DATA_COLUMNS) a)
                = Ok ex'
             /\ forall kw, kept_div_w ex kw = kept_div_w ex' kw).
  { unfold existing_rows_of.
    destruct (stored_rows states current_etf) as [|r rs] eqn:Er.
    - unfold recalculate_all, create_empty_row in Hm.
      apply recalculate_rows_one in Hm. destruct Hm as (st1 & rw1 & Hm0 & ->).
      pose proof (recalculate_row_other _ _ _ _ _ "KW" Hm0 eq_refl) as Hk.
      pose proof (recalculate_row_other _ _ _ _ _ "Div/W" Hm0 eq_refl) as Hd.
      simpl in Hk, Hd. simpl. unfold cell at 1. rewrite Hk. simpl.
      eexists. eexists. split; [reflexivity|]. split; [reflexivity|].
      intros kw. unfold kept_div_w. simpl dict_get.
      destruct (String.eqb kw ""); [|reflexivity].
      unfold cell. simpl dict_get. rewrite Hd. reflexivity.
    - rewrite <- Er in *. apply existing_rows_alike.
      + eapply saved_rows_alike; [exact Hkw|].
        rewrite Er in Hm |- *. exact Hm.
      + exact Hkw.
      + reflexivity. }
  destruct Hex as (ex & ex' & -> & -> & Hagree). simpl.
  unfold run_weeks. rewrite (weeks_kept_ext _ ex' ex) by (intros; symmetry; apply Hagree).
  reflexivity.
Qed.

(** X29.  The sync does not see what the table has saved: when the stored
    rows of the symbol shown carry their week key, the pass of any symbol
    over the state that [save_state] stores after a refresh is the pass
    over the state the refresh has read, the same result or the same
    exception. *)
Theorem sync_does_not_see_the_table
    current_kw positions states current_etf now invest_text t sym weeks :
  (forall r, In r (stored_rows states current_etf) -> dict_mem "KW" r = true) ->
  refresh_from_state states current_etf = Ok (invest_text, t) ->
  process_symbol current_kw positions
    (save_state invest_text t current_etf now states) sym weeks
  = process_symbol current_kw positions states sym weeks.
Proof.
  intros Hkw H. apply process_symbol_saved; assumption.
Qed.

Lemma sync_loop_runs current_kw positions items :
  forall s,
    NoDup (dict_keys items) ->
    (forall sym weeks,
        In (sym, weeks) items ->
        dict_mem sym s = true
        /\ exists inv rs,
             process_symbol current_kw positions s sym weeks = Ok (inv, rs)) ->
    exists s', foldM (sync_symbol current_kw positions) items s = Ok s'.
Proof.
  induction items as [|[sym0 weeks0] items IH]; intros s Hnd H; simpl; [eauto|].
  inversion Hnd as [|? ? Hnot Hnd']; subst.
  destruct (H sym0 weeks0 (or_introl eq_refl)) as (Hm & inv & rs & Hp).
  unfold sync_symbol at 1. rewrite Hp. simpl.
  unfold dict_mem in Hm. destruct (dict_get sym0 s) as [st0|] eqn:E0; [|discriminate].
  simpl. apply IH; [exact Hnd'|].
  intros sym weeks Hin.
  destruct (H sym weeks (or_intror Hin)) as (Hm' & inv' & rs' & Hp').
  assert (Hne : String.eqb sym sym0 = false).
  { apply String.eqb_neq. intros ->. apply Hnot.
    change (In (fst (sym0, weeks)) (map fst items)). apply in_map. exact Hin. }
  split.
  - rewrite dict_mem_set, Hne. exact Hm'.
  - exists inv', rs'. rewrite <- Hp'. apply process_symbol_rows_ext.
    unfold stored_rows. rewrite dict_get_set, Hne. reflexivity.
Qed.

(** X30.  A sync after a save of the table restores what the sync had
    stored: when the symbol shown has aggregated records, the same sync
    run on the state that [save_state] has stored after the refresh does
    not fail, and leaves every symbol the rows and the invested capital
    the first sync had left. *)
Theorem sync_after_a_save_restores_the_rows
    current_kw acts positions ignored states s1 g current_etf now invest_text t :
  reconcile current_kw acts positions ignored states = Ok s1 ->
  normalize s1 ignored acts = Ok g ->
  dict_mem current_etf (grouped g) = true ->
  refresh_from_state s1 current_etf = Ok (invest_text, t) ->
  exists s2,
    reconcile current_kw acts positions ignored
      (save_state invest_text t current_etf now s1) = Ok s2
    /\ forall sym,
         stored_rows s2 sym = stored_rows s1 sym
         /\ option_map invest (dict_get sym s2) = option_map invest (dict_get sym s1).
Proof.
  intros H Hg Hin Hr. unfold reconcile in H. inv_bind H.
  set (swd := symbols_with_divs acts) in *.
  set (s0 := add_symbols swd (drop_symbols swd states)) in *.
  pose proof (sync_loop_keys _ _ _ _ _ H) as Hkeys.
  assert (Hmem : forall k, dict_mem k s1 = str_mem k swd).
  { intros k. rewrite (dict_mem_keys_eq _ _ k Hkeys). apply tracked_after_update. }
  assert (Eg : a = g).
  { rewrite (normalize_tracked_ext s1 s0 ignored acts) in Hg;
      [congruence | intros k; apply dict_mem_keys_eq; exact Hkeys]. }
  subst a. destruct (normalize_wf _ _ _ _ Hm) as [Hnd Hweeks].
  assert (Hfirst : forall sym weeks,
             In (sym, weeks) (grouped g) ->
             exists inv rs lm,
               process_symbol current_kw positions s1 sym weeks = Ok (inv, rs)
               /\ dict_get sym s1
                  = Some {| invest := inv; rows := rs; last_modified := lm |}).
  { intros sym weeks Hsw.
    destruct (sync_loop_first _ _ _ _ _ Hnd H sym weeks Hsw)
      as (inv & rs & lm & Hp & Hget).
    exists inv, rs, lm. split; [|exact Hget].
    apply (process_symbol_idempotent _ _ s0); [eauto | exact Hp |].
    unfold stored_rows. rewrite Hget. reflexivity. }
  apply dict_mem_in_keys in Hin. unfold dict_keys in Hin. apply in_map_iff in Hin.
  destruct Hin as ([etf weeks_etf] & Ee & Hetf). simpl in Ee. subst etf.
  destruct (Hfirst _ _ Hetf) as (inv_e & rs_e & lm_e & Hp_e & Hget_e).
  assert (Hkw : forall r, In r (stored_rows s1 current_etf) ->
                          dict_mem "KW" r = true).
  { unfold stored_rows. rewrite Hget_e. simpl. intros r Hr0.
    apply process_symbol_weeks in Hp_e. destruct Hp_e as (sorted & _ & HF).
    clear - HF Hr0. induction HF as [|k r0 ks rs Hk HF IH]; [destruct Hr0|].
    destruct Hr0 as [<-|Hr0]; [|auto]. unfold dict_mem. rewrite Hk. reflexivity. }
  set (s1' := save_state invest_text t current_etf now s1).
  assert (Hkeys' : dict_keys s1' = dict_keys s1).
  { unfold s1', save_state. apply dict_keys_set_mem. unfold dict_mem.
    rewrite Hget_e. reflexivity. }
  assert (Hmem' : forall k, dict_mem k s1' = str_mem k swd).
  { intros k. rewrite (dict_mem_keys_eq _ _ k Hkeys'). apply Hmem. }
  assert (Hfix : add_symbols swd (drop_symbols swd s1') = s1').
  { rewrite drop_symbols_id.
    - apply add_symbols_id. intros k Hk. rewrite Hmem'. apply str_mem_in. exact Hk.
    - intros k Hk. rewrite <- Hmem'. apply dict_mem_in_keys. exact Hk. }
  assert (Hsaved : forall sym weeks,
             process_symbol current_kw positions s1' sym weeks
             = process_symbol current_kw positions s1 sym weeks).
  { intros sym weeks. apply process_symbol_saved; assumption. }
  destruct (sync_loop_runs current_kw positions (grouped g) s1' Hnd) as (s2 & Hs2).
  { intros sym weeks Hsw. destruct (Hfirst _ _ Hsw) as (inv & rs & lm & Hp & Hget).
    split.
    - rewrite (dict_mem_keys_eq _ _ sym Hkeys'). unfold dict_mem. rewrite Hget.
      reflexivity.
    - exists inv, rs. rewrite Hsaved. exact Hp. }
  exists s2. split.
  - unfold reconcile. fold swd. fold s1'. rewrite Hfix.
    rewrite (normalize_tracked_ext s1' s0 ignored acts), Hm;
      [|intros k; rewrite Hmem'; symmetry; apply tracked_after_update].
    simpl. exact Hs2.
  - intros sym.
    destruct (in_dec string_dec sym (dict_keys (grouped g))) as [Hsym|Hsym].
    + unfold dict_keys in Hsym. apply in_map_iff in Hsym.
      destruct Hsym as ([sym' weeks] & Es & Hsw). simpl in Es. subst sym'.
      destruct (Hfirst _ _ Hsw) as (inv & rs & lm & Hp & Hget).
      destruct (sync_loop_first _ _ _ _ _ Hnd Hs2 sym weeks Hsw)
        as (inv2 & rs2 & lm2 & Hp2 & Hget2).
      rewrite Hsaved, Hp in Hp2. injection Hp2 as <- <-.
      unfold stored_rows. rewrite Hget, Hget2. split; reflexivity.
    + assert (Hne : String.eqb sym current_etf = false).
      { apply String.eqb_neq. intros ->. apply Hsym.
        change (In (fst (current_etf, weeks_etf)) (map fst (grouped g))).
        apply in_map. exact Hetf. }
      assert (E2 : dict_get sym s2 = dict_get sym s1).
      { rewrite (sync_loop_untouched _ _ _ _ _ sym Hs2 Hsym).
        unfold s1', save_state. rewrite dict_get_set, Hne. reflexivity. }
      unfold stored_rows. rewrite E2. split; reflexivity.
Qed.

(** ** Scenarios of the further properties *)

Ltac distinct_keys :=
  repeat (constructor; [simpl; intuition discriminate|]); constructor.

(** The buy [f1] on the ignore list: the feed aggregates as the feed
    without it. *)
Lemma ignored_fill_contributes_nothing_witness :
  normalize tracked_ulty [("f1", true)] (buy_f1 :: [div_d1; tax_t1; sell_f2])
  = Ok feed_ignored_out
  /\ exists g',
       normalize tracked_ulty [("f1", true)] [div_d1; tax_t1; sell_f2] = Ok g'
       /\ grouped g' = grouped feed_ignored_out.
Proof.
  assert (H : normalize tracked_ulty [("f1", true)]
                ([] ++ buy_f1 :: [div_d1; tax_t1; sell_f2])
              = Ok feed_ignored_out) by (vm_compute; reflexivity).
  split; [exact H|].
  exact (ignored_fill_contributes_nothing tracked_ulty [("f1", true)] []
           buy_f1 [div_d1; tax_t1; sell_f2] "f1" feed_ignored_out
           eq_refl eq_refl eq_refl H).
Defined.

(** Week 01/2025 of the feed: 20 shares bought for $600. *)
Lemma buy_totals_are_sums_witness :
  normalize tracked_ulty [] feed_once = Ok feed_once_out
  /\ dict_get "01/2025" ulty_weeks = Some ulty_week_01
  /\ buy_total_qty ulty_week_01 = sum_qty (trades ulty_week_01)
  /\ buy_total_cost ulty_week_01 = sum_cost (trades ulty_week_01).
Proof.
  assert (H : normalize tracked_ulty [] feed_once = Ok feed_once_out)
    by (vm_compute; reflexivity).
  assert (Hs : dict_get "ULTY" (grouped feed_once_out) = Some ulty_weeks)
    by reflexivity.
  assert (Hk : dict_get "01/2025" ulty_weeks = Some ulty_week_01) by reflexivity.
  split; [exact H|]. split; [exact Hk|].
  exact (buy_totals_are_sums tracked_ulty [] feed_once feed_once_out "ULTY"
           ulty_weeks "01/2025" ulty_week_01 H Hs Hk).
Defined.

Lemma listed_trades_are_distinct_witness :
  normalize tracked_ulty [] feed_once = Ok feed_once_out
  /\ map order_id (all_trades (grouped feed_once_out)) = ["f1"]
  /\ NoDup (map order_id (all_trades (grouped feed_once_out)))
  /\ forall t, In t (all_trades (grouped feed_once_out)) ->
       str_mem (order_id t) (seen_order_ids feed_once_out) = true
       /\ get_or (dict_get (order_id t) []) false = false
       /\ PrimFloat.leb (t_qty t) float0 = false.
Proof.
  assert (H : normalize tracked_ulty [] feed_once = Ok feed_once_out)
    by (vm_compute; reflexivity).
  split; [exact H|]. split; [reflexivity|].
  exact (listed_trades_are_distinct tracked_ulty [] feed_once feed_once_out H).
Defined.



(** A server that repeats one full page: a thousand iterations do not
    end the fetch, and the sync does not get past it. *)
Lemma full_pages_never_end_witness :
  fetch_pages 1000 net_full 0 "FILL" None (Some "2025-01-21") [] = None
  /\ alpaca_sync_all 1000 net_full cfg_ok "2025-01-21" "04/2025" [] tracked_ulty
     = FetchUnfinished.
Proof.
  assert (Hnet : forall (n : nat) (after : option string),
             exists d ds last_date,
               net_full n (ReqActivities "FILL" after (Some "2025-01-21"))
               = RespActivities (d :: ds)
               /\ (100 <= List.length (d :: ds))%nat
               /\ str_or (a_date (last ds d)) (a_transaction_time (last ds d))
                  = Some last_date
               /\ last_date <> "").
  { intros n after.
    exists buy_f1, (repeat buy_f1 99), "2025-01-02T14:30:00Z".
    split; [reflexivity|]. split; [vm_compute; lia|].
    split; [reflexivity | discriminate]. }
  assert (H : fetch_pages 1000 net_full 0 "FILL" None (Some "2025-01-21") []
              = None)
    by exact (full_pages_never_end net_full "FILL" (Some "2025-01-21") Hnet
                1000%nat 0%nat None []).
  split; [exact H|].
  unfold alpaca_sync_all, get_all_activities_complete, get_activities_by_type.
  simpl truthy. cbv iota. simpl negb. simpl orb. cbv iota. rewrite H. reflexivity.
Defined.

(** The rows of the symbol in week 04/2025: weeks 01 to 04 of 2025. *)
Lemma rows_in_week_order_witness :
  process_symbol "04/2025" ulty_positions [] "ULTY" ulty_weeks = Ok ulty_pass_out
  /\ map (cell "KW") (snd ulty_pass_out)
     = ["01/2025"; "02/2025"; "03/2025"; "04/2025"]
  /\ exists keys,
       Forall2 (fun r key => sort_key (cell "KW" r) = Ok key)
         (snd ulty_pass_out) keys
       /\ StronglySorted (fun a b => key_le a b = true) keys.
Proof.
  assert (H : process_symbol "04/2025" ulty_positions [] "ULTY" ulty_weeks
              = Ok (fst ulty_pass_out, snd ulty_pass_out))
    by (vm_compute; reflexivity).
  split; [exact H|]. split; [reflexivity|].
  exact (rows_in_week_order "04/2025" ulty_positions [] "ULTY" ulty_weeks
           (fst ulty_pass_out) (snd ulty_pass_out) H).
Defined.

Lemma one_row_per_week_witness :
  process_symbol "04/2025" ulty_positions [] "ULTY" ulty_weeks = Ok ulty_pass_out
  /\ dict_mem "04/2025" ulty_weeks = false
  /\ NoDup (map (cell "KW") (snd ulty_pass_out))
  /\ forall k, In k (map (cell "KW") (snd ulty_pass_out))
               <-> k = "04/2025" \/ dict_mem k ulty_weeks = true.
Proof.
  assert (H : process_symbol "04/2025" ulty_positions [] "ULTY" ulty_weeks
              = Ok (fst ulty_pass_out, snd ulty_pass_out))
    by (vm_compute; reflexivity).
  assert (Hnd : NoDup (dict_keys ulty_weeks)) by (simpl; distinct_keys).
  split; [exact H|]. split; [reflexivity|].
  exact (one_row_per_week "04/2025" ulty_positions [] "ULTY" ulty_weeks
           (fst ulty_pass_out) (snd ulty_pass_out) Hnd H).
Defined.

Lemma week_sort_never_fails_witness :
  normalize tracked_ulty [] feed_once = Ok feed_once_out
  /\ exists sorted,
       sorted_weeks_of
         (dict_keys (if dict_mem (fmt_kw 4 2025) ulty_weeks then ulty_weeks
                     else dict_set (fmt_kw 4 2025) empty_bucket ulty_weeks))
       = Ok sorted.
Proof.
  assert (H : normalize tracked_ulty [] feed_once = Ok feed_once_out)
    by (vm_compute; reflexivity).
  assert (Hin : In ("ULTY", ulty_weeks) (grouped feed_once_out))
    by (left; reflexivity).
  split; [exact H|].
  exact (week_sort_never_fails tracked_ulty [] feed_once feed_once_out "ULTY"
           ulty_weeks 4 2025 H Hin).
Defined.

Lemma shares_never_negative_witness :
  process_symbol "04/2025" ulty_positions [] "ULTY" ulty_weeks = Ok ulty_pass_out
  /\ map (cell "Gesamt") (snd ulty_pass_out) = ["20"; "20"; "0"; "0"]
  /\ forall r, In r (snd ulty_pass_out) ->
       exists a b,
         cell "Start" r = str_of_int a /\ cell "Gesamt" r = str_of_int b
         /\ 0 <= a /\ (b = 0 \/ a <= b).
Proof.
  assert (H : process_symbol "04/2025" ulty_positions [] "ULTY" ulty_weeks
              = Ok (fst ulty_pass_out, snd ulty_pass_out))
    by (vm_compute; reflexivity).
  split; [exact H|]. split; [reflexivity|].
  exact (shares_never_negative "04/2025" ulty_positions [] "ULTY" ulty_weeks
           (fst ulty_pass_out) (snd ulty_pass_out) H).
Defined.

(** The pass with a stored rate of 0.5000 for week 02/2025 beside the
    pass from an empty state. *)
Lemma stored_rows_reach_only_div_w_witness :
  process_symbol "04/2025" ulty_positions [] "ULTY" ulty_weeks = Ok ulty_pass_out
  /\ process_symbol "04/2025" ulty_positions ulty_stored "ULTY" ulty_weeks
     = Ok ulty_pass_stored_out
  /\ map (cell "Div/W") (snd ulty_pass_out)
     <> map (cell "Div/W") (snd ulty_pass_stored_out)
  /\ fst ulty_pass_stored_out = fst ulty_pass_out
  /\ Forall2 (fun r r' => forall c, c <> "Div/W" -> cell c r' = cell c r)
       (snd ulty_pass_out) (snd ulty_pass_stored_out).
Proof.
  assert (H1 : process_symbol "04/2025" ulty_positions [] "ULTY" ulty_weeks
               = Ok (fst ulty_pass_out, snd ulty_pass_out))
    by (vm_compute; reflexivity).
  assert (H2 : process_symbol "04/2025" ulty_positions ulty_stored "ULTY" ulty_weeks
               = Ok (fst ulty_pass_stored_out, snd ulty_pass_stored_out))
    by (vm_compute; reflexivity).
  split; [exact H1|]. split; [exact H2|]. split; [vm_compute; discriminate|].
  exact (stored_rows_reach_only_div_w "04/2025" ulty_positions [] ulty_stored
           "ULTY" ulty_weeks (fst ulty_pass_out) (snd ulty_pass_out)
           (fst ulty_pass_stored_out) (snd ulty_pass_stored_out) H1 H2).
Defined.

(** The pass without a position beside the pass at a price of $55. *)
Lemma prices_reach_only_price_cells_witness :
  process_symbol "04/2025" ulty_positions [] "ULTY" ulty_weeks = Ok ulty_pass_out
  /\ process_symbol "04/2025" [] [] "ULTY" ulty_weeks = Ok ulty_pass_unpriced_out
  /\ map (cell "Wert") (snd ulty_pass_out)
     <> map (cell "Wert") (snd ulty_pass_unpriced_out)
  /\ fst ulty_pass_unpriced_out = fst ulty_pass_out
  /\ Forall2 (fun r r' => forall c, c <> "Preis" -> c <> "Wert" ->
                                    cell c r' = cell c r)
       (snd ulty_pass_out) (snd ulty_pass_unpriced_out).
Proof.
  assert (H1 : process_symbol "04/2025" ulty_positions [] "ULTY" ulty_weeks
               = Ok (fst ulty_pass_out, snd ulty_pass_out))
    by (vm_compute; reflexivity).
  assert (H2 : process_symbol "04/2025" [] [] "ULTY" ulty_weeks
               = Ok (fst ulty_pass_unpriced_out, snd ulty_pass_unpriced_out))
    by (vm_compute; reflexivity).
  split; [exact H1|]. split; [exact H2|]. split; [vm_compute; discriminate|].
  exact (prices_reach_only_price_cells "04/2025" ulty_positions [] []
           "ULTY" ulty_weeks (fst ulty_pass_out) (snd ulty_pass_out)
           (fst ulty_pass_unpriced_out) (snd ulty_pass_unpriced_out) H1 H2).
Defined.

(** The box of [f1] checked: the identifier is ignored afterwards, an
    identifier without a box is not. *)
Lemma editor_accept_stores_boxes_witness :
  f1_checked = [("f1", true)]
  /\ get_or (dict_get "f1" (editor_accept f1_checked [])) false = true
  /\ get_or (dict_get "f2" (editor_accept f1_checked [])) false = false.
Proof.
  assert (Hnd : NoDup (dict_keys f1_checked)) by (simpl; distinct_keys).
  split; [reflexivity|]. split.
  - exact (editor_accept_stores_boxes f1_checked [] "f1" Hnd).
  - exact (editor_accept_stores_boxes f1_checked [] "f2" Hnd).
Defined.

Lemma checked_fill_leaves_the_totals_witness :
  normalize tracked_ulty (editor_accept f1_checked [])
    (buy_f1 :: [div_d1; tax_t1; sell_f2]) = Ok feed_ignored_out
  /\ exists g',
       normalize tracked_ulty (editor_accept f1_checked [])
         [div_d1; tax_t1; sell_f2] = Ok g'
       /\ grouped g' = grouped feed_ignored_out.
Proof.
  assert (Hnd : NoDup (dict_keys f1_checked)) by (simpl; distinct_keys).
  assert (H : normalize tracked_ulty (editor_accept f1_checked [])
                ([] ++ buy_f1 :: [div_d1; tax_t1; sell_f2])
              = Ok feed_ignored_out) by (vm_compute; reflexivity).
  split; [exact H|].
  exact (checked_fill_leaves_the_totals tracked_ulty [] f1_checked []
           buy_f1 [div_d1; tax_t1; sell_f2] "f1" feed_ignored_out
           Hnd eq_refl eq_refl eq_refl H).
Defined.

Lemma editor_offers_the_counted_buys_witness :
  normalize tracked_ulty [] feed_once = Ok feed_once_out
  /\ sync_trades_cache "ULTY" "04/2025" (grouped feed_once_out) [] = Ok ulty_cache
  /\ offered_trades ulty_cache "ULTY" (Some "01/2025")
     = Some (map cached_of_trade (trades ulty_week_01))
  /\ forall oid checked,
       In (oid, checked)
         (editor_init "ULTY" "01/2025"
            (map cached_of_trade (trades ulty_week_01)) []) ->
       checked = false.
Proof.
  assert (H : normalize tracked_ulty [] feed_once = Ok feed_once_out)
    by (vm_compute; reflexivity).
  assert (Hc : sync_trades_cache "ULTY" "04/2025" (grouped feed_once_out) []
               = Ok ulty_cache) by (vm_compute; reflexivity).
  assert (Hs : dict_get "ULTY" (grouped feed_once_out) = Some ulty_weeks)
    by reflexivity.
  assert (Hk : dict_get "01/2025" ulty_weeks = Some ulty_week_01) by reflexivity.
  split; [exact H|]. split; [exact Hc|].
  exact (editor_offers_the_counted_buys tracked_ulty [] feed_once feed_once_out
           "ULTY" "04/2025" [] ulty_cache "ULTY" ulty_weeks "01/2025"
           ulty_week_01 H Hc Hs Hk).
Defined.

(** Two symbols in the file: the start shows the first, and the second
    after it was viewed. *)
Lemma last_viewed_is_restored_witness :
  DivTracker_init (Some two_symbols) = Started two_symbols "ULTY"
  /\ DivTracker_init (save_last_viewed_etf "MSTY" (Some two_symbols))
     = Started two_symbols "MSTY".
Proof.
  assert (H : DivTracker_init (Some two_symbols) = Started two_symbols "ULTY")
    by reflexivity.
  split; [exact H|].
  exact (last_viewed_is_restored (Some two_symbols) two_symbols "ULTY" "MSTY"
           H eq_refl).
Defined.


Lemma removing_keeps_a_symbol_witness :
  remove_etf "ULTY" true two_symbols = [("MSTY", new_state)]
  /\ remove_etf "MSTY" true [("MSTY", new_state)] = [("MSTY", new_state)]
  /\ remove_etf "ULTY" true two_symbols <> [].
Proof.
  assert (Hnd : NoDup (dict_keys two_symbols)) by (simpl; distinct_keys).
  assert (Hne : two_symbols <> []) by discriminate.
  split; [reflexivity|]. split; [reflexivity|].
  exact (removing_keeps_a_symbol "ULTY" true two_symbols Hnd Hne).
Defined.



(** Two buys of week 01/2025 without an identifier: 10 shares are
    counted, not 15. *)
Lemma fills_without_id_count_once_witness :
  normalize tracked_ulty []
    [buy_without_id "2025-01-02" 10 30; buy_without_id "2025-01-03" 5 31]
  = Ok two_buys_without_id_out
  /\ buy_total_qty (bucket_of (grouped two_buys_without_id_out) "ULTY" "01/2025")
     = 10%float
  /\ exists g',
       normalize tracked_ulty [] [buy_without_id "2025-01-02" 10 30] = Ok g'
       /\ grouped g' = grouped two_buys_without_id_out
       /\ seen_order_ids g' = seen_order_ids two_buys_without_id_out.
Proof.
  assert (H : normalize tracked_ulty []
                ([] ++ buy_without_id "2025-01-02" 10 30
                    :: [] ++ buy_without_id "2025-01-03" 5 31 :: [])
              = Ok two_buys_without_id_out) by (vm_compute; reflexivity).
  assert (Hne : "ULTY" <> "") by discriminate.
  assert (Hd : date_of (buy_without_id "2025-01-02" 10 30) <> "")
    by (vm_compute; discriminate).
  assert (Hka : kw_of_date (date_of (buy_without_id "2025-01-02" 10 30))
                = Ok "01/2025") by (vm_compute; reflexivity).
  assert (Hkb : kw_of_date (date_of (buy_without_id "2025-01-03" 5 31))
                = Ok "01/2025") by (vm_compute; reflexivity).
  split; [exact H|]. split; [reflexivity|].
  exact (fills_without_id_count_once tracked_ulty [] []
           (buy_without_id "2025-01-02" 10 30) []
           (buy_without_id "2025-01-03" 5 31) [] "ULTY" "01/2025"
           two_buys_without_id_out
           eq_refl eq_refl eq_refl Hne eq_refl Hd Hka eq_refl
           eq_refl eq_refl eq_refl Hkb H).
Defined.

(** The table of the symbol after its sync: the recalculation shows a
    [DRIP] of 2 where the sync has stored 0, and shows it again when it is
    run on its own result. *)
Lemma recalculation_is_idempotent_witness :
  recalculate_all (fst ulty_refresh) ulty_filled = Ok (snd ulty_refresh)
  /\ map (cell "DRIP") ulty_filled = ["0"; "0"; "0"; "0"]
  /\ map (cell "DRIP") (snd ulty_refresh) = ["2"; "0"; "0"; "0"]
  /\ recalculate_all (fst ulty_refresh) (snd ulty_refresh) = Ok (snd ulty_refresh).
Proof.
  assert (H : recalculate_all (fst ulty_refresh) ulty_filled
              = Ok (snd ulty_refresh)) by (vm_compute; reflexivity).
  split; [exact H|]. split; [reflexivity|]. split; [reflexivity|].
  exact (recalculation_is_idempotent (fst ulty_refresh) ulty_filled
           (snd ulty_refresh) H).
Defined.

Lemma recalculation_writes_five_columns_witness :
  recalculate_all (fst ulty_refresh) ulty_filled = Ok (snd ulty_refresh)
  /\ Forall2
       (fun rw rw' =>
          forall c, c <> "DRIP" -> c <> "Wert" -> c <> "Ø/Woche" -> c <> "Jahr" ->
                    c <> "Rendite" -> cell c rw' = cell c rw)
       ulty_filled (snd ulty_refresh).
Proof.
  assert (H : recalculate_all (fst ulty_refresh) ulty_filled
              = Ok (snd ulty_refresh)) by (vm_compute; reflexivity).
  split; [exact H|].
  exact (recalculation_writes_five_columns (fst ulty_refresh) ulty_filled
           (snd ulty_refresh) H).
Defined.

(** Another [Div/W] typed in every week: the five cells come out the
    same. *)
Lemma recalculation_reads_three_columns_witness :
  recalculate_all (fst ulty_refresh) ulty_filled = Ok (snd ulty_refresh)
  /\ recalculate_all (fst ulty_refresh) ulty_retyped = Ok ulty_retyped_out
  /\ map (cell "Div/W") ulty_retyped_out <> map (cell "Div/W") (snd ulty_refresh)
  /\ exists t2',
       recalculate_all (fst ulty_refresh) ulty_retyped = Ok t2'
       /\ Forall2
            (fun rw1' rw2' =>
               cell "DRIP" rw1' = cell "DRIP" rw2'
               /\ cell "Wert" rw1' = cell "Wert" rw2'
               /\ cell "Ø/Woche" rw1' = cell "Ø/Woche" rw2'
               /\ cell "Jahr" rw1' = cell "Jahr" rw2'
               /\ cell "Rendite" rw1' = cell "Rendite" rw2')
            (snd ulty_refresh) t2'.
Proof.
  assert (H : recalculate_all (fst ulty_refresh) ulty_filled
              = Ok (snd ulty_refresh)) by (vm_compute; reflexivity).
  assert (H2 : recalculate_all (fst ulty_refresh) ulty_retyped
               = Ok ulty_retyped_out) by (vm_compute; reflexivity).
  assert (HF : Forall2
                 (fun rw1 rw2 =>
                    cell "Preis" rw1 = cell "Preis" rw2
                    /\ cell "Netto" rw1 = cell "Netto" rw2
                    /\ cell "Gesamt" rw1 = cell "Gesamt" rw2)
                 ulty_filled ulty_retyped).
  { vm_compute. repeat (constructor; [repeat split; reflexivity|]). constructor. }
  split; [exact H|]. split; [exact H2|]. split; [vm_compute; discriminate|].
  exact (recalculation_reads_three_columns (fst ulty_refresh) ulty_filled
           ulty_retyped (snd ulty_refresh) HF H).
Defined.

(** The state saved from the table holds other rows than the sync has
    stored, and the pass of the symbol reads it alike. *)
Lemma sync_does_not_see_the_table_witness :
  refresh_from_state ulty_synced "ULTY" = Ok ulty_refresh
  /\ map (cell "DRIP") (stored_rows ulty_saved "ULTY")
     <> map (cell "DRIP") (stored_rows ulty_synced "ULTY")
  /\ process_symbol "04/2025" ulty_positions ulty_saved "ULTY" ulty_weeks
     = process_symbol "04/2025" ulty_positions ulty_synced "ULTY" ulty_weeks.
Proof.
  assert (H : refresh_from_state ulty_synced "ULTY"
              = Ok (fst ulty_refresh, snd ulty_refresh))
    by (vm_compute; reflexivity).
  assert (Hkw : forall r, In r (stored_rows ulty_synced "ULTY") ->
                          dict_mem "KW" r = true).
  { intros r Hr. vm_compute in Hr.
    repeat (destruct Hr as [<-|Hr]; [reflexivity|]). destruct Hr. }
  split; [exact H|]. split; [vm_compute; discriminate|].
  exact (sync_does_not_see_the_table "04/2025" ulty_positions ulty_synced "ULTY"
           "2025-01-21T10:00:00" (fst ulty_refresh) (snd ulty_refresh)
           "ULTY" ulty_weeks Hkw H).
Defined.

(** The sync of the feed, a save of the table, and the sync again. *)
Lemma sync_after_a_save_restores_the_rows_witness :
  reconcile "04/2025" feed_once ulty_positions [] [] = Ok ulty_synced
  /\ refresh_from_state ulty_synced "ULTY" = Ok ulty_refresh
  /\ exists s2,
       reconcile "04/2025" feed_once ulty_positions [] ulty_saved = Ok s2
       /\ forall sym,
            stored_rows s2 sym = stored_rows ulty_synced sym
            /\ option_map invest (dict_get sym s2)
               = option_map invest (dict_get sym ulty_synced).
Proof.
  assert (H : reconcile "04/2025" feed_once ulty_positions [] [] = Ok ulty_synced)
    by (vm_compute; reflexivity).
  assert (Hg : normalize ulty_synced [] feed_once = Ok feed_once_out)
    by (vm_compute; reflexivity).
  assert (Hr : refresh_from_state ulty_synced "ULTY"
               = Ok (fst ulty_refresh, snd ulty_refresh))
    by (vm_compute; reflexivity).
  split; [exact H|]. split; [exact Hr|].
  exact (sync_after_a_save_restores_the_rows "04/2025" feed_once ulty_positions
           [] [] ulty_synced feed_once_out "ULTY" "2025-01-21T10:00:00"
           (fst ulty_refresh) (snd ulty_refresh) H Hg eq_refl Hr).
Defined.
